(** * mindformers/auto_class.py: the auto-resolution classes

    A shallow embedding of [AutoConfig], [AutoModel], [AutoProcessor] and
    [AutoTokenizer]: the name/path resolver that maps a model identifier to
    a configuration file, fills the local cache from the bundled templates
    and hands the loaded tree to the registry-backed builders.

    The code is effectful Python: it queries and mutates the file system
    and a process-wide side table.  It is embedded as a state-and-exception
    monad over an explicit [world]; the state survives a raised exception,
    as it does in Python. *)

From Stdlib Require Import Ascii String List ZArith NArith Bool Lia.
From stdpp Require Import base option list strings gmap.

Local Open Scope string_scope.
Local Open Scope list_scope.
Set Warnings "-register-all".

(* ===================================================================== *)
(** ** Python strings *)
(* ===================================================================== *)

Module Str.

(** [s.split(sep)] for a one-character separator: the list is never
    empty, and two adjacent separators delimit an empty field. *)
Fixpoint split (sep : ascii) (s : string) : list string :=
  match s with
  | EmptyString => [EmptyString]
  | String c s' =>
      if Ascii.eqb c sep then EmptyString :: split sep s'
      else match split sep s' with
           | x :: xs => String c x :: xs
           | [] => [String c EmptyString]
           end
  end.

(** [s.split(sep)[0]] *)
Definition split0 (sep : ascii) (s : string) : string :=
  hd EmptyString (split sep s).

(** [s.startswith(p)] *)
Fixpoint startswith (s p : string) : bool :=
  match p, s with
  | EmptyString, _ => true
  | String _ _, EmptyString => false
  | String b p', String a s' => Ascii.eqb a b && startswith s' p'
  end.

(** [s.endswith(suf)]: some suffix of [s] is [suf]. *)
Fixpoint endswith (s suf : string) : bool :=
  String.eqb s suf ||
  match s with
  | EmptyString => false
  | String _ s' => endswith s' suf
  end.

(** [p in s] on two strings: [p] occurs in [s]. *)
Fixpoint contains (s p : string) : bool :=
  startswith s p ||
  match s with
  | EmptyString => false
  | String _ s' => contains s' p
  end.

(** [c in s] for a character. *)
Fixpoint has_char (c : ascii) (s : string) : bool :=
  match s with
  | EmptyString => false
  | String a s' => Ascii.eqb a c || has_char c s'
  end.

End Str.

(* ===================================================================== *)
(** ** os.path on POSIX path strings *)
(* ===================================================================== *)

Module Path.

Definition sep : ascii := "/"%char.

(** [posixpath.join(a, b)]: an absolute [b] discards [a]; otherwise the
    two are glued with exactly one separator between them. *)
Definition join (a b : string) : string :=
  if Str.startswith b "/" then b
  else if String.eqb a EmptyString || Str.endswith a "/" then a +:+ b
  else a +:+ "/" +:+ b.

(** [os.path.join(a, b1, ..., bn)] *)
Definition join_all (a : string) (bs : list string) : string :=
  fold_left join bs a.

(** A component that path resolution skips: the empty one (doubled,
    leading or trailing separator) and [.]. *)
Definition skipped (c : string) : bool :=
  String.eqb c EmptyString || String.eqb c ".".

(** [os.path.basename(p)]: what follows the last separator. *)
Definition basename (p : string) : string :=
  List.last (Str.split sep p) EmptyString.

(** The directory entries a path walks through, from the root.  The
    working directory of the process is the root of the modelled tree, so
    a relative and an absolute spelling of a path resolve alike. *)
Definition components (p : string) : list string :=
  filter (fun c => negb (skipped c)) (Str.split sep p).

End Path.

(* ===================================================================== *)
(** ** Python dictionaries with string keys *)
(* ===================================================================== *)

(** A [dict] keeps its keys in insertion order; assigning to a key that is
    present replaces the value where it stands, assigning to a new key
    appends. *)
Module Dict.
Section Ops.
Context {V : Type}.

(** [d.get(k)] *)
Fixpoint get (k : string) (d : list (string * V)) : option V :=
  match d with
  | [] => None
  | (k', v) :: d' => if String.eqb k' k then Some v else get k d'
  end.

(** [k in d] *)
Definition mem (k : string) (d : list (string * V)) : bool :=
  match get k d with Some _ => true | None => false end.

(** [d[k] = v], which is also [d.update({k: v})] *)
Fixpoint set (k : string) (v : V) (d : list (string * V)) : list (string * V) :=
  match d with
  | [] => [(k, v)]
  | (k', v') :: d' =>
      if String.eqb k' k then (k', v) :: d' else (k', v') :: set k v d'
  end.

(** [d.pop(k, None)] leaves the dictionary without the key. *)
Definition remove (k : string) (d : list (string * V)) : list (string * V) :=
  filter (fun kv => negb (String.eqb (fst kv) k)) d.

(** [d.keys()] *)
Definition keys (d : list (string * V)) : list string := map fst d.

End Ops.
End Dict.

(* ===================================================================== *)
(** ** The file system *)
(* ===================================================================== *)

(** A file system is a tree: a regular file with its text, or a directory
    with its entries in the order [os.listdir] reports them (an order the
    operating system chooses; the code takes it as it comes). *)
Inductive node : Type :=
| File (content : string)
| Dir (entries : list (string * node)).

Module FS.

(** Resolution of a list of components from a node. *)
Fixpoint lookup (cs : list string) (n : node) : option node :=
  match cs with
  | [] => Some n
  | c :: cs' =>
      match n with
      | File _ => None
      | Dir es =>
          match Dict.get c es with
          | Some m => lookup cs' m
          | None => None
          end
      end
  end.

(** Creation of every missing directory along [cs]; [None] when a regular
    file stands in the way. *)
Fixpoint mkdirs (cs : list string) (n : node) : option node :=
  match n with
  | File _ => None
  | Dir es =>
      match cs with
      | [] => Some n
      | c :: cs' =>
          match mkdirs cs' (default (Dir []) (Dict.get c es)) with
          | Some m => Some (Dir (Dict.set c m es))
          | None => None
          end
      end
  end.

(** Creation or replacement of the regular file at [cs] with text [t];
    [None] when the parent is not an existing directory or the target is
    a directory. *)
Fixpoint write (cs : list string) (t : string) (n : node) : option node :=
  match cs with
  | [] => None
  | c :: cs' =>
      match n with
      | File _ => None
      | Dir es =>
          match cs', Dict.get c es with
          | [], Some (Dir _) => None
          | [], _ => Some (Dir (Dict.set c (File t) es))
          | _ :: _, Some m =>
              match write cs' t m with
              | Some m' => Some (Dir (Dict.set c m' es))
              | None => None
              end
          | _ :: _, None => None
          end
      end
  end.

Definition is_dir (o : option node) : bool :=
  match o with Some (Dir _) => true | _ => false end.

Definition is_file (o : option node) : bool :=
  match o with Some (File _) => true | _ => false end.

(** The node a path string names; the empty string names nothing. *)
Definition resolve (p : string) (root : node) : option node :=
  if String.eqb p EmptyString then None else lookup (Path.components p) root.

End FS.

(* ===================================================================== *)
(** ** Configuration values *)
(* ===================================================================== *)

(** Modelled from the spec: the ConfigTree.  The classes [BaseConfig] and
    [MindFormerConfig] are imported by auto_class.py and are not part of
    it; the specification has them as ordered mappings from string keys
    to values (scalars, nested trees, sequences), and auto_class.py uses
    them through [update], [pop], [items], [in] and attribute access.  A
    [VConfig] is an instance of (a subclass of) [BaseConfig]: a mapping
    that knows its class name and has an object identity, the number
    [id(config)] returns.  A [VDict] is any other mapping, such as the
    tree [MindFormerConfig] builds from a yaml file. *)
Inductive value : Type :=
| VNone
| VBool (b : bool)
| VInt (z : Z)
| VStr (s : string)
| VList (l : list value)
| VDict (d : list (string * value))
| VConfig (cls : string) (ident : N) (d : list (string * value)).

(** Python truthiness, as [if not x] tests it. *)
Definition truthy (v : value) : bool :=
  match v with
  | VNone => false
  | VBool b => b
  | VInt z => negb (Z.eqb z 0)
  | VStr s => negb (String.eqb s EmptyString)
  | VList l => match l with [] => false | _ => true end
  | VDict d | VConfig _ _ d => match d with [] => false | _ => true end
  end.

(** The SupportList: family name to the identifiers supported under it. *)
Abbreviation support_list := (gmap string (list string)).

(* ===================================================================== *)
(** ** Exceptions *)
(* ===================================================================== *)

Inductive exc_class : Type :=
| TypeError | ValueError | KeyError | IndexError | AttributeError
| FileNotFoundError | FileExistsError | NotADirectoryError
| IsADirectoryError | SameFileError
| ExternalError (name : string).

(** What the message of an exception says; one constructor for each
    [raise] of auto_class.py, and one for the errors of the run time. *)
Inductive message : Type :=
| NotAYamlFile (path : string)
    (* "... should be a .yaml file for model config." *)
| NotSupported (identifier : string) (supported : support_list)
    (* "... is not a supported model type or a valid path to model config.
        supported model could be selected from ..." *)
| DefaultYamlMissing (path : string)
    (* "default yaml file path must be correct, but get ..." *)
| NotSupportedBy (identifier cls : string) (supported : support_list)
    (* "... does not exist, and it is not supported by ... please select
        from ..." and its twin "... does not exist, or it is not
        supported by ..." *)
| NotADirectory (path : string)
    (* "... is not a directory." *)
| PathDoesNotExist (path : string)
    (* "... does not exist, Please pass a valid the directory." *)
| NoYamlOrCkpt (dir : string)
    (* "there is no yaml file for model config or ckpt file for model
        weights in ..." *)
| DoesNotExist (path : string) (families : list string)
    (* "... does not exist. You can select one from ..." *)
| NoTokenizerConfig (path : string)
    (* "The file `tokenizer_config.json` should exits in the path ...,
        but not found." *)
| NoTokenizerClass (path : string) (keys : list string)
    (* "There should be the key word`tokenizer_class` in ..., but not
        found. The optional keys are ..." *)
| ConfigIsNone
    (* "a model cannot be built from config with config is None." *)
| BadConfig
    (* "config should be inherited from BaseConfig, or a path to .yaml
        file for model config." *)
| Runtime (what : string).

Record exn : Type := Raise { exn_class : exc_class; exn_message : message }.

(* ===================================================================== *)
(** ** The world and the monad *)
(* ===================================================================== *)

(** The calls that touch the file system, in the order they are made. *)
Inductive event : Type :=
| Makedirs (path : string)
| Copy (src dst : string)
| LoadYaml (path : string).

Definition is_load (e : event) : bool :=
  match e with LoadYaml _ => true | _ => false end.

(** The state a call runs in: the file system, the identity-to-name side
    table of MindFormerBook, the next unused object identity, and the log
    of file system calls made so far (most recent last). *)
Record world : Type := World {
  fs : node;
  config_to_name : gmap N value;
  next_ident : N;
  trace : list event
}.

(** A computation either returns or raises; the world it leaves is kept in
    both cases. *)
Definition M (A : Type) : Type := world -> (exn + A) * world.

Definition ret {A : Type} (a : A) : M A := fun w => (inr a, w).

Definition bind {A B : Type} (m : M A) (f : A -> M B) : M B :=
  fun w =>
    match m w with
    | (inr a, w') => f a w'
    | (inl e, w') => (inl e, w')
    end.

Declare Scope py_scope.
Delimit Scope py_scope with py.
Notation "'do' x <- m ; k" := (bind m (fun x => k))
  (at level 10, x name, m at level 100, k at level 200,
   format "'[v' 'do'  x  <-  m ; '/' k ']'") : py_scope.
Notation "'do' ' p <- m ; k" := (bind m (fun x => match x with p => k end))
  (at level 10, p pattern, m at level 100, k at level 200) : py_scope.
Notation "'run' m ; k" := (bind m (fun _ => k))
  (at level 10, m at level 100, k at level 200,
   format "'[v' 'run'  m ; '/' k ']'") : py_scope.
Local Open Scope py_scope.

Definition raise {A : Type} (c : exc_class) (msg : message) : M A :=
  fun w => (inl (Raise c msg), w).

(** Lifting of a pure computation that may raise. *)
Definition lift {A : Type} (r : exn + A) : M A := fun w => (r, w).

Definition log (e : event) : M unit :=
  fun w => (inr tt, World (fs w) (config_to_name w) (next_ident w) (trace w ++ [e])).

Definition set_fs (n : node) : M unit :=
  fun w => (inr tt, World n (config_to_name w) (next_ident w) (trace w)).

Definition get_fs : M node := fun w => (inr (fs w), w).

(** The world [w] with file system [root] and the calls [es] logged. *)
Definition touch (w : world) (root : node) (es : list event) : world :=
  World root (config_to_name w) (next_ident w) (trace w ++ es).

(** [if c: body] *)
Definition when (c : bool) (body : M unit) : M unit :=
  if c then body else ret tt.

(* ===================================================================== *)
(** ** os, os.path and shutil *)
(* ===================================================================== *)

Definition os_path_join : string -> string -> string := Path.join.

Definition os_path_exists (p : string) : M bool :=
  fun w => (inr (bool_decide (is_Some (FS.resolve p (fs w)))), w).

Definition os_path_isdir (p : string) : M bool :=
  fun w => (inr (FS.is_dir (FS.resolve p (fs w))), w).

Definition os_path_isfile (p : string) : M bool :=
  fun w => (inr (FS.is_file (FS.resolve p (fs w))), w).

(** [os.path.realpath(p)]: the canonical absolute spelling of [p]; it is
    defined for every string and is never empty. *)
Definition os_path_realpath (p : string) : string :=
  String "/" (String.concat "/" (Path.components p)).

(** Truthiness of a string. *)
Definition nonempty (s : string) : bool := negb (String.eqb s EmptyString).

(** [os.listdir(p)] *)
Definition os_listdir (p : string) : M (list string) :=
  fun w =>
    match FS.resolve p (fs w) with
    | Some (Dir es) => (inr (Dict.keys es), w)
    | Some (File _) => (inl (Raise NotADirectoryError (Runtime p)), w)
    | None => (inl (Raise FileNotFoundError (Runtime p)), w)
    end.

(** [os.makedirs(p)]: creates [p] and every missing directory above it;
    it raises when [p] exists already or a regular file is in the way. *)
Definition os_makedirs (p : string) : M unit :=
  run log (Makedirs p);
  do root <- get_fs;
  if String.eqb p EmptyString then raise FileNotFoundError (Runtime p)
  else if bool_decide (is_Some (FS.resolve p root))
  then raise FileExistsError (Runtime p)
  else match FS.mkdirs (Path.components p) root with
       | Some root' => set_fs root'
       | None => raise NotADirectoryError (Runtime p)
       end.

(** Reading the text of a regular file, as [open(p).read()] does. *)
Definition read_file (p : string) : M string :=
  fun w =>
    match FS.resolve p (fs w) with
    | Some (File t) => (inr t, w)
    | Some (Dir _) => (inl (Raise IsADirectoryError (Runtime p)), w)
    | None => (inl (Raise FileNotFoundError (Runtime p)), w)
    end.

(** [shutil.copy(src, dst)]: a directory [dst] receives the file under
    the base name of [src]; the source must be a regular file, distinct
    from the target, and the target must lie in an existing directory. *)
Definition shutil_copy (src dst : string) : M unit :=
  run log (Copy src dst);
  do isd <- os_path_isdir dst;
  let dst := if isd then os_path_join dst (Path.basename src) else dst in
  do root <- get_fs;
  if bool_decide (is_Some (FS.resolve src root))
     && bool_decide (is_Some (FS.resolve dst root))
     && bool_decide (Path.components src = Path.components dst)
  then raise SameFileError (Runtime src)
  else
    do t <- read_file src;
    match FS.write (Path.components dst) t root with
    | Some root' => set_fs root'
    | None =>
        if FS.is_dir (FS.resolve dst root)
        then raise IsADirectoryError (Runtime dst)
        else raise FileNotFoundError (Runtime dst)
    end.

(* ===================================================================== *)
(** ** Operations of Python on configuration values *)
(* ===================================================================== *)

(** [k in v] *)
Definition py_in (k : string) (v : value) : exn + bool :=
  match v with
  | VDict d | VConfig _ _ d => inr (Dict.mem k d)
  | VStr s => inr (Str.contains s k)
  | VList l =>
      inr (existsb (fun x => match x with VStr s => String.eqb s k | _ => false end) l)
  | _ => inl (Raise TypeError (Runtime "argument is not iterable"))
  end.

(** [v[k]] *)
Definition py_getitem (k : string) (v : value) : exn + value :=
  match v with
  | VDict d | VConfig _ _ d =>
      match Dict.get k d with
      | Some x => inr x
      | None => inl (Raise KeyError (Runtime k))
      end
  | _ => inl (Raise TypeError (Runtime "not subscriptable by a string"))
  end.

(** [v.pop(k, None)]: the value popped and what is left of [v]. *)
Definition py_pop (k : string) (v : value) : exn + (value * value) :=
  match v with
  | VDict d => inr (default VNone (Dict.get k d), VDict (Dict.remove k d))
  | VConfig c i d =>
      inr (default VNone (Dict.get k d), VConfig c i (Dict.remove k d))
  | VList _ => inl (Raise TypeError (Runtime "pop expected at most 1 argument"))
  | _ => inl (Raise AttributeError (Runtime "pop"))
  end.

(** [v.update({k: x})] *)
Definition py_update (k : string) (x : value) (v : value) : exn + value :=
  match v with
  | VDict d => inr (VDict (Dict.set k x d))
  | VConfig c i d => inr (VConfig c i (Dict.set k x d))
  | _ => inl (Raise AttributeError (Runtime "update"))
  end.

(** Modelled from the spec: attribute access [v.k] on a ConfigTree
    ([MindFormerConfig], [BaseConfig]; their classes are not part of
    auto_class.py).  The tree is a mapping whose keys read as attributes;
    a key that is absent reads as [None], and a value that is no tree has
    no such attribute. *)
Definition getattr (k : string) (v : value) : exn + value :=
  match v with
  | VDict d | VConfig _ _ d => inr (default VNone (Dict.get k d))
  | _ => inl (Raise AttributeError (Runtime k))
  end.

(** [v.k1.k2...kn] *)
Fixpoint getattr_path (ks : list string) (v : value) : exn + value :=
  match ks with
  | [] => inr v
  | k :: ks' =>
      match getattr k v with
      | inl e => inl e
      | inr x => getattr_path ks' x
      end
  end.

(** [id(v)] of a config object. *)
Definition py_id (v : value) : N :=
  match v with VConfig _ i _ => i | _ => 0%N end.

(* ===================================================================== *)
(** ** The collaborators of auto_class.py *)
(* ===================================================================== *)

(** What auto_class.py imports from the rest of the package: the static
    tables and folders of [MindFormerBook], the yaml and json parsers
    behind [MindFormerConfig] and [json.load], and the registry-backed
    builders.  The builders are functions of the tree they are handed. *)
Class Collaborators : Type := {
  Model : Type;
  Processor : Type;
  Tokenizer : Type;
  TokenizerClass : Type;
  get_model_support_list : support_list;
  get_tokenizer_support_list : support_list;
  get_default_checkpoint_download_folder : string;
  get_project_path : string;
  yaml_load : string -> exn + list (string * value);
  json_load : string -> exn + value;
  build_model_config : value -> exn + string * list (string * value);
  build_model : value -> exn + Model;
  build_processor : value -> option string -> exn + Processor;
  get_cls : string -> value -> exn + TokenizerClass;
  tokenizer_from_pretrained : TokenizerClass -> string -> node -> exn + Tokenizer
}.

(** [k in sl.keys()] *)
Definition in_keys (k : string) (sl : support_list) : bool :=
  bool_decide (is_Some (sl !! k)).

(** [name in sl[k]]; the code evaluates it only where [k] is a key. *)
Definition listed (name k : string) (sl : support_list) : bool :=
  bool_decide (name ∈ default [] (sl !! k)).

(** [sum(sl.values(), [])] *)
Definition all_values (sl : support_list) : list string :=
  concat (map snd (map_to_list sl)).

Section Shared.
Context `{Collaborators}.

(** [MindFormerConfig(path)]: the file is read and parsed into a tree. *)
Definition MindFormerConfig (path : string) : M value :=
  run log (LoadYaml path);
  do text <- read_file path;
  do d <- lift (yaml_load text);
  ret (VDict d).

(** Construction of a config object of class [cls]: it receives an
    identity no other object has. *)
Definition new_config (cls : string) (d : list (string * value)) : M value :=
  fun w =>
    (inr (VConfig cls (next_ident w) d),
     World (fs w) (config_to_name w) (N.succ (next_ident w)) (trace w)).

(** [BaseConfig(k1=v1, ..., kn=vn)] *)
Definition BaseConfig (kwargs : list (string * value)) : M value :=
  new_config "BaseConfig" kwargs.

(** [MindFormerBook.set_model_config_to_name(i, name)] *)
Definition set_model_config_to_name (i : N) (name : value) : M unit :=
  fun w =>
    (inr tt, World (fs w) (<[i := name]> (config_to_name w)) (next_ident w) (trace w)).

(** [MindFormerBook.get_model_config_to_name().get(i, None)] *)
Definition get_model_config_to_name (i : N) : M value :=
  fun w => (inr (default VNone (config_to_name w !! i)), w).

(** The block every [from_pretrained] runs on a supported name (the same
    statements stand in the four methods): the cache directory of the
    family is created when it is missing, and the cached yaml file is
    filled from the bundled default when it is missing.  It leaves
    [yaml_file]. *)
Definition cached_yaml_file (name : string) : M string :=
  let checkpoint_path :=
    os_path_join get_default_checkpoint_download_folder (Str.split0 "_" name) in
  do ex <- os_path_exists checkpoint_path;
  run when (negb ex) (os_makedirs checkpoint_path);
  let yaml_file := os_path_join checkpoint_path (name +:+ ".yaml") in
  do ex <- os_path_exists yaml_file;
  run when (negb ex)
    (let default_yaml_file :=
       Path.join_all get_project_path
         ["configs"; Str.split0 "_" name; "model_config"; name +:+ ".yaml"] in
     do ex <- os_path_exists default_yaml_file;
     if nonempty (os_path_realpath default_yaml_file) && ex
     then shutil_copy default_yaml_file yaml_file
     else raise FileNotFoundError (DefaultYamlMissing default_yaml_file));
  ret yaml_file.

(** The names of the specification for what the block computes. *)
Definition family (name : string) : string := Str.split0 "_" name.

Definition cache_dir (name : string) : string :=
  os_path_join get_default_checkpoint_download_folder (family name).

Definition cache_yaml (name : string) : string :=
  os_path_join (cache_dir name) (name +:+ ".yaml").

Definition default_yaml (name : string) : string :=
  Path.join_all get_project_path
    ["configs"; family name; "model_config"; name +:+ ".yaml"].

(** [name] is listed in [sl] under its family. *)
Definition supported (name : string) (sl : support_list) : bool :=
  in_keys (family name) sl && listed name (family name) sl.

(** The calls the block makes on a world where it succeeds: the directory
    is made when it is missing, the default is copied when the cached file
    is missing. *)
Definition made (name : string) (w : world) : list event :=
  if bool_decide (is_Some (FS.resolve (cache_dir name) (fs w)))
  then [] else [Makedirs (cache_dir name)].

Definition copied (name : string) (w : world) : list event :=
  if bool_decide (is_Some (FS.resolve (cache_yaml name) (fs w)))
  then [] else [Copy (default_yaml name) (cache_yaml name)].

End Shared.

(** [name] names nothing in the file system of [w]: it is a bare name. *)
Definition bare (name : string) (w : world) : Prop :=
  FS.resolve name (fs w) = None.

(** The cache directory [p] is there, or it is missing and can be made. *)
Definition dir_ready (p : string) (root : node) : Prop :=
  FS.is_dir (FS.resolve p root) = true
  \/ (FS.resolve p root = None /\ p <> EmptyString
      /\ is_Some (FS.mkdirs (Path.components p) root)).

(* ===================================================================== *)
(** ** class AutoConfig *)
(* ===================================================================== *)

Module AutoConfig.
Section Class.
Context `{Collaborators}.

Definition _support_list : support_list := get_model_support_list.

(** The last three statements of [from_pretrained]: the config object is
    built from [config_args.model.model_config] and its identity is
    recorded with [config_args.model.arch.type]. *)
Definition build (config_args : value) : M value :=
  do model <- lift (getattr "model" config_args);
  do model_config <- lift (getattr "model_config" model);
  do '(cls, d) <- lift (build_model_config model_config);
  do config <- new_config cls d;
  do model <- lift (getattr "model" config_args);
  do arch <- lift (getattr "arch" model);
  do type <- lift (getattr "type" arch);
  run set_model_config_to_name (py_id config) type;
  ret config.

(** The argument is a string by its type: the [TypeError] of the
    [isinstance] test cannot arise. *)
Definition from_pretrained (yaml_name_or_path : string) : M value :=
  do ex <- os_path_exists yaml_name_or_path;
  do config_args <-
    (if ex then
       if negb (Str.endswith yaml_name_or_path ".yaml")
       then raise ValueError (NotAYamlFile yaml_name_or_path)
       else MindFormerConfig yaml_name_or_path
     else if negb (in_keys (Str.split0 "_" yaml_name_or_path) _support_list)
             || negb (listed yaml_name_or_path
                        (Str.split0 "_" yaml_name_or_path) _support_list)
     then raise ValueError (NotSupported yaml_name_or_path _support_list)
     else
       do yaml_file <- cached_yaml_file yaml_name_or_path;
       MindFormerConfig yaml_file);
  build config_args.

Definition get_support_list : support_list := _support_list.

End Class.
End AutoConfig.

(* ===================================================================== *)
(** ** class AutoModel *)
(* ===================================================================== *)

Module AutoModel.

(** [_inverse_parse_config(config)]: every config object of the tree gets
    the key [type] with its class name.  The object is changed in place
    and returned, so it keeps its identity.  The recursion is written on
    the entries the object had and the [type] entry is set afterwards;
    [_inverse_parse_config_eq] below shows this to be the order of the
    source, which sets [type] first and then visits every entry. *)
Fixpoint _inverse_parse_config (config : value) : value :=
  match config with
  | VConfig class_name i d =>
      VConfig class_name i
        (Dict.set "type" (VStr class_name)
           (map (fun '(key, val) => (key, _inverse_parse_config val)) d))
  | _ => config
  end.

(** What [from_config] accepts: [None], a config object (an instance of
    [BaseConfig], with its class name, identity and entries), or a string
    taken as a path. *)
Inductive config_argument : Type :=
| ConfigNone
| ConfigObject (class_name : string) (ident : N) (d : list (string * value))
| ConfigPath (path : string).

Section Class.
Context `{Collaborators}.

Definition _support_list : support_list := get_model_support_list.

(** [_wrap_config(config)] *)
Definition _wrap_config (config : value) : M value :=
  do '(model_name, config) <- lift (py_pop "model_name" config);
  do model_name <-
    (match model_name with
     | VNone => get_model_config_to_name (py_id config)
     | _ => ret model_name
     end);
  do arch <- BaseConfig [("type", model_name)];
  do model <- BaseConfig [("model_config", config); ("arch", arch)];
  BaseConfig [("model", model)].

(** [config_args.model.model_config.update({key: x})] followed by
    [build_model(config_args.model)]: the update is made in place, so the
    tree [build_model] receives holds it. *)
Definition update_and_build (config_args : value) (key : string) (x : value)
  : M Model :=
  do model <- lift (getattr "model" config_args);
  do model_config <- lift (getattr "model_config" model);
  do model_config <- lift (py_update key x model_config);
  do model <- lift (py_update "model_config" model_config model);
  lift (build_model model).

(** [from_config(config)] *)
Definition from_config (config : config_argument) : M Model :=
  do config_args <-
    (match config with
     | ConfigNone => raise ValueError ConfigIsNone
     | ConfigObject class_name i d =>
         let inversed_config := _inverse_parse_config (VConfig class_name i d) in
         _wrap_config inversed_config
     | ConfigPath path =>
         do ex <- os_path_exists path;
         if ex && Str.endswith path ".yaml"
         then MindFormerConfig path
         else raise ValueError BadConfig
     end);
  do model <- lift (getattr "model" config_args);
  lift (build_model model).

Definition from_pretrained (pretrained_model_name_or_dir : string) : M Model :=
  do is_exist <- os_path_exists pretrained_model_name_or_dir;
  do is_dir <- os_path_isdir pretrained_model_name_or_dir;
  run (if is_exist then
         when (negb is_dir)
           (raise ValueError (NotADirectory pretrained_model_name_or_dir))
       else
         let model_type := Str.split0 "_" pretrained_model_name_or_dir in
         when (negb (in_keys model_type _support_list)
               || negb (listed pretrained_model_name_or_dir model_type _support_list))
           (raise ValueError (NotSupported pretrained_model_name_or_dir _support_list)));
  if is_dir then
    do files <- os_listdir pretrained_model_name_or_dir;
    let yaml_list := filter (fun file => Str.endswith file ".yaml") files in
    do files <- os_listdir pretrained_model_name_or_dir;
    let ckpt_list := filter (fun file => Str.endswith file ".ckpt") files in
    match yaml_list, ckpt_list with
    | yaml0 :: _, ckpt0 :: _ =>
        let yaml_file := os_path_join pretrained_model_name_or_dir yaml0 in
        let ckpt_file := os_path_join pretrained_model_name_or_dir ckpt0 in
        do config_args <- MindFormerConfig yaml_file;
        update_and_build config_args "checkpoint_name_or_path" (VStr ckpt_file)
    | _, _ =>
        raise FileNotFoundError (NoYamlOrCkpt pretrained_model_name_or_dir)
    end
  else
    do yaml_file <- cached_yaml_file pretrained_model_name_or_dir;
    do config_args <- MindFormerConfig yaml_file;
    update_and_build config_args "checkpoint_name_or_path"
      (VStr pretrained_model_name_or_dir).

Definition get_support_list : support_list := _support_list.

(** What [model.arch.type] reads in the tree the round trip
    [_wrap_config(_inverse_parse_config(cfg))] produces. *)
Definition round_trip_arch_type (cfg : value) (w : world) : exn + value :=
  match fst (_wrap_config (_inverse_parse_config cfg) w) with
  | inl e => inl e
  | inr tree => getattr_path ["model"; "arch"; "type"] tree
  end.

End Class.
End AutoModel.

(* ===================================================================== *)
(** ** class AutoProcessor *)
(* ===================================================================== *)

Module AutoProcessor.
Section Class.
Context `{Collaborators}.

(** The class body copies the model SupportList and pops ["mae"] from the
    copy; [pop] without a default raises when the key is missing. *)
Definition _support_list : exn + support_list :=
  let copy := get_model_support_list in
  match copy !! "mae" with
  | Some _ => inr (delete "mae" copy)
  | None => inl (Raise KeyError (Runtime "mae"))
  end.

(** The last statements of [from_pretrained]: [lib_path] is the argument
    when it is a directory, and the processor is built from
    [config_args.processor]. *)
Definition build (yaml_name_or_path : string) (config_args : value) : M Processor :=
  do is_dir <- os_path_isdir yaml_name_or_path;
  let lib_path := if is_dir then Some yaml_name_or_path else None in
  do processor <- lift (getattr "processor" config_args);
  lift (build_processor processor lib_path).

(** The class attribute is read first: a class body that raised leaves no
    class to call. *)
Definition from_pretrained (yaml_name_or_path : string) : M Processor :=
  do _support_list <- lift _support_list;
  do is_exist <- os_path_exists yaml_name_or_path;
  let model_name := Str.split0 "_" yaml_name_or_path in
  run when (negb is_exist && negb (in_keys model_name _support_list))
    (raise ValueError (NotSupportedBy yaml_name_or_path "AutoProcessor" _support_list));
  do config_args <-
    (if is_exist then
       do is_dir <- os_path_isdir yaml_name_or_path;
       if is_dir then
         do files <- os_listdir yaml_name_or_path;
         let yaml_list := filter (fun file => Str.endswith file ".yaml") files in
         match yaml_list with
         | yaml0 :: _ =>
             let yaml_name := os_path_join yaml_name_or_path yaml0 in
             MindFormerConfig yaml_name
         | [] => raise IndexError (Runtime "list index out of range")
         end
       else MindFormerConfig yaml_name_or_path
     else
       run when (negb (in_keys model_name _support_list
                       && listed yaml_name_or_path model_name _support_list))
         (raise ValueError (NotSupportedBy yaml_name_or_path "AutoProcessor" _support_list));
       do yaml_file <- cached_yaml_file yaml_name_or_path;
       MindFormerConfig yaml_file);
  build yaml_name_or_path config_args.

Definition get_support_list : exn + support_list := _support_list.

End Class.
End AutoProcessor.

(* ===================================================================== *)
(** ** class AutoTokenizer *)
(* ===================================================================== *)

Module AutoTokenizer.
Section Class.
Context `{Collaborators}.

Definition _support_list : support_list := get_tokenizer_support_list.

(** [_get_class_name_from_yaml(yaml_name_or_path)] *)
Definition _get_class_name_from_yaml (yaml_name_or_path : string) : M value :=
  do is_exist <- os_path_exists yaml_name_or_path;
  do is_dir <- os_path_isdir yaml_name_or_path;
  do is_file <- os_path_isfile yaml_name_or_path;
  let load (yaml_file : string) : M value :=
    do config <- MindFormerConfig yaml_file;
    if negb (truthy config) then ret VNone else
    do has <- lift (py_in "processor" config);
    if negb has then ret VNone else
    do processor <- lift (py_getitem "processor" config);
    do has <- lift (py_in "tokenizer" processor);
    if negb has then ret VNone else
    do tokenizer <- lift (py_getitem "tokenizer" processor);
    do has <- lift (py_in "type" tokenizer);
    if negb has then ret VNone else
    do '(class_name, _) <- lift (py_pop "type" tokenizer);
    ret class_name in
  if negb is_file then
    if negb is_exist then raise ValueError (PathDoesNotExist yaml_name_or_path)
    else if negb is_dir then raise ValueError (NotADirectory yaml_name_or_path)
    else
      do files <- os_listdir yaml_name_or_path;
      let yaml_list := filter (fun file => Str.endswith file ".yaml") files in
      match yaml_list with
      | [] => ret VNone
      | yaml0 :: _ => load (os_path_join yaml_name_or_path yaml0)
      end
  else load yaml_name_or_path.

(** [_get_class_name_from_tokenizer_config_file(yaml_name_or_path)] *)
Definition _get_class_name_from_tokenizer_config_file
    (yaml_name_or_path : string) : M value :=
  let tokenizer_config_path :=
    os_path_join yaml_name_or_path "tokenizer_config.json" in
  do ex <- os_path_exists tokenizer_config_path;
  if negb ex
  then raise FileNotFoundError (NoTokenizerConfig tokenizer_config_path)
  else
    do text <- read_file tokenizer_config_path;
    do config_kwargs <- lift (json_load text);
    do '(class_name, config_kwargs) <- lift (py_pop "tokenizer_class" config_kwargs);
    if negb (truthy class_name)
    then raise ValueError
           (NoTokenizerClass tokenizer_config_path
              (match config_kwargs with
               | VDict d | VConfig _ _ d => Dict.keys d
               | _ => []
               end))
    else ret class_name.

Definition from_pretrained (yaml_name_or_path : string) : M Tokenizer :=
  do class_name <-
    (if bool_decide (yaml_name_or_path ∈ all_values _support_list) then
       do yaml_file <- cached_yaml_file yaml_name_or_path;
       _get_class_name_from_yaml yaml_file
     else
       do is_dir <- os_path_isdir yaml_name_or_path;
       if is_dir then
         do class_name <- _get_class_name_from_yaml yaml_name_or_path;
         if negb (truthy class_name)
         then _get_class_name_from_tokenizer_config_file yaml_name_or_path
         else ret class_name
       else raise FileNotFoundError
              (DoesNotExist yaml_name_or_path (map fst (map_to_list _support_list))));
  do dynamic_class <- lift (get_cls "tokenizer" class_name);
  do root <- get_fs;
  lift (tokenizer_from_pretrained dynamic_class yaml_name_or_path root).

Definition get_support_list : support_list := _support_list.

End Class.

(** The class name [_get_class_name_from_yaml] reads from a loaded
    config: [None] unless the config is truthy and holds [processor],
    [processor] holds [tokenizer] and that holds [type], and then what
    [pop] takes out.  The membership tests and the subscripts raise on a
    value that admits none. *)
Definition yaml_class_name (config : value) : exn + value :=
  if negb (truthy config) then inr VNone else
  match py_in "processor" config with
  | inl e => inl e
  | inr false => inr VNone
  | inr true =>
      match py_getitem "processor" config with
      | inl e => inl e
      | inr processor =>
          match py_in "tokenizer" processor with
          | inl e => inl e
          | inr false => inr VNone
          | inr true =>
              match py_getitem "tokenizer" processor with
              | inl e => inl e
              | inr tokenizer =>
                  match py_in "type" tokenizer with
                  | inl e => inl e
                  | inr false => inr VNone
                  | inr true =>
                      match py_pop "type" tokenizer with
                      | inl e => inl e
                      | inr (class_name, _) => inr class_name
                      end
                  end
              end
          end
      end
  end.

(** The parsed yaml file supplies no [processor.tokenizer.type]: on the
    path of keys a mapping lacks the next key, or the type is there and
    is falsy ([None], an empty string). *)
Definition no_tokenizer_type (d : list (string * value)) : bool :=
  match Dict.get "processor" d with
  | None => true
  | Some (VDict p) | Some (VConfig _ _ p) =>
      match Dict.get "tokenizer" p with
      | None => true
      | Some (VDict t) | Some (VConfig _ _ t) =>
          match Dict.get "type" t with
          | None => true
          | Some class_name => negb (truthy class_name)
          end
      | Some _ => false
      end
  | Some _ => false
  end.

(** The path of keys runs into [None], a boolean or a number where a
    mapping should stand: [processor] is one, or [processor.tokenizer]
    is. *)
Definition not_a_container (v : value) : bool :=
  match v with
  | VNone | VBool _ | VInt _ => true
  | _ => false
  end.

Definition null_before_type (d : list (string * value)) : bool :=
  match Dict.get "processor" d with
  | Some (VDict p) | Some (VConfig _ _ p) =>
      match Dict.get "tokenizer" p with
      | Some tokenizer => not_a_container tokenizer
      | None => false
      end
  | Some processor => not_a_container processor
  | None => false
  end.

End AutoTokenizer.

(* ===================================================================== *)
(** ** What a call may do to the file system *)
(* ===================================================================== *)

(** [n'] keeps what [n] holds: every regular file of [n] is in [n'] with
    the same text, and every directory of [n] is a directory of [n']. *)
Definition keeps (n n' : node) : Prop :=
  forall ds,
    match FS.lookup ds n with
    | Some (File t) => FS.lookup ds n' = Some (File t)
    | Some (Dir _) => FS.is_dir (FS.lookup ds n') = true
    | None => True
    end.

(** A computation that keeps what the file system holds, whatever it
    returns or raises. *)
Definition safe {A : Type} (m : M A) : Prop :=
  forall w r w', m w = (r, w') -> keeps (fs w) (fs w').

(** A computation that makes nothing new except along the paths [allowed]
    lets through. *)
Definition confined {A : Type} (allowed : list string -> Prop) (m : M A) : Prop :=
  forall w r w' ds,
    m w = (r, w') -> FS.lookup ds (fs w) = None -> ~ allowed ds ->
    FS.lookup ds (fs w') = None.

Section CachePaths.
Context `{Collaborators}.

(** The paths the cache block may make for [name]: the cache directory
    with the directories above it, and the cached yaml file. *)
Definition cache_paths (name : string) (ds : list string) : Prop :=
  ds `prefix_of` Path.components (cache_dir name)
  \/ ds = Path.components (cache_yaml name).

End CachePaths.

(* ===================================================================== *)
(** ** Config objects that carry their class name *)
(* ===================================================================== *)

(** Every config object of the tree has its class name under [type]; as
    in [_inverse_parse_config], the tree of a config object is made of
    its entries that are config objects. *)
Fixpoint tagged (v : value) : Prop :=
  match v with
  | VConfig cls _ d =>
      Dict.get "type" d = Some (VStr cls)
      /\ fold_right (fun kv rest => tagged (snd kv) /\ rest) True d
  | _ => True
  end.

(* ===================================================================== *)
(** * tools/dataset_preprocess/bloom/make_mindrecord.py *)
(* ===================================================================== *)

(** [l[:n]]: a negative [n] counts from the end. *)
Definition py_take {A : Type} (n : Z) (l : list A) : list A :=
  if (0 <=? n)%Z then firstn (Z.to_nat n) l
  else firstn (length l - Z.to_nat (- n)) l.

(** [[x] * n]: empty when [n] is not positive. *)
Definition py_repeat {A : Type} (x : A) (n : Z) : list A := repeat x (Z.to_nat n).

(** [len(l)] *)
Definition len {A : Type} (l : list A) : Z := Z.of_nat (length l).

(** A format string whose replacement fields are plain names: literal
    text and fields, in the order they stand. *)
Inductive piece : Type :=
| Lit (text : string)
| Field (name : string).

(** [template.format_map(mapping)]: the fields are filled from left to
    right, and the first name the mapping lacks raises [KeyError]. *)
Fixpoint format_map (template : list piece) (mapping : list (string * string))
  : exn + string :=
  match template with
  | [] => inr EmptyString
  | Lit text :: rest =>
      match format_map rest mapping with
      | inl e => inl e
      | inr s => inr (text +:+ s)
      end
  | Field name :: rest =>
      match Dict.get name mapping with
      | None => inl (Raise KeyError (Runtime name))
      | Some v =>
          match format_map rest mapping with
          | inl e => inl e
          | inr s => inr (v +:+ s)
          end
      end
  end.

(** What the script uses of the tokenizer that
    [AutoTokenizer.from_pretrained] returns: [tokenizer(text)["input_ids"]]
    and the two attributes. *)
Class TokenizerApi `{Collaborators} : Type := {
  tokenizer_input_ids : Tokenizer -> string -> list Z;
  tokenizer_eos_token_id : Tokenizer -> Z;
  tokenizer_pad_token_id : Tokenizer -> Z
}.

(** The calls the [FileWriter] of the script receives, in order.  The
    writer belongs to MindSpore; it is modelled by the record of what it
    is asked to do. *)
Inductive writer_call : Type :=
| AddSchema
| WriteRawData (input_ids : list Z)
| Commit.

Module AlpacaDatasetMaker.

Definition nl : string := String (ascii_of_nat 10) EmptyString.

Section Class.
Context `{TokenizerApi}.

Record maker : Type := Maker {
  input_dataset_file : string;
  output_dataset_file : string;
  seq_length : Z;
  tokenizer : Tokenizer;
  eos_token_id : Z;
  pad_token_id : Z;
  prompt_with_input : list piece;
  prompt_without_input : list piece
}.

(** An entry of the dataset: a JSON object whose values are strings, as
    the entries of alpaca_data.json are. *)
Definition prompt : Type := list (string * string).

(** [__init__(self, input_dataset_file, output_dataset_file, seq_length)] *)
Definition __init__ (input_dataset_file output_dataset_file : string)
    (seq_length : Z) : M maker :=
  do tokenizer <- AutoTokenizer.from_pretrained "bloom_560m";
  ret (Maker input_dataset_file output_dataset_file seq_length tokenizer
         (tokenizer_eos_token_id tokenizer)
         (tokenizer_pad_token_id tokenizer)
         [Lit ("Below is an instruction that describes a task, paired with an input that provides further context. "
               +:+ "Write a response that appropriately completes the request." +:+ nl +:+ nl
               +:+ "### Instruction:" +:+ nl);
          Field "instruction";
          Lit (nl +:+ nl +:+ "### Input:" +:+ nl);
          Field "input";
          Lit (nl +:+ nl +:+ "### Response:" +:+ nl);
          Field "output"]
         [Lit ("Below is an instruction that describes a task. "
               +:+ "Write a response that appropriately completes the request." +:+ nl +:+ nl
               +:+ "### Instruction:" +:+ nl);
          Field "instruction";
          Lit (nl +:+ nl +:+ "### Response:" +:+ nl);
          Field "output"]).

(** [_add_eos_token_id(self, prompt_ids)]: the list is extended in place;
    the extended list is returned here. *)
Definition _add_eos_token_id (self : maker) (prompt_ids : list Z) : list Z :=
  if (len prompt_ids <? seq_length self)%Z
  then prompt_ids ++ [eos_token_id self]
  else prompt_ids.

(** [_add_pad_token_id(self, prompt_ids)] *)
Definition _add_pad_token_id (self : maker) (prompt_ids : list Z) : list Z :=
  if (len prompt_ids <? seq_length self)%Z
  then prompt_ids ++ py_repeat (eos_token_id self) (seq_length self - len prompt_ids)
  else prompt_ids.

(** The text of a prompt: the first statement of [make_prompt_ids]. *)
Definition prompt_text (self : maker) (prompt : prompt) : exn + string :=
  if Dict.mem "input" prompt
  then format_map (prompt_with_input self) prompt
  else format_map (prompt_without_input self) prompt.

(** [make_prompt_ids(self, prompt)] *)
Definition make_prompt_ids (self : maker) (prompt : prompt) : exn + list Z :=
  match prompt_text self prompt with
  | inl e => inl e
  | inr text =>
      let prompt_ids := tokenizer_input_ids (tokenizer self) text in
      let prompt_ids :=
        if (len prompt_ids >? seq_length self)%Z
        then py_take (seq_length self) prompt_ids
        else prompt_ids in
      let prompt_ids := _add_eos_token_id self prompt_ids in
      let prompt_ids := _add_pad_token_id self prompt_ids in
      inr prompt_ids
  end.

(** The loop of [make]: [for i in range(num_of_prompts)] with
    [dataset[i]], one row written for each prompt. *)
Fixpoint write_prompts (self : maker) (dataset : list prompt) (range : list nat)
    (writer : list writer_call) : (exn + unit) * list writer_call :=
  match range with
  | [] => (inr tt, writer)
  | i :: range' =>
      match nth_error dataset i with
      | None => (inl (Raise IndexError (Runtime "list index out of range")), writer)
      | Some prompt =>
          match make_prompt_ids self prompt with
          | inl e => (inl e, writer)
          | inr prompt_ids =>
              write_prompts self dataset range' (writer ++ [WriteRawData prompt_ids])
          end
      end
  end.

(** [make(self, num_of_prompts)].  [dataset] is what opening and parsing
    [input_dataset_file] gave: an exception, or the list of prompts. *)
Definition make (self : maker) (dataset : exn + list prompt) (num_of_prompts : Z)
  : (exn + unit) * list writer_call :=
  let writer := [AddSchema] in
  match dataset with
  | inl e => (inl e, writer)
  | inr dataset =>
      let num_of_prompts :=
        if (num_of_prompts >? 0)%Z then Z.min num_of_prompts (len dataset)
        else len dataset in
      match write_prompts self dataset (seq 0 (Z.to_nat num_of_prompts)) writer with
      | (inl e, writer) => (inl e, writer)
      | (inr _, writer) => (inr tt, writer ++ [Commit])
      end
  end.

End Class.
End AlpacaDatasetMaker.

(* ===================================================================== *)
(** * dataset/keyword_gen_dataset.py *)
(* ===================================================================== *)

(** [l[n:]]: a negative [n] counts from the end. *)
Definition py_drop {A : Type} (n : Z) (l : list A) : list A :=
  if (0 <=? n)%Z then skipn (Z.to_nat n) l
  else skipn (length l - Z.to_nat (- n)) l.

(** A Python [str]: the sequence of its code points.  [len] and slices
    count code points. *)
Definition text : Type := list N.

(** [l.index(x)]: the first position of [x], if there is one. *)
Fixpoint py_index (x : Z) (l : list Z) : option nat :=
  match l with
  | [] => None
  | y :: l' => if Z.eqb y x then Some 0 else option_map S (py_index x l')
  end.

(** NumPy arrays of the module: a vector is the list of its elements, a
    matrix the list of its rows.  The ids are those of a vocabulary; the
    float values 0.0 and 1.0 of the attention mask are written 0 and 1. *)
Inductive ndarray : Type :=
| Vector (elements : list Z)
| Matrix (rows : list (list Z)).

Module Np.

(** [np.argwhere(np.equal(a, x * np.ones(len(a))))[:, -1]]: the positions
    that hold [x], in increasing order. *)
Fixpoint argwhere_from (i : nat) (x : Z) (a : list Z) : list nat :=
  match a with
  | [] => []
  | y :: a' =>
      if Z.eqb y x then i :: argwhere_from (S i) x a'
      else argwhere_from (S i) x a'
  end.

Definition argwhere_eq (x : Z) (a : list Z) : list nat := argwhere_from 0 x a.

(** [np.arange(n)] *)
Definition arange (n : nat) : list Z := map Z.of_nat (seq 0 n).

(** [np.tril(np.ones((n, n)))] *)
Definition tril_ones (n : nat) : list (list Z) :=
  map (fun i => map (fun j => if (j <=? i)%nat then 1%Z else 0%Z) (seq 0 n)) (seq 0 n).

(** [m[:, :c] = v] *)
Definition assign_columns_before (c : nat) (v : Z) (m : list (list Z))
  : list (list Z) :=
  map (fun row => repeat v (Nat.min c (length row)) ++ skipn c row) m.

(** [a[c:] = v] *)
Definition assign_from (c : nat) (v : Z) (a : list Z) : list Z :=
  firstn c a ++ repeat v (length a - c).

(** [np.logical_not(m.astype(np.bool_)).astype(np.float32)] *)
Definition logical_not (m : list (list Z)) : list (list Z) :=
  map (map (fun x => if Z.eqb x 0 then 1%Z else 0%Z)) m.

End Np.

(** The values an element of an int64 array holds. *)
Definition in_int64 (z : Z) : bool :=
  ((- 2 ^ 63 <=? z) && (z <? 2 ^ 63))%Z.

Module KeyWordGenDataset.

(** The default values of the keyword arguments. *)
Definition default_bos_token_id : Z := 130004.
Definition default_gmask_token_id : Z := 130001.

(** What the class uses of the tokenizer that [build_tokenizer] made:
    [encode(text, add_special_tokens)],
    [build_inputs_with_special_tokens] and the two ids. *)
Record tokenizer_api : Type := {
  encode : text -> bool -> list Z;
  build_inputs_with_special_tokens : list Z -> list Z -> list Z;
  bos_token_id : Z;
  pad_token_id : Z
}.

(** The attributes [__new__] sets on the class. *)
Record cls : Type := Cls {
  tokenizer : tokenizer_api;
  ignore_pad_token_for_loss : bool;
  max_source_length : Z;
  max_target_length : Z
}.

(** [cls.max_seq_length = cls.max_source_length + cls.max_target_length] *)
Definition max_seq_length (c : cls) : Z :=
  (max_source_length c + max_target_length c)%Z.

(** [get_masks(cls, input_ids, bos_token_id)]; the result has the shape
    (1, n, n): one matrix. *)
Definition get_masks (input_ids : list Z) (bos_token_id : Z)
  : list (list (list Z)) :=
  let seq_length := length input_ids in
  let context_lengths := Np.argwhere_eq bos_token_id input_ids in
  let attention_mask := Np.tril_ones seq_length in
  let attention_mask :=
    fold_left (fun m context_length => Np.assign_columns_before context_length 1 m)
      context_lengths attention_mask in
  let attention_mask := Np.logical_not attention_mask in
  [attention_mask].

(** The loop [for i, context_length in enumerate(context_lengths)] of the
    two-dimensional encoding, from index [i] on. *)
Fixpoint assign_mask_positions (context_lengths : list nat) (i : nat)
    (mask_positions : list Z) (position_ids : list Z) : exn + list Z :=
  match context_lengths with
  | [] => inr position_ids
  | context_length :: rest =>
      match nth_error mask_positions i with
      | None => inl (Raise IndexError (Runtime "index is out of bounds"))
      | Some mask_position =>
          assign_mask_positions rest (S i) mask_positions
            (Np.assign_from context_length mask_position position_ids)
      end
  end.

(** The same loop of the one-dimensional encoding, which looks at
    [use_gmasks[i]] first. *)
Fixpoint assign_unless_gmask (context_lengths : list nat) (i : nat)
    (use_gmasks : list Z) (mask_positions : list Z) (position_ids : list Z)
  : exn + list Z :=
  match context_lengths with
  | [] => inr position_ids
  | context_length :: rest =>
      match nth_error use_gmasks i with
      | None => inl (Raise IndexError (Runtime "index is out of bounds"))
      | Some use_gmask =>
          if Z.eqb use_gmask 0 then
            match nth_error mask_positions i with
            | None => inl (Raise IndexError (Runtime "index is out of bounds"))
            | Some mask_position =>
                assign_unless_gmask rest (S i) use_gmasks mask_positions
                  (Np.assign_from context_length mask_position position_ids)
            end
          else assign_unless_gmask rest (S i) use_gmasks mask_positions position_ids
      end
  end.

(** [get_position_ids(cls, input_ids, mask_positions, use_gmasks,
    bos_token_id, position_encoding_2d)].  The mask positions are
    positions of an array: they fit the 64-bit elements of
    [position_ids], which [in_int64] says.  In the two-dimensional encoding
    the block rows are stacked and squeezed: no row makes [np.stack]
    raise; one row of more than one element is squeezed to a vector,
    which the last [np.stack] joins with [position_ids]; one row of one
    element is squeezed to a scalar, and several rows stay a matrix, and
    neither has the shape of [position_ids], so the last [np.stack]
    raises. *)
Definition get_position_ids (input_ids : list Z) (mask_positions : list Z)
    (use_gmasks : option (list Z)) (bos_token_id : Z) (position_encoding_2d : bool)
  : exn + ndarray :=
  let seq_length := length input_ids in
  let use_gmasks := match use_gmasks with None => [0%Z] | Some u => u end in
  let context_lengths := Np.argwhere_eq bos_token_id input_ids in
  if position_encoding_2d then
    match assign_mask_positions context_lengths 0 mask_positions (Np.arange seq_length) with
    | inl e => inl e
    | inr position_ids =>
        let block_position_ids :=
          map (fun context_length =>
                 repeat 0%Z context_length
                 ++ map (fun x => (x + 1)%Z) (Np.arange (seq_length - context_length)))
            context_lengths in
        match block_position_ids with
        | [] => inl (Raise ValueError (Runtime "need at least one array to stack"))
        | [block] =>
            if Nat.eqb (length block) 1
            then inl (Raise ValueError (Runtime "all input arrays must have the same shape"))
            else inr (Matrix [position_ids; block])
        | _ :: _ :: _ =>
            inl (Raise ValueError (Runtime "all input arrays must have the same shape"))
        end
    end
  else
    match assign_unless_gmask context_lengths 0 use_gmasks mask_positions
            (Np.arange seq_length) with
    | inl e => inl e
    | inr position_ids => inr (Vector position_ids)
    end.

(** [create_position_ids(cls, input_ids, gmask_token_id)] *)
Definition create_position_ids (input_ids : list Z) (gmask_token_id : Z)
  : exn + ndarray :=
  let seq_length := length input_ids in
  let use_gmasks := repeat gmask_token_id seq_length in
  let mask_positions := map Z.of_nat (Np.argwhere_eq gmask_token_id input_ids) in
  get_position_ids input_ids mask_positions (Some use_gmasks)
    default_bos_token_id true.

(** [train_dataset_function(cls, prompt, answer)] *)
Definition train_dataset_function (c : cls) (prompt answer : text)
  : exn + (list Z * list Z * ndarray * list (list (list Z))) :=
  let prompt_ids := encode (tokenizer c) prompt false in
  let answer_ids := encode (tokenizer c) answer false in
  let prompt_ids :=
    if (len prompt_ids >? max_source_length c - 1)%Z
    then py_take (max_source_length c - 1) prompt_ids else prompt_ids in
  let answer_ids :=
    if (len answer_ids >? max_target_length c - 2)%Z
    then py_take (max_target_length c - 2) answer_ids else answer_ids in
  let input_ids :=
    build_inputs_with_special_tokens (tokenizer c) prompt_ids answer_ids in
  match py_index (bos_token_id (tokenizer c)) input_ids with
  | None => inl (Raise ValueError (Runtime "is not in list"))
  | Some context_length =>
      let context_length := Z.of_nat context_length in
      let mask_position := (context_length - 1)%Z in
      let label :=
        py_repeat (-100)%Z context_length ++ py_drop (mask_position + 2) input_ids in
      let pad_len := (max_seq_length c - len input_ids)%Z in
      let input_ids := input_ids ++ py_repeat (pad_token_id (tokenizer c)) pad_len in
      let label := label ++ py_repeat (pad_token_id (tokenizer c)) (pad_len + 1) in
      let label :=
        if ignore_pad_token_for_loss c
        then map (fun l => if negb (Z.eqb l (pad_token_id (tokenizer c)))
                           then l else (-100)%Z) label
        else label in
      match create_position_ids input_ids default_gmask_token_id with
      | inl e => inl e
      | inr position_ids =>
          let attention_mask := get_masks input_ids default_bos_token_id in
          inr (input_ids, label, position_ids, attention_mask)
      end
  end.

(** [eval_dataset_function(cls, prompt, answer)] *)
Definition eval_dataset_function (c : cls) (prompt answer : text)
  : list Z * list Z :=
  let prompt :=
    if (len prompt >? max_source_length c - 2)%Z
    then py_take (max_source_length c - 2) prompt else prompt in
  let answer :=
    if (len answer >? max_target_length c - 2)%Z
    then py_take (max_target_length c - 2) answer else answer in
  let input_ids := encode (tokenizer c) prompt true in
  let label := encode (tokenizer c) answer true in
  let pad_len := (max_source_length c - len input_ids)%Z in
  let input_ids := input_ids ++ py_repeat (pad_token_id (tokenizer c)) pad_len in
  (input_ids, label).

End KeyWordGenDataset.

(* ===================================================================== *)
(** * xformer/tools/download_tools.py *)
(* ===================================================================== *)

Module DownloadTools.

(** [StatusCode.succeed] *)
Definition succeed : Z := 200.

(** What the function reads of the response of [requests.get]: the
    status, the header [content-length] when the response has one, and
    the chunks [iter_content(chunk_size)] yields, followed by the
    exception that ends the stream when it breaks. *)
Record response : Type := Response {
  status_code : Z;
  content_length : option string;
  iter_content : Z -> list string * option exn
}.

(** The outside of the function: [requests.get(url, stream=True)], the
    parser behind [int(text)], and whether [open(filepath, 'wb')]
    fails. *)
Class Outside : Type := {
  requests_get : string -> exn + response;
  py_int : string -> option Z;
  open_wb : string -> option exn
}.

(** What happens to the file, in order. *)
Inductive file_call : Type :=
| OpenWb (filepath : string)
| WriteData (data : string)
| Close.

(** The largest quotient a float holds: a quotient of two integers whose
    size reaches 2^1024 - 2^970 rounds to no float. *)
Definition float_limit : Z := 2 ^ 1024 - 2 ^ 970.

(** The errors of [a / b] on two integers; the quotient itself only goes
    into a log line or the progress bar. *)
Definition true_divide (a b : Z) : option exn :=
  if (b =? 0)%Z
  then Some (Raise (ExternalError "ZeroDivisionError") (Runtime "division by zero"))
  else if (float_limit * Z.abs b <=? Z.abs a)%Z
  then Some (Raise (ExternalError "OverflowError")
               (Runtime "integer division result too large for a float"))
  else None.

(** The loop over the chunks: each one is written, counted, and shown in
    the progress bar. *)
Fixpoint write_chunks (content_size : Z) (chunks : list string) (size : Z)
    (file : list file_call) : option exn * list file_call :=
  match chunks with
  | [] => (None, file)
  | data :: rest =>
      let file := file ++ [WriteData data] in
      let size := (size + Z.of_nat (String.length data))%Z in
      match true_divide (size * 50) content_size with
      | Some e => (Some e, file)
      | None =>
          match true_divide size content_size with
          | Some e => (Some e, file)
          | None => write_chunks content_size rest size file
          end
      end
  end.

Section Function.
Context `{Outside}.

(** [downlond_with_progress_bar(url, filepath, chunk_size)]: what it
    returns or raises, and what it did to the file.  The [with] block
    closes the file on every way out, and the function closes it once
    more when the block ended normally. *)
Definition downlond_with_progress_bar (url filepath : string) (chunk_size : Z)
  : (exn + unit) * list file_call :=
  match requests_get url with
  | inl e => (inl e, [])
  | inr response =>
      match content_length response with
      | None => (inl (Raise KeyError (Runtime "content-length")), [])
      | Some text =>
          match py_int text with
          | None => (inl (Raise ValueError (Runtime text)), [])
          | Some content_size =>
              if (status_code response =? succeed)%Z then
                match true_divide content_size chunk_size with
                | Some e => (inl e, [])
                | None =>
                    match open_wb filepath with
                    | Some e => (inl e, [])
                    | None =>
                        let '(chunks, failure) := iter_content response chunk_size in
                        match write_chunks content_size chunks 0 [OpenWb filepath] with
                        | (Some e, file) => (inl e, file ++ [Close])
                        | (None, file) =>
                            match failure with
                            | Some e => (inl e, file ++ [Close])
                            | None => (inr tt, file ++ [Close; Close])
                            end
                        end
                    end
                end
              else (inl (Raise KeyError (Runtime (url +:+ " is unconnected!"))), [])
          end
      end
  end.

End Function.
End DownloadTools.

(* ===================================================================== *)
(** ** A sample installation *)
(* ===================================================================== *)

(** A small instance of the collaborators and of the file system, on
    which the statements below are run: the package at [/mindformers]
    bundles the template of [bert_base_uncased] and nothing else, and the
    cache is [./checkpoint_download]. *)
Module Sample.

Definition bert_tree : list (string * value) :=
  [("model",
    VDict [("model_config",
            VDict [("type", VStr "BertConfig"); ("hidden_size", VInt 768)]);
           ("arch", VDict [("type", VStr "BertForPreTraining")])]);
   ("processor",
    VDict [("type", VStr "BertProcessor");
           ("tokenizer", VDict [("type", VStr "BertTokenizer")])])].

Definition bare_tree : list (string * value) :=
  [("model",
    VDict [("model_config", VDict [("type", VStr "BertConfig")]);
           ("arch", VDict [("type", VStr "BertForPreTraining")])])].

Definition env : Collaborators := {|
  Model := value;
  Processor := value * option string;
  Tokenizer := value * string;
  TokenizerClass := value;
  get_model_support_list :=
    {[ "bert" := ["bert_base_uncased"; "bert_tiny_uncased"];
       "mae" := ["mae_vit_base_p16"] ]};
  get_tokenizer_support_list := {[ "bert" := ["bert_base_uncased"] ]};
  get_default_checkpoint_download_folder := "./checkpoint_download";
  get_project_path := "/mindformers";
  yaml_load := fun text =>
    if String.eqb text "bert" then inr bert_tree
    else if String.eqb text "bare" then inr bare_tree
    else inl (Raise (ExternalError "YAMLError") (Runtime text));
  json_load := fun text =>
    if String.eqb text "{}" then inr (VDict [])
    else inr (VDict [("tokenizer_class", VStr text)]);
  build_model_config := fun v =>
    match v with
    | VDict d =>
        match Dict.get "type" d with
        | Some (VStr cls) => inr (cls, Dict.remove "type" d)
        | _ => inl (Raise KeyError (Runtime "type"))
        end
    | _ => inl (Raise TypeError (Runtime "model_config"))
    end;
  build_model := fun v => inr v;
  build_processor := fun v lib_path => inr (v, lib_path);
  get_cls := fun _ class_name =>
    match class_name with
    | VStr _ => inr class_name
    | _ => inl (Raise ValueError (Runtime "class not registered"))
    end;
  tokenizer_from_pretrained := fun cls path _ => inr (cls, path)
|}.

(** Only the bundled template is there. *)
Definition fresh : node :=
  Dir [("mindformers",
        Dir [("configs",
              Dir [("bert",
                    Dir [("model_config",
                          Dir [("bert_base_uncased.yaml", File "bert")])])])])].

Definition w0 : world := World fresh ∅ 1%N [].

(** Directories saved by the user: [run1] with two configs, weights and
    the tokenizer file; [run2] with a config that names no tokenizer and
    the tokenizer file; [run3] with a tokenizer file that names no class;
    [run4] with weights only. *)
Definition saved : node :=
  Dir [("mindformers", Dir []);
       ("run1", Dir [("notes.txt", File EmptyString);
                     ("model.yaml", File "bert");
                     ("other.yaml", File "bare");
                     ("weights.ckpt", File EmptyString);
                     ("tokenizer_config.json", File "BertTokenizer")]);
       ("run2", Dir [("model.yaml", File "bare");
                     ("tokenizer_config.json", File "BertTokenizer")]);
       ("run3", Dir [("tokenizer_config.json", File "{}")]);
       ("run4", Dir [("weights.ckpt", File EmptyString)])].

Definition w1 : world := World saved ∅ 1%N [].

(** The bundled template, and a directory the user named after a listed
    identifier. *)
Definition shadowed : node :=
  Dir [("mindformers",
        Dir [("configs",
              Dir [("bert",
                    Dir [("model_config",
                          Dir [("bert_base_uncased.yaml", File "bert")])])])]);
       ("bert_base_uncased", Dir [])].

Definition w2 : world := World shadowed ∅ 1%N [].

(** A config object made by hand, and a world whose side table knows it. *)
Definition bert_config : value :=
  VConfig "BertConfig" 7 [("hidden_size", VInt 768)].

Definition w3 : world :=
  World fresh {[ 7%N := VStr "BertForPreTraining" ]} 8%N [].

End Sample.

(** A second installation: the cache holds a yaml file for
    [bert_base_uncased] that names no tokenizer. *)
Module Cached.

Definition root : node :=
  Dir [("checkpoint_download",
        Dir [("bert", Dir [("bert_base_uncased.yaml", File "bare")])])].

Definition w4 : world := World root ∅ 1%N [].

End Cached.

(** An installation for the bloom script: the package lists and bundles
    [bloom_560m]; the tokenizer turns a text into the codes of its
    characters and is described by its class name and its end-of-text and
    padding ids. *)
Module Bloom.

Definition bloom_tree : list (string * value) :=
  [("model",
    VDict [("model_config", VDict [("type", VStr "BloomConfig")]);
           ("arch", VDict [("type", VStr "BloomLMHeadModel")])]);
   ("processor",
    VDict [("type", VStr "BloomProcessor");
           ("tokenizer", VDict [("type", VStr "BloomTokenizer")])])].

Definition env : Collaborators := {|
  Model := value;
  Processor := value * option string;
  Tokenizer := value * string;
  TokenizerClass := value;
  get_model_support_list :=
    {[ "bloom" := ["bloom_560m"]; "mae" := ["mae_vit_base_p16"] ]};
  get_tokenizer_support_list := {[ "bloom" := ["bloom_560m"] ]};
  get_default_checkpoint_download_folder := "./checkpoint_download";
  get_project_path := "/mindformers";
  yaml_load := fun text =>
    if String.eqb text "bloom" then inr bloom_tree
    else inl (Raise (ExternalError "YAMLError") (Runtime text));
  json_load := fun text => inr (VDict [("tokenizer_class", VStr text)]);
  build_model_config := fun v =>
    match v with
    | VDict d =>
        match Dict.get "type" d with
        | Some (VStr cls) => inr (cls, Dict.remove "type" d)
        | _ => inl (Raise KeyError (Runtime "type"))
        end
    | _ => inl (Raise TypeError (Runtime "model_config"))
    end;
  build_model := fun v => inr v;
  build_processor := fun v lib_path => inr (v, lib_path);
  get_cls := fun _ class_name =>
    match class_name with
    | VStr _ => inr class_name
    | _ => inl (Raise ValueError (Runtime "class not registered"))
    end;
  tokenizer_from_pretrained := fun cls path _ => inr (cls, path)
|}.

Definition api : @TokenizerApi env := {|
  tokenizer_input_ids := fun _ text =>
    map (fun c => Z.of_nat (nat_of_ascii c)) (list_ascii_of_string text);
  tokenizer_eos_token_id := fun _ => 2%Z;
  tokenizer_pad_token_id := fun _ => 3%Z
|}.

Definition root : node :=
  Dir [("mindformers",
        Dir [("configs",
              Dir [("bloom",
                    Dir [("model_config",
                          Dir [("bloom_560m.yaml", File "bloom")])])])])].

Definition w5 : world := World root ∅ 1%N [].

(** A maker as the script builds it, for sequences of eight ids. *)
Definition maker8 : @AlpacaDatasetMaker.maker env :=
  match fst (@AlpacaDatasetMaker.__init__ env api "alpaca_data.json"
               "dataset.mindrecord" 8 w5) with
  | inr self => self
  | inl _ =>
      @AlpacaDatasetMaker.Maker env EmptyString EmptyString 0
        (VNone, EmptyString) 0 0 [] []
  end.

(** The same maker with the sequence length -3. *)
Definition cutter : @AlpacaDatasetMaker.maker env :=
  @AlpacaDatasetMaker.Maker env
    (AlpacaDatasetMaker.input_dataset_file maker8)
    (AlpacaDatasetMaker.output_dataset_file maker8)
    (-3)
    (AlpacaDatasetMaker.tokenizer maker8)
    (AlpacaDatasetMaker.eos_token_id maker8)
    (AlpacaDatasetMaker.pad_token_id maker8)
    [Field "instruction"; Lit " "; Field "output"]
    [Field "instruction"; Lit " "; Field "output"].

Definition hello : list (string * string) :=
  [("instruction", "Hi"); ("output", "Yo")].

Definition translate : list (string * string) :=
  [("instruction", "Translate"); ("input", "chat"); ("output", "cat")].

Definition broken : list (string * string) :=
  [("instruction", "Translate"); ("input", "chat")].

(** The text [make_prompt_ids] forms for [hello]. *)
Definition hello_text : string :=
  match @AlpacaDatasetMaker.prompt_text env maker8 hello with
  | inr text => text
  | inl _ => EmptyString
  end.

(** The ids of the first eight characters of either template. *)
Definition below_is : list Z := [66; 101; 108; 111; 119; 32; 105; 115]%Z.

End Bloom.

(** A class for keyword generation: the tokenizer turns a text into the
    codes of its characters, and frames prompt and answer as
    prompt, gMASK, 130004, answer, 130005. *)
Module Glm.

Definition chars (s : text) : list Z := map Z.of_N s.

(** The texts Hi, Yo and Hello. *)
Definition hi : text := [72; 105]%N.
Definition yo : text := [89; 111]%N.
Definition hello : text := [72; 101; 108; 108; 111]%N.

Definition api : KeyWordGenDataset.tokenizer_api := {|
  KeyWordGenDataset.encode := fun text add_special_tokens =>
    if add_special_tokens then chars text ++ [130001; 130004]%Z else chars text;
  KeyWordGenDataset.build_inputs_with_special_tokens := fun prompt_ids answer_ids =>
    prompt_ids ++ [130001; 130004]%Z ++ answer_ids ++ [130005]%Z;
  KeyWordGenDataset.bos_token_id := 130004;
  KeyWordGenDataset.pad_token_id := 3
|}.

Definition c8 : KeyWordGenDataset.cls := KeyWordGenDataset.Cls api true 4 4.

(** The sample made of the prompt Hi and the answer Yo. *)
Definition input_ids : list Z := [72; 105; 130001; 130004; 89; 111; 130005; 3]%Z.

Definition label : list Z := [-100; -100; -100; 89; 111; 130005; -100; -100]%Z.

Definition position_ids : ndarray :=
  Matrix [[0; 1; 2; 2; 2; 2; 2; 2]%Z; [0; 0; 0; 1; 2; 3; 4; 5]%Z].

End Glm.

(** Three servers: one sends six bytes in two chunks, one announces no
    bytes and sends three, one answers 404 without a length. *)
Module Server.

Definition outside : DownloadTools.Outside := {|
  DownloadTools.requests_get := fun url =>
    if String.eqb url "http://models/ok"
    then inr (DownloadTools.Response 200 (Some "6") (fun _ => (["abc"; "def"], None)))
    else if String.eqb url "http://models/empty"
    then inr (DownloadTools.Response 200 (Some "0") (fun _ => (["abc"], None)))
    else inr (DownloadTools.Response 404 None (fun _ => ([], None)));
  DownloadTools.py_int := fun text =>
    if String.eqb text "6" then Some 6%Z
    else if String.eqb text "0" then Some 0%Z
    else None;
  DownloadTools.open_wb := fun _ => None
|}.

End Server.

(* ===================================================================== *)
(** * Properties *)
(* ===================================================================== *)

(** ** Strings and paths *)

Module StrFacts.
Import Str.

Lemma split_nonempty sep s : split sep s <> [].
Proof.
  destruct s as [|c s]; simpl; [discriminate|].
  destruct (Ascii.eqb c sep); [discriminate|].
  destruct (split sep s); discriminate.
Qed.

Lemma split_cons sep c s :
  Ascii.eqb c sep = false ->
  split sep (String c s) =
    String c (hd EmptyString (split sep s)) :: tl (split sep s).
Proof.
  intros E. simpl. rewrite E.
  destruct (split sep s) eqn:Es; [now apply split_nonempty in Es|reflexivity].
Qed.

(** Python: [(a + sep + b).split(sep) == a.split(sep) + b.split(sep)]. *)
Lemma split_app_sep sep a b :
  split sep (a +:+ String sep b) = split sep a ++ split sep b.
Proof.
  induction a as [|c a IH]; simpl.
  - now rewrite Ascii.eqb_refl.
  - destruct (Ascii.eqb c sep); [now rewrite IH|].
    rewrite IH. destruct (split sep a) eqn:Ea; [now apply split_nonempty in Ea|].
    reflexivity.
Qed.

Lemma split_no_sep sep s : has_char sep s = false -> split sep s = [s].
Proof.
  induction s as [|c s IH]; simpl; [reflexivity|].
  intros Hc. apply orb_false_iff in Hc as [Hc Hs].
  rewrite Hc, (IH Hs). reflexivity.
Qed.

Lemma has_char_app c a b :
  has_char c (a +:+ b) = has_char c a || has_char c b.
Proof.
  induction a as [|x a IH]; simpl; [reflexivity|].
  now rewrite IH, orb_assoc.
Qed.

(** The first field of a split holds no character its string lacks. *)
Lemma has_char_split0 c sep s :
  has_char c s = false -> has_char c (split0 sep s) = false.
Proof.
  unfold split0. induction s as [|x s IH]; simpl; [reflexivity|].
  intros Hc. apply orb_false_iff in Hc as [Hx Hs].
  destruct (Ascii.eqb x sep); [reflexivity|].
  specialize (IH Hs).
  destruct (split sep s); simpl in *; now rewrite Hx.
Qed.

Lemma startswith_no_char c s :
  has_char c s = false -> startswith s (String c EmptyString) = false.
Proof.
  destruct s as [|x s]; simpl; [reflexivity|].
  intros Hc. apply orb_false_iff in Hc as [Hx _]. now rewrite Hx.
Qed.

Lemma endswith_app s suf : endswith (s +:+ suf) suf = true.
Proof.
  induction s as [|c s IH]; simpl.
  - destruct suf; simpl; [reflexivity|]. now rewrite Ascii.eqb_refl, String.eqb_refl.
  - rewrite IH. apply orb_true_r.
Qed.

Lemma endswith_split s suf :
  endswith s suf = true -> exists s', s = s' +:+ suf.
Proof.
  induction s as [|c s IH]; cbn [endswith].
  - rewrite orb_false_r. intros E. apply String.eqb_eq in E. subst.
    now exists EmptyString.
  - intros E. apply orb_true_iff in E as [E|E].
    + apply String.eqb_eq in E. subst. now exists EmptyString.
    + destruct (IH E) as [s' ->]. now exists (String c s').
Qed.

Lemma app_cons c (a b : string) : String c a +:+ b = String c (a +:+ b).
Proof. reflexivity. Qed.

Lemma app_nil_l (b : string) : EmptyString +:+ b = b.
Proof. reflexivity. Qed.

Lemma app_assoc (a b c : string) : (a +:+ b) +:+ c = a +:+ (b +:+ c).
Proof.
  induction a as [|x a IH]; [reflexivity|].
  now rewrite !app_cons, IH.
Qed.

Lemma app_nonempty_r (a b : string) : b <> EmptyString -> a +:+ b <> EmptyString.
Proof. destruct a; [auto|rewrite app_cons; discriminate]. Qed.

Lemma length_app (a b : string) :
  String.length (a +:+ b) = String.length a + String.length b.
Proof.
  induction a as [|x a IH]; [reflexivity|].
  rewrite app_cons. simpl. now rewrite IH.
Qed.

End StrFacts.

Module PathFacts.
Import Str Path StrFacts.

Lemma components_app_sep a b :
  components (a +:+ String sep b) = components a ++ components b.
Proof. unfold components. now rewrite split_app_sep, filter_app. Qed.

Lemma components_empty : components EmptyString = [].
Proof. reflexivity. Qed.

Lemma components_trailing_sep a :
  components (a +:+ "/") = components a.
Proof.
  change "/" with (String sep EmptyString).
  rewrite components_app_sep, components_empty. apply app_nil_r.
Qed.

(** A relative second argument is resolved below the first. *)
Lemma components_join a b :
  startswith b "/" = false ->
  components (join a b) = components a ++ components b.
Proof.
  intros Hb. unfold join. rewrite Hb.
  destruct (String.eqb a EmptyString) eqn:Ea; simpl.
  - apply String.eqb_eq in Ea. now subst.
  - destruct (endswith a "/") eqn:Es.
    + apply endswith_split in Es as [a' ->].
      rewrite components_trailing_sep, StrFacts.app_assoc.
      change ("/" +:+ b) with (String sep b). apply components_app_sep.
    + rewrite <- components_app_sep. reflexivity.
Qed.

(** A name without separator that is neither empty nor [.] is one
    component. *)
Lemma components_name s :
  has_char sep s = false -> skipped s = false -> components s = [s].
Proof.
  intros Hc Hs. unfold components. rewrite (split_no_sep _ _ Hc).
  simpl. rewrite filter_cons, Hs. reflexivity.
Qed.

Lemma skipped_yaml name : skipped (name +:+ ".yaml") = false.
Proof.
  unfold skipped. apply orb_false_iff. split; apply String.eqb_neq; intros E;
    apply (f_equal String.length) in E; rewrite length_app in E; simpl in E; lia.
Qed.

Lemma components_yaml name :
  has_char sep name = false ->
  components (name +:+ ".yaml") = [name +:+ ".yaml"].
Proof.
  intros Hc. apply components_name; [|apply skipped_yaml].
  rewrite has_char_app, Hc. reflexivity.
Qed.

Lemma join_nonempty a b : b <> EmptyString -> join a b <> EmptyString.
Proof.
  intros Hb. unfold join.
  destruct (startswith b "/"); [assumption|].
  destruct (String.eqb a EmptyString || endswith a "/").
  - now apply app_nonempty_r.
  - apply app_nonempty_r. discriminate.
Qed.

End PathFacts.

(** ** Dictionaries *)

Module DictFacts.
Section Facts.
Context {V : Type}.
Implicit Types (d : list (string * V)) (k : string) (v : V).

Lemma get_set_eq k v d : Dict.get k (Dict.set k v d) = Some v.
Proof.
  induction d as [|[k' v'] d IH]; simpl.
  - now rewrite String.eqb_refl.
  - destruct (String.eqb k' k) eqn:E; simpl; rewrite E; auto.
Qed.

Lemma get_set_ne k k' v d :
  k <> k' -> Dict.get k' (Dict.set k v d) = Dict.get k' d.
Proof.
  intros Hne. apply String.eqb_neq in Hne.
  induction d as [|[k0 v0] d IH]; simpl.
  - now rewrite Hne.
  - destruct (String.eqb k0 k) eqn:E; simpl.
    + apply String.eqb_eq in E. subst k0. now rewrite Hne.
    + now rewrite IH.
Qed.

Lemma get_remove_eq k d : Dict.get k (Dict.remove k d) = None.
Proof.
  unfold Dict.remove. induction d as [|[k' v'] d IH]; [reflexivity|].
  rewrite filter_cons. simpl.
  destruct (String.eqb k' k) eqn:E; simpl; [assumption|].
  now rewrite E.
Qed.

Lemma get_remove_ne k k' d :
  k <> k' -> Dict.get k' (Dict.remove k d) = Dict.get k' d.
Proof.
  intros Hne. unfold Dict.remove.
  induction d as [|[k0 v0] d IH]; [reflexivity|].
  rewrite filter_cons. simpl.
  destruct (String.eqb k0 k) eqn:E; simpl.
  - apply String.eqb_eq in E. subst k0.
    apply String.eqb_neq in Hne. now rewrite Hne.
  - now rewrite IH.
Qed.

Lemma remove_absent k d : Dict.get k d = None -> Dict.remove k d = d.
Proof.
  unfold Dict.remove. induction d as [|[k' v'] d IH]; [reflexivity|].
  simpl. rewrite filter_cons. simpl.
  destruct (String.eqb k' k); [discriminate|].
  intros Hg. simpl. now rewrite IH.
Qed.

Lemma get_map {W : Type} (f : V -> W) k d :
  Dict.get k (map (fun '(key, val) => (key, f val)) d) = option_map f (Dict.get k d).
Proof.
  induction d as [|[k' v'] d IH]; simpl; [reflexivity|].
  destruct (String.eqb k' k); auto.
Qed.

Lemma map_set {W : Type} (f : V -> W) k v d :
  map (fun '(key, val) => (key, f val)) (Dict.set k v d)
  = Dict.set k (f v) (map (fun '(key, val) => (key, f val)) d).
Proof.
  induction d as [|[k' v'] d IH]; simpl; [reflexivity|].
  destruct (String.eqb k' k); simpl; congruence.
Qed.

End Facts.
End DictFacts.

(** ** The file system *)

Module FSFacts.
Import FS DictFacts.

Lemma lookup_app cs ds n :
  lookup (cs ++ ds) n =
    match lookup cs n with Some m => lookup ds m | None => None end.
Proof.
  revert n. induction cs as [|c cs IH]; intros n; simpl; [reflexivity|].
  destruct n as [t|es]; [reflexivity|].
  destruct (Dict.get c es); auto.
Qed.

Lemma lookup_file cs t : cs <> [] -> lookup cs (File t) = None.
Proof. destruct cs; simpl; congruence. Qed.

Lemma mkdirs_is_dir cs n n' :
  mkdirs cs n = Some n' -> exists es, lookup cs n' = Some (Dir es).
Proof.
  revert n n'. induction cs as [|c cs IH]; intros n n'; simpl.
  - destruct n; intros [= <-]; eauto.
  - destruct n as [t|es]; [discriminate|].
    destruct (mkdirs cs _) as [m|] eqn:Em; [|discriminate].
    intros [= <-]. simpl. rewrite get_set_eq. eauto.
Qed.

(** A directory that was missing is created empty. *)
Lemma mkdirs_fresh cs n n' :
  lookup cs n = None -> mkdirs cs n = Some n' -> lookup cs n' = Some (Dir []).
Proof.
  revert n n'. induction cs as [|c cs IH]; intros n n'; simpl; [discriminate|].
  destruct n as [t|es]; [discriminate|].
  destruct (mkdirs cs _) as [m|] eqn:Em; [|discriminate].
  intros Hl [= <-]. simpl. rewrite get_set_eq.
  destruct (Dict.get c es) as [m0|] eqn:Eg; simpl in Em.
  - eapply IH; eauto.
  - clear IH Hl. revert m Em. induction cs as [|c' cs IH']; intros m; simpl.
    + now intros [= <-].
    + destruct (mkdirs cs (Dir [])) as [m1|] eqn:E1; [|discriminate].
      intros [= <-]. simpl. rewrite String.eqb_refl. now apply IH'.
Qed.

(** [mkdirs] touches no regular file. *)
Lemma mkdirs_file_frame cs ds n n' t :
  mkdirs cs n = Some n' -> lookup ds n = Some (File t) ->
  lookup ds n' = Some (File t).
Proof.
  revert ds n n'. induction cs as [|c cs IH]; intros ds n n'; simpl.
  - destruct n; [discriminate|]. now intros [= <-].
  - destruct n as [t0|es]; [discriminate|].
    destruct (mkdirs cs _) as [m|] eqn:Em; [|discriminate].
    intros [= <-]. destruct ds as [|d ds]; simpl; [discriminate|].
    destruct (String.eqb_spec c d) as [->|Hne].
    + rewrite get_set_eq. destruct (Dict.get d es) as [m0|]; [|discriminate].
      simpl in Em. intros Hl. eapply IH; eauto.
    + now rewrite (get_set_ne _ _ _ _ Hne).
Qed.

(** What exists keeps existing, and directories stay directories. *)
Lemma mkdirs_dir_frame cs ds n n' es :
  mkdirs cs n = Some n' -> lookup ds n = Some (Dir es) ->
  exists es', lookup ds n' = Some (Dir es').
Proof.
  revert ds n n' es. induction cs as [|c cs IH]; intros ds n n' es; simpl.
  - destruct n; [discriminate|]. intros [= <-]. eauto.
  - destruct n as [t0|es0]; [discriminate|].
    destruct (mkdirs cs _) as [m|] eqn:Em; [|discriminate].
    intros [= <-]. destruct ds as [|d ds]; simpl; [eauto|].
    destruct (String.eqb_spec c d) as [->|Hne].
    + rewrite get_set_eq. destruct (Dict.get d es0) as [m0|]; [|discriminate].
      simpl in Em. intros Hl. eapply IH; eauto.
    + rewrite (get_set_ne _ _ _ _ Hne). eauto.
Qed.

(** Writing a file into an existing directory, at a name that is free or
    held by a regular file. *)
Lemma write_child cs c t n es :
  lookup cs n = Some (Dir es) ->
  FS.is_dir (Dict.get c es) = false ->
  exists n', write (cs ++ [c]) t n = Some n'
    /\ lookup (cs ++ [c]) n' = Some (File t)
    /\ lookup cs n' = Some (Dir (Dict.set c (File t) es)).
Proof.
  revert n. induction cs as [|c0 cs IH]; intros n; simpl.
  - intros [= ->] Hd. simpl.
    assert (Hw : write [c] t (Dir es) = Some (Dir (Dict.set c (File t) es))).
    { simpl. destruct (Dict.get c es) as [[?|?]|]; simpl in Hd; congruence. }
    simpl in Hw. rewrite Hw. eexists; split; [reflexivity|].
    simpl. rewrite get_set_eq. auto.
  - destruct n as [t0|es0]; [discriminate|].
    destruct (Dict.get c0 es0) as [m|] eqn:Eg; [|discriminate].
    intros Hl Hd. destruct (IH m Hl Hd) as (m' & Hw & Hl1 & Hl2).
    rewrite Hw. destruct (cs ++ [c]) eqn:Ecs; [now destruct cs|].
    eexists; split; [reflexivity|]. simpl. rewrite get_set_eq. auto.
Qed.

Lemma lookup_empty_dir ds : ds <> [] -> lookup ds (Dir []) = None.
Proof. destruct ds; simpl; congruence. Qed.

(** What is missing stays missing when directories are made, except the
    directories made. *)
Lemma mkdirs_none_frame cs ds n n' :
  mkdirs cs n = Some n' -> lookup ds n = None ->
  ~ ds `prefix_of` cs -> lookup ds n' = None.
Proof.
  revert ds n n'. induction cs as [|c cs IH]; intros ds n n'; simpl.
  - destruct n; [discriminate|]. now intros [= <-].
  - destruct n as [t0|es]; [discriminate|].
    destruct (mkdirs cs _) as [m|] eqn:Em; [|discriminate].
    intros [= <-] Hl Hp. destruct ds as [|d ds]; [discriminate|]. simpl in *.
    destruct (String.eqb_spec c d) as [->|Hne].
    + rewrite get_set_eq. apply (IH _ _ _ Em).
      * destruct (Dict.get d es) as [m0|]; simpl; [assumption|].
        apply lookup_empty_dir. intros ->. apply Hp. exists cs. reflexivity.
      * intros [k ->]. apply Hp. exists k. reflexivity.
    + now rewrite (get_set_ne _ _ _ _ Hne).
Qed.

Lemma write_lookup ps t n n' :
  write ps t n = Some n' -> lookup ps n' = Some (File t).
Proof.
  revert n n'. induction ps as [|c ps IH]; intros n n'; simpl; [discriminate|].
  destruct n as [t0|es]; [discriminate|].
  destruct ps as [|c' ps].
  - destruct (Dict.get c es) as [[?|?]|]; try discriminate;
      intros [= <-]; simpl; now rewrite get_set_eq.
  - destruct (Dict.get c es) as [m|]; [|discriminate].
    destruct (write (c' :: ps) t m) as [m'|] eqn:Ew; [|discriminate].
    intros [= <-]. cbn [lookup]. rewrite get_set_eq. now apply (IH m).
Qed.

(** Writing a file removes nothing. *)
Lemma write_some_frame ps ds t n n' :
  write ps t n = Some n' -> is_Some (lookup ds n) -> is_Some (lookup ds n').
Proof.
  revert ds n n'. induction ps as [|c ps IH]; intros ds n n'; simpl; [discriminate|].
  destruct n as [t0|es]; [discriminate|].
  assert (Hframe : forall m',
            (forall ds', is_Some (match Dict.get c es with
                                  | Some m => lookup ds' m
                                  | None => None
                                  end) -> is_Some (lookup ds' m')) ->
            is_Some (lookup ds (Dir es)) ->
            is_Some (lookup ds (Dir (Dict.set c m' es)))).
  { intros m' Hm'. destruct ds as [|d ds]; simpl; [eauto|].
    destruct (String.eqb_spec c d) as [->|Hne].
    - rewrite get_set_eq. intros Hs. apply Hm'.
      destruct (Dict.get d es); simpl; auto.
    - now rewrite (get_set_ne _ _ _ _ Hne). }
  destruct ps as [|c' ps].
  - destruct (Dict.get c es) as [[t1|es1]|] eqn:Eg; try discriminate;
      intros [= <-]; apply Hframe; simpl; intros ds' [x Hx].
    + destruct ds'; simpl in *; [eauto|discriminate].
    + discriminate.
  - destruct (Dict.get c es) as [m|] eqn:Eg; [|discriminate].
    destruct (write (c' :: ps) t m) as [m'|] eqn:Ew; [|discriminate].
    intros [= <-]. apply Hframe. simpl. intros ds'. now apply (IH _ m).
Qed.

(** What is missing stays missing when a file is written, except the
    file written. *)
Lemma write_none_frame ps ds t n n' :
  write ps t n = Some n' -> lookup ds n = None -> ds <> ps ->
  lookup ds n' = None.
Proof.
  revert ds n n'. induction ps as [|c ps IH]; intros ds n n'; simpl; [discriminate|].
  destruct n as [t0|es]; [discriminate|].
  destruct ds as [|d ds]; [discriminate|]. simpl.
  destruct ps as [|c' ps].
  - destruct (Dict.get c es) as [[t1|es1]|] eqn:Eg; try discriminate;
      intros [= <-] Hl Hne; simpl;
      (destruct (String.eqb_spec c d) as [->|Hcd];
       [rewrite get_set_eq; apply lookup_file; congruence
       |now rewrite (get_set_ne _ _ _ _ Hcd)]).
  - destruct (Dict.get c es) as [m|] eqn:Eg; [|discriminate].
    destruct (write (c' :: ps) t m) as [m'|] eqn:Ew; [|discriminate].
    intros [= <-] Hl Hne. simpl.
    destruct (String.eqb_spec c d) as [->|Hcd].
    + rewrite get_set_eq. rewrite Eg in Hl.
      apply (IH _ _ _ Ew Hl). congruence.
    + now rewrite (get_set_ne _ _ _ _ Hcd).
Qed.

End FSFacts.

(** ** The monad and the primitives *)

(** The outcome of an existence test, once the path is known to resolve
    or not to. *)
Ltac nothing_there :=
  rewrite bool_decide_eq_false_2 by (intros [? ?]; discriminate).

Ltac something_there :=
  rewrite bool_decide_eq_true_2 by eauto.

Section Primitives.

Lemma bind_ok {A B : Type} (m : M A) (f : A -> M B) w a w' :
  m w = (inr a, w') -> bind m f w = f a w'.
Proof. unfold bind. now intros ->. Qed.

Lemma bind_raise {A B : Type} (m : M A) (f : A -> M B) w e w' :
  m w = (inl e, w') -> bind m f w = (inl e, w').
Proof. unfold bind. now intros ->. Qed.

(** A call that returned went through both halves of a [bind]. *)
Lemma bind_inv {A B : Type} (m : M A) (f : A -> M B) w b w2 :
  bind m f w = (inr b, w2) ->
  exists a w1, m w = (inr a, w1) /\ f a w1 = (inr b, w2).
Proof.
  unfold bind. destruct (m w) as [[e|a] w1]; [discriminate|]. eauto.
Qed.

Lemma os_path_exists_eq p w :
  os_path_exists p w = (inr (bool_decide (is_Some (FS.resolve p (fs w)))), w).
Proof. reflexivity. Qed.

Lemma os_makedirs_ok p w root' :
  FS.resolve p (fs w) = None -> p <> EmptyString ->
  FS.mkdirs (Path.components p) (fs w) = Some root' ->
  os_makedirs p w = (inr tt, touch w root' [Makedirs p]).
Proof.
  intros Hr Hp Hm. unfold os_makedirs, bind, log, get_fs, set_fs. simpl.
  apply String.eqb_neq in Hp. rewrite Hp, Hr.
  nothing_there.
  rewrite Hm. unfold touch. simpl. reflexivity.
Qed.

Lemma shutil_copy_ok src dst w t root' :
  FS.resolve src (fs w) = Some (File t) ->
  FS.resolve dst (fs w) = None ->
  FS.write (Path.components dst) t (fs w) = Some root' ->
  shutil_copy src dst w = (inr tt, touch w root' [Copy src dst]).
Proof.
  intros Hs Hd Hw.
  unfold shutil_copy, bind, log, get_fs, set_fs, os_path_isdir, read_file.
  simpl. rewrite Hd. simpl. rewrite Hs, Hd.
  rewrite (bool_decide_eq_false_2 (is_Some None)) by (intros [? ?]; discriminate).
  rewrite andb_false_r. simpl. rewrite Hs. simpl. rewrite Hw. reflexivity.
Qed.

Lemma touch_touch w r1 t1 r2 t2 :
  touch (touch w r1 t1) r2 t2 = touch w r2 (t1 ++ t2).
Proof. unfold touch. simpl. now rewrite app_assoc. Qed.

Lemma fs_touch w r es : fs (touch w r es) = r.
Proof. reflexivity. Qed.

Lemma touch_id w : touch w (fs w) [] = w.
Proof. destruct w. unfold touch. simpl. now rewrite app_nil_r. Qed.

End Primitives.

(** One step through [os.path.exists] at the head of a computation. *)
Ltac step_exists :=
  rewrite (bind_ok _ _ _ _ _ (os_path_exists_eq _ _)).

(** ** The cache block *)

Section Resolver.
Context `{Collaborators}.
Import Str Path StrFacts PathFacts FSFacts.

Lemma components_cache_yaml name :
  has_char "/" name = false ->
  components (cache_yaml name) =
    components (cache_dir name) ++ [name +:+ ".yaml"].
Proof.
  intros Hn. unfold cache_yaml, os_path_join.
  rewrite components_join, (components_yaml _ Hn); [reflexivity|].
  apply (startswith_no_char "/"). rewrite has_char_app, Hn. reflexivity.
Qed.

Lemma cache_yaml_nonempty name : cache_yaml name <> EmptyString.
Proof.
  apply join_nonempty. intros E. apply (f_equal String.length) in E.
  rewrite length_app in E. simpl in E. lia.
Qed.

Lemma resolve_nonempty p root :
  p <> EmptyString -> FS.resolve p root = FS.lookup (components p) root.
Proof. intros Hp. unfold FS.resolve. apply String.eqb_neq in Hp. now rewrite Hp. Qed.

Lemma resolve_is_dir p root :
  FS.is_dir (FS.resolve p root) = true ->
  p <> EmptyString /\ exists es, FS.lookup (components p) root = Some (Dir es).
Proof.
  unfold FS.resolve. destruct (String.eqb_spec p EmptyString); [discriminate|].
  destruct (FS.lookup _ _) as [[?|es]|]; try discriminate. eauto.
Qed.

(** The block as the specification names its paths. *)
Lemma cached_yaml_file_eq name :
  cached_yaml_file name =
    (do ex <- os_path_exists (cache_dir name);
     run when (negb ex) (os_makedirs (cache_dir name));
     do ex <- os_path_exists (cache_yaml name);
     run when (negb ex)
       (do ex <- os_path_exists (default_yaml name);
        if nonempty (os_path_realpath (default_yaml name)) && ex
        then shutil_copy (default_yaml name) (cache_yaml name)
        else raise FileNotFoundError (DefaultYamlMissing (default_yaml name)));
     ret (cache_yaml name))%py.
Proof. reflexivity. Qed.

(** Filling the cache when the directory is there. *)
Lemma fill_cache name w t es :
  has_char "/" name = false ->
  FS.lookup (components (cache_dir name)) (fs w) = Some (Dir es) ->
  FS.resolve (cache_yaml name) (fs w) = None ->
  FS.resolve (default_yaml name) (fs w) = Some (File t) ->
  exists root',
    shutil_copy (default_yaml name) (cache_yaml name) w
      = (inr tt, touch w root' [Copy (default_yaml name) (cache_yaml name)])
    /\ FS.lookup (components (cache_dir name)) root'
       = Some (Dir (Dict.set (name +:+ ".yaml") (File t) es))
    /\ FS.resolve (cache_yaml name) root' = Some (File t).
Proof.
  intros Hn Hdir Hy Ht.
  assert (Hfree : FS.is_dir (Dict.get (name +:+ ".yaml") es) = false).
  { rewrite (resolve_nonempty _ _ (cache_yaml_nonempty name)) in Hy.
    rewrite (components_cache_yaml _ Hn), lookup_app, Hdir in Hy.
    simpl in Hy. destruct (Dict.get _ es); [discriminate|reflexivity]. }
  destruct (write_child _ _ t _ _ Hdir Hfree) as (root' & Hw & Hl1 & Hl2).
  rewrite <- (components_cache_yaml _ Hn) in Hw, Hl1.
  exists root'. split; [|split]; auto.
  - now apply (shutil_copy_ok _ _ _ t).
  - now rewrite (resolve_nonempty _ _ (cache_yaml_nonempty name)).
Qed.

Lemma cached_yaml_file_spec name w t :
  has_char "/" name = false ->
  dir_ready (cache_dir name) (fs w) ->
  (FS.resolve (cache_yaml name) (fs w) = Some (File t)
   \/ (FS.resolve (cache_yaml name) (fs w) = None
       /\ FS.resolve (default_yaml name) (fs w) = Some (File t))) ->
  exists root',
    cached_yaml_file name w
      = (inr (cache_yaml name), touch w root' (made name w ++ copied name w))
    /\ FS.is_dir (FS.resolve (cache_dir name) root') = true
    /\ FS.resolve (cache_yaml name) root' = Some (File t).
Proof.
  intros Hn Hdir Hsrc. rewrite cached_yaml_file_eq. unfold made, copied.
  destruct Hdir as [Hdir|(Hnone & Hne & [r1 Hmk])].
  - (* the directory is there *)
    destruct (resolve_is_dir _ _ Hdir) as (Hne & es & Hl).
    assert (Hex : bool_decide (is_Some (FS.resolve (cache_dir name) (fs w))) = true).
    { apply bool_decide_eq_true_2. destruct (FS.resolve _ _); [eauto|discriminate]. }
    step_exists. rewrite Hex. simpl.
    rewrite (bind_ok (ret tt) _ w tt w eq_refl).
    step_exists.
    destruct Hsrc as [Hy|[Hy Ht]].
    + rewrite Hy. something_there. simpl.
      rewrite (bind_ok (ret tt) _ w tt w eq_refl).
      exists (fs w). rewrite touch_id. auto.
    + rewrite Hy. nothing_there.
      simpl.
      destruct (fill_cache _ _ _ _ Hn Hl Hy Ht) as (root' & Hc & Hl' & Hy').
      exists root'. split; [|split]; auto.
      * erewrite bind_ok; [reflexivity|].
        step_exists. rewrite Ht.
        something_there. simpl. exact Hc.
      * unfold FS.resolve. apply String.eqb_neq in Hne. now rewrite Hne, Hl'.
  - (* the directory is made *)
    step_exists. rewrite Hnone.
    nothing_there. simpl.
    rewrite (bind_ok _ _ _ _ _ (os_makedirs_ok _ _ _ Hnone Hne Hmk)).
    step_exists.
    assert (Hl0 : FS.lookup (components (cache_dir name)) (fs w) = None).
    { now rewrite <- (resolve_nonempty _ _ Hne). }
    pose proof (mkdirs_fresh _ _ _ Hl0 Hmk) as Hl1.
    assert (Hy0 : FS.resolve (cache_yaml name) (fs w) = None).
    { rewrite (resolve_nonempty _ _ (cache_yaml_nonempty name)).
      now rewrite (components_cache_yaml _ Hn), lookup_app, Hl0. }
    destruct Hsrc as [Hy|[_ Ht]]; [congruence|].
    assert (Hy1 : FS.resolve (cache_yaml name) r1 = None).
    { rewrite (resolve_nonempty _ _ (cache_yaml_nonempty name)).
      now rewrite (components_cache_yaml _ Hn), lookup_app, Hl1. }
    assert (Ht1 : FS.resolve (default_yaml name) r1 = Some (File t)).
    { revert Ht. unfold FS.resolve.
      destruct (String.eqb (default_yaml name) EmptyString); [discriminate|].
      apply (mkdirs_file_frame _ _ _ _ _ Hmk). }
    destruct (fill_cache name (touch w r1 [Makedirs (cache_dir name)]) t []
                Hn Hl1 Hy1 Ht1) as (root' & Hc & Hl' & Hy').
    exists root'. split; [|split]; auto.
    + simpl fs. rewrite Hy1, Hy0.
      repeat nothing_there. simpl.
      rewrite touch_touch in Hc.
      erewrite bind_ok; [reflexivity|].
      step_exists. rewrite fs_touch, Ht1.
      something_there. simpl. exact Hc.
    + unfold FS.resolve. apply String.eqb_neq in Hne. now rewrite Hne, Hl'.
Qed.

(** With the directory and the cached file in place the block touches
    nothing. *)
Lemma cached_yaml_file_hit name w :
  is_Some (FS.resolve (cache_dir name) (fs w)) ->
  is_Some (FS.resolve (cache_yaml name) (fs w)) ->
  cached_yaml_file name w = (inr (cache_yaml name), w).
Proof.
  intros Hd Hy. rewrite cached_yaml_file_eq.
  step_exists.
  rewrite (bool_decide_eq_true_2 _ Hd). simpl.
  rewrite (bind_ok (ret tt) _ w tt w eq_refl).
  step_exists.
  rewrite (bool_decide_eq_true_2 _ Hy). reflexivity.
Qed.

End Resolver.

(** ** Resolution of names and paths *)

Section Resolution.
Context `{Collaborators}.
Import Str Path StrFacts PathFacts FSFacts.

Lemma bare_not_exists name w :
  bare name w -> bool_decide (is_Some (FS.resolve name (fs w))) = false.
Proof.
  unfold bare. intros ->. apply bool_decide_eq_false_2. intros [? ?]. discriminate.
Qed.

Lemma gate_closed name sl :
  supported name sl = false ->
  negb (in_keys (split0 "_" name) sl) || negb (listed name (split0 "_" name) sl) = true.
Proof.
  unfold supported, family. intros Hs.
  now rewrite <- negb_andb, Hs.
Qed.

Lemma gate_open name sl :
  supported name sl = true ->
  negb (in_keys (split0 "_" name) sl) || negb (listed name (split0 "_" name) sl) = false.
Proof.
  unfold supported, family. intros Hs.
  now rewrite <- negb_andb, Hs.
Qed.

(** A supported bare name reaches the cache block. *)
Lemma AutoConfig_supported name w :
  bare name w -> supported name get_model_support_list = true ->
  AutoConfig.from_pretrained name w =
    (do yaml_file <- cached_yaml_file name;
     do config_args <- MindFormerConfig yaml_file;
     AutoConfig.build config_args)%py w.
Proof.
  intros Hb Hs. unfold AutoConfig.from_pretrained, AutoConfig._support_list.
  step_exists. rewrite (bare_not_exists _ _ Hb).
  rewrite (gate_open _ _ Hs). unfold bind.
  destruct (cached_yaml_file name w) as [[e|y] w1]; [reflexivity|].
  destruct (MindFormerConfig y w1) as [[e|c] w2]; reflexivity.
Qed.

Lemma AutoModel_supported name w :
  bare name w -> supported name get_model_support_list = true ->
  AutoModel.from_pretrained name w =
    (do yaml_file <- cached_yaml_file name;
     do config_args <- MindFormerConfig yaml_file;
     AutoModel.update_and_build config_args "checkpoint_name_or_path" (VStr name))%py w.
Proof.
  intros Hb Hs. unfold AutoModel.from_pretrained, AutoModel._support_list.
  step_exists. rewrite (bare_not_exists _ _ Hb).
  erewrite bind_ok; [|unfold os_path_isdir; rewrite Hb; reflexivity].
  simpl. rewrite (gate_open _ _ Hs). reflexivity.
Qed.

(** [MindFormerConfig] on a regular file. *)
Lemma MindFormerConfig_file path w t :
  FS.resolve path (fs w) = Some (File t) ->
  MindFormerConfig path w =
    (match yaml_load t with inl e => inl e | inr d => inr (VDict d) end,
     touch w (fs w) [LoadYaml path]).
Proof.
  intros Hr. unfold MindFormerConfig, bind, log, read_file, lift, ret. simpl.
  rewrite Hr. destruct (yaml_load t); reflexivity.
Qed.

(** C1. For every bare identifier that the SupportList lists under its
    family prefix, [AutoConfig.from_pretrained] and
    [AutoModel.from_pretrained] resolve it to the path
    cache-root/family/identifier.yaml: the directory cache-root/family is
    made if it is absent, the bundled default template
    configs/family/model_config/identifier.yaml is copied to the cached
    path when the cached file is absent, and the config is loaded from the
    cached path.  The identifier is a name (it holds no separator), the
    cache directory is there or can be made, and [t] is the text of the
    cached file, or of the template when the cached file is absent. *)
Theorem C1_supported_name_resolves_to_cache (name : string) (w : world) (t : string) :
  has_char "/" name = false ->
  bare name w ->
  supported name get_model_support_list = true ->
  dir_ready (cache_dir name) (fs w) ->
  (FS.resolve (cache_yaml name) (fs w) = Some (File t)
   \/ (FS.resolve (cache_yaml name) (fs w) = None
       /\ FS.resolve (default_yaml name) (fs w) = Some (File t))) ->
  exists root',
    let w1 := touch w root' (made name w ++ copied name w) in
    FS.is_dir (FS.resolve (cache_dir name) root') = true
    /\ FS.resolve (cache_yaml name) root' = Some (File t)
    /\ MindFormerConfig (cache_yaml name) w1 =
         (match yaml_load t with inl e => inl e | inr d => inr (VDict d) end,
          touch w1 root' [LoadYaml (cache_yaml name)])
    /\ AutoConfig.from_pretrained name w =
         (do config_args <- MindFormerConfig (cache_yaml name);
          AutoConfig.build config_args)%py w1
    /\ AutoModel.from_pretrained name w =
         (do config_args <- MindFormerConfig (cache_yaml name);
          AutoModel.update_and_build config_args
            "checkpoint_name_or_path" (VStr name))%py w1.
Proof.
  intros Hn Hb Hs Hd Ht.
  destruct (cached_yaml_file_spec name w t Hn Hd Ht) as (root' & Hc & Hdir & Hy).
  exists root'. cbv zeta. repeat split; auto.
  - now apply MindFormerConfig_file.
  - rewrite (AutoConfig_supported _ _ Hb Hs).
    now rewrite (bind_ok _ _ _ _ _ Hc).
  - rewrite (AutoModel_supported _ _ Hb Hs).
    now rewrite (bind_ok _ _ _ _ _ Hc).
Qed.

(** C3. For every string identifier that names no existing path,
    [AutoConfig.from_pretrained] and [AutoModel.from_pretrained] fail with
    the unsupported-identifier error, whose message lists the SupportList,
    unless the substring before the first [_] is a key of the SupportList
    and the identifier is listed under it; the world is left as it was.
    An identifier that is listed passes on to the cache block. *)
Theorem C3_unsupported_name_is_rejected (name : string) (w : world) :
  bare name w ->
  (supported name get_model_support_list = false ->
   AutoConfig.from_pretrained name w =
     (inl (Raise ValueError (NotSupported name get_model_support_list)), w)
   /\ AutoModel.from_pretrained name w =
     (inl (Raise ValueError (NotSupported name get_model_support_list)), w))
  /\ (supported name get_model_support_list = true ->
      AutoConfig.from_pretrained name w =
        (do yaml_file <- cached_yaml_file name;
         do config_args <- MindFormerConfig yaml_file;
         AutoConfig.build config_args)%py w
      /\ AutoModel.from_pretrained name w =
        (do yaml_file <- cached_yaml_file name;
         do config_args <- MindFormerConfig yaml_file;
         AutoModel.update_and_build config_args
           "checkpoint_name_or_path" (VStr name))%py w).
Proof.
  intros Hb. split.
  - intros Hs. split.
    + unfold AutoConfig.from_pretrained, AutoConfig._support_list.
      step_exists. rewrite (bare_not_exists _ _ Hb).
      now rewrite (gate_closed _ _ Hs).
    + unfold AutoModel.from_pretrained, AutoModel._support_list.
      step_exists. rewrite (bare_not_exists _ _ Hb).
      erewrite bind_ok; [|unfold os_path_isdir; rewrite Hb; reflexivity].
      simpl. now rewrite (gate_closed _ _ Hs).
  - intros Hs. split.
    + now apply AutoConfig_supported.
    + now apply AutoModel_supported.
Qed.

(** C7. For every existing path that does not end in [.yaml],
    [AutoConfig.from_pretrained] fails with the invalid-argument error
    and returns no config. *)
Theorem C7_existing_path_must_be_yaml (path : string) (w : world) :
  is_Some (FS.resolve path (fs w)) ->
  endswith path ".yaml" = false ->
  AutoConfig.from_pretrained path w =
    (inl (Raise ValueError (NotAYamlFile path)), w).
Proof.
  intros Hex Hy. unfold AutoConfig.from_pretrained.
  step_exists.
  rewrite (bool_decide_eq_true_2 _ Hex), Hy. reflexivity.
Qed.

End Resolution.

(** ** Failure after the directory is made *)

Section NotAtomic.
Context `{Collaborators}.
Import Str Path StrFacts PathFacts FSFacts.

(** C8. Resolution of a bare identifier is not atomic on failure: for a
    supported bare identifier whose bundled default template is absent and
    whose cache directory does not yet exist, [from_pretrained] raises the
    missing-default error, and the cache directory cache-root/family has
    been made and is there after the failure.  The directory can be made,
    and the template path does not lie on the way to it. *)
Theorem C8_directory_survives_missing_default (name : string) (w : world) (root1 : node) :
  has_char "/" name = false ->
  bare name w ->
  supported name get_model_support_list = true ->
  FS.resolve (cache_dir name) (fs w) = None ->
  cache_dir name <> EmptyString ->
  FS.mkdirs (components (cache_dir name)) (fs w) = Some root1 ->
  FS.resolve (default_yaml name) (fs w) = None ->
  ~ components (default_yaml name) `prefix_of` components (cache_dir name) ->
  let w' := touch w root1 [Makedirs (cache_dir name)] in
  AutoConfig.from_pretrained name w =
    (inl (Raise FileNotFoundError (DefaultYamlMissing (default_yaml name))), w')
  /\ AutoModel.from_pretrained name w =
    (inl (Raise FileNotFoundError (DefaultYamlMissing (default_yaml name))), w')
  /\ FS.is_dir (FS.resolve (cache_dir name) (fs w')) = true.
Proof.
  intros Hn Hb Hs Hnone Hne Hmk Ht Hp w'.
  assert (Hl0 : FS.lookup (components (cache_dir name)) (fs w) = None).
  { now rewrite <- (resolve_nonempty _ _ Hne). }
  pose proof (mkdirs_fresh _ _ _ Hl0 Hmk) as Hl1.
  assert (Hy1 : FS.resolve (cache_yaml name) root1 = None).
  { rewrite (resolve_nonempty _ _ (cache_yaml_nonempty name)).
    now rewrite (components_cache_yaml _ Hn), lookup_app, Hl1. }
  assert (Ht1 : FS.resolve (default_yaml name) root1 = None).
  { revert Ht. unfold FS.resolve.
    destruct (String.eqb (default_yaml name) EmptyString); [reflexivity|].
    intros Ht. now apply (mkdirs_none_frame _ _ _ _ Hmk). }
  assert (Hc : cached_yaml_file name w =
    (inl (Raise FileNotFoundError (DefaultYamlMissing (default_yaml name))), w')).
  { rewrite cached_yaml_file_eq.
    step_exists. rewrite Hnone.
    nothing_there. simpl.
    rewrite (bind_ok _ _ _ _ _ (os_makedirs_ok _ _ _ Hnone Hne Hmk)).
    step_exists. rewrite fs_touch, Hy1.
    nothing_there. simpl.
    apply bind_raise.
    step_exists. rewrite fs_touch, Ht1.
    nothing_there.
    reflexivity. }
  split; [|split].
  - rewrite (AutoConfig_supported _ _ Hb Hs). now apply bind_raise.
  - rewrite (AutoModel_supported _ _ Hb Hs). now apply bind_raise.
  - unfold w'. rewrite fs_touch. unfold FS.resolve.
    apply String.eqb_neq in Hne. now rewrite Hne, Hl1.
Qed.

End NotAtomic.

(** ** Inversion of the primitives and of the block *)

Section Inversion.
Context `{Collaborators}.
Import Str Path StrFacts PathFacts FSFacts.

Lemma os_makedirs_inv p w w' :
  os_makedirs p w = (inr tt, w') ->
  exists root', FS.mkdirs (components p) (fs w) = Some root'
    /\ p <> EmptyString /\ w' = touch w root' [Makedirs p].
Proof.
  unfold os_makedirs, bind, log, get_fs, set_fs, raise. simpl.
  destruct (String.eqb_spec p EmptyString); [discriminate|].
  destruct (bool_decide _); [discriminate|].
  destruct (FS.mkdirs (components p) (fs w)) as [r|] eqn:Em; [|discriminate].
  intros [= <-]. exists r. auto.
Qed.

Lemma shutil_copy_inv src dst w w' :
  FS.resolve dst (fs w) = None ->
  shutil_copy src dst w = (inr tt, w') ->
  exists t root', FS.resolve src (fs w) = Some (File t)
    /\ FS.write (components dst) t (fs w) = Some root'
    /\ w' = touch w root' [Copy src dst].
Proof.
  intros Hd.
  unfold shutil_copy, bind, log, get_fs, set_fs, os_path_isdir, read_file, raise.
  simpl. rewrite Hd. simpl. rewrite Hd.
  rewrite (bool_decide_eq_false_2 (is_Some None)) by (intros [? ?]; discriminate).
  rewrite andb_false_r. simpl.
  destruct (FS.resolve src (fs w)) as [[t|es]|]; try discriminate.
  simpl. destruct (FS.write (components dst) t (fs w)) as [r|] eqn:Ew.
  - intros [= <-]. exists t, r. repeat split; auto.
  - destruct (FS.is_dir (FS.resolve dst (fs w))); discriminate.
Qed.

Lemma resolve_mkdirs_some p cs root root' :
  FS.mkdirs cs root = Some root' ->
  is_Some (FS.resolve p root) -> is_Some (FS.resolve p root').
Proof.
  intros Hm. unfold FS.resolve. destruct (String.eqb p EmptyString); [auto|].
  intros [[t|es] Hl].
  - rewrite (mkdirs_file_frame _ _ _ _ _ Hm Hl). eauto.
  - destruct (mkdirs_dir_frame _ _ _ _ _ Hm Hl) as [es' ->]. eauto.
Qed.

Lemma resolve_write_some p cs t root root' :
  FS.write cs t root = Some root' ->
  is_Some (FS.resolve p root) -> is_Some (FS.resolve p root').
Proof.
  intros Hw. unfold FS.resolve. destruct (String.eqb p EmptyString); [auto|].
  now apply write_some_frame with (ps := cs) (t := t).
Qed.

(** What holds when the block returns. *)
Lemma cached_yaml_file_inv name w y w' :
  cached_yaml_file name w = (inr y, w') ->
  y = cache_yaml name
  /\ is_Some (FS.resolve (cache_dir name) (fs w'))
  /\ is_Some (FS.resolve (cache_yaml name) (fs w'))
  /\ config_to_name w' = config_to_name w
  /\ next_ident w' = next_ident w
  /\ (forall ds, FS.lookup ds (fs w) = None ->
        ~ ds `prefix_of` components (cache_dir name) ->
        ds <> components (cache_yaml name) ->
        FS.lookup ds (fs w') = None)
  /\ exists es, trace w' = trace w ++ es /\ forallb (fun e => negb (is_load e)) es = true.
Proof.
  rewrite cached_yaml_file_eq. intros Hrun.
  apply bind_inv in Hrun as (ex & wa & Hex & Hrun). injection Hex as <- <-.
  apply bind_inv in Hrun as ([] & wb & Hmk & Hrun).
  assert (Hb : is_Some (FS.resolve (cache_dir name) (fs wb))
               /\ config_to_name wb = config_to_name w
               /\ next_ident wb = next_ident w
               /\ (forall ds, FS.lookup ds (fs w) = None ->
                     ~ ds `prefix_of` components (cache_dir name) ->
                     FS.lookup ds (fs wb) = None)
               /\ exists es, trace wb = trace w ++ es
                    /\ forallb (fun e => negb (is_load e)) es = true).
  { destruct (bool_decide (is_Some (FS.resolve (cache_dir name) (fs w)))) eqn:E.
    - injection Hmk as <-. apply bool_decide_eq_true_1 in E.
      split; [assumption|]. split; [reflexivity|]. split; [reflexivity|].
      split; [auto|]. exists []. now rewrite app_nil_r.
    - simpl in Hmk. apply os_makedirs_inv in Hmk as (r & Hm & Hne & ->).
      rewrite fs_touch.
      split; [|split; [reflexivity|split; [reflexivity|split]]].
      + destruct (mkdirs_is_dir _ _ _ Hm) as [es Hl].
        rewrite (resolve_nonempty _ _ Hne), Hl. eauto.
      + intros ds Hl Hp. now apply (mkdirs_none_frame _ _ _ _ Hm).
      + eexists. split; reflexivity. }
  destruct Hb as (Hdir & Hc & Hi & Hframe & es & Htr & Hes).
  apply bind_inv in Hrun as (ex & wc & Hex & Hrun). injection Hex as <- <-.
  apply bind_inv in Hrun as ([] & wd & Hcp & Hrun). injection Hrun as <- <-.
  destruct (bool_decide (is_Some (FS.resolve (cache_yaml name) (fs wb)))) eqn:E.
  - injection Hcp as <-. apply bool_decide_eq_true_1 in E.
    repeat split; auto. eauto.
  - simpl in Hcp. apply bool_decide_eq_false_1 in E.
    assert (Hy : FS.resolve (cache_yaml name) (fs wb) = None).
    { destruct (FS.resolve (cache_yaml name) (fs wb)); [exfalso; eauto|reflexivity]. }
    apply bind_inv in Hcp as (ex & we & Hex & Hcp). injection Hex as <- <-.
    destruct (bool_decide (is_Some (FS.resolve (default_yaml name) (fs wb))));
      [|discriminate].
    apply (shutil_copy_inv _ _ _ _ Hy) in Hcp as (t & r & Hs & Hw & ->).
    rewrite fs_touch.
    split; [reflexivity|]. split; [eapply resolve_write_some; eauto|].
    split; [|split; [assumption|split; [assumption|split]]].
    + rewrite (resolve_nonempty _ _ (cache_yaml_nonempty name)).
      rewrite (write_lookup _ _ _ _ Hw). eauto.
    + intros ds Hl Hp Hne. apply (write_none_frame _ _ _ _ _ Hw); auto.
    + exists (es ++ [Copy (default_yaml name) (cache_yaml name)]).
      unfold touch. simpl. rewrite Htr, <- List.app_assoc. split; [reflexivity|].
      rewrite forallb_app, Hes. reflexivity.
Qed.

Lemma MindFormerConfig_inv path w config_args w' :
  MindFormerConfig path w = (inr config_args, w') ->
  exists t d, FS.resolve path (fs w) = Some (File t)
    /\ yaml_load t = inr d /\ config_args = VDict d
    /\ w' = touch w (fs w) [LoadYaml path].
Proof.
  unfold MindFormerConfig, bind, log, read_file, lift, ret. simpl.
  destruct (FS.resolve path (fs w)) as [[t|es]|]; try discriminate.
  destruct (yaml_load t) as [e|d] eqn:Ey; [discriminate|].
  intros [= <- <-]. exists t, d. auto.
Qed.

(** A successful [build] succeeds in every world, with the same class and
    entries; only the identity it allocates depends on the world. *)
Lemma build_inv config_args w config w' :
  AutoConfig.build config_args w = (inr config, w') ->
  exists cls d type,
    forall w0, AutoConfig.build config_args w0 =
      (inr (VConfig cls (next_ident w0) d),
       World (fs w0) (<[next_ident w0 := type]> (config_to_name w0))
         (N.succ (next_ident w0)) (trace w0)).
Proof.
  unfold AutoConfig.build, bind, lift, new_config, set_model_config_to_name, ret.
  destruct (getattr "model" config_args) as [e|model]; [discriminate|].
  destruct (getattr "model_config" model) as [e|mc]; [discriminate|].
  destruct (build_model_config mc) as [e|[cls d]]; [discriminate|].
  destruct (getattr "arch" model) as [e|arch]; [discriminate|].
  destruct (getattr "type" arch) as [e|type]; [discriminate|].
  intros _. exists cls, d, type. reflexivity.
Qed.

(** [update_and_build] does not touch the world. *)
Lemma update_and_build_pure config_args key x :
  exists r, forall w, AutoModel.update_and_build config_args key x w = (r, w).
Proof.
  unfold AutoModel.update_and_build, bind, lift.
  destruct (getattr "model" config_args) as [e|model]; [eauto|].
  destruct (getattr "model_config" model) as [e|mc]; [eauto|].
  destruct (py_update key x mc) as [e|mc']; [eauto|].
  destruct (py_update "model_config" mc' model) as [e|model']; eauto.
Qed.

End Inversion.

(** ** Idempotence *)

Section Idempotence.
Context `{Collaborators}.

(** The block does not make the name a path, unless the name is the first
    directory on the way to the cache. *)
Lemma name_stays_bare name w y w' :
  Str.has_char "/" name = false ->
  bare name w ->
  hd_error (Path.components (cache_dir name)) <> Some name ->
  cached_yaml_file name w = (inr y, w') ->
  bare name w'.
Proof.
  intros Hn Hb Hhd Hrun. unfold bare, FS.resolve in *.
  destruct (String.eqb name EmptyString); [reflexivity|].
  apply cached_yaml_file_inv in Hrun as (_ & _ & _ & _ & _ & Hframe & _).
  assert (Hcs : Path.components name = [name]).
  { unfold Path.components, Path.sep in *.
    rewrite (StrFacts.split_no_sep _ _ Hn) in Hb |- *.
    rewrite filter_cons in Hb |- *.
    destruct (negb (Path.skipped name)); [reflexivity|]. discriminate Hb. }
  rewrite Hcs in *. apply Hframe; [assumption| |].
  - intros [k Hk]. apply Hhd. now rewrite Hk.
  - rewrite (components_cache_yaml _ Hn).
    destruct (Path.components (cache_dir name)) as [|c [|c' cs]]; simpl;
      try discriminate.
    intros [= E]. apply (f_equal String.length) in E.
    rewrite StrFacts.length_app in E. simpl in E. lia.
Qed.

(** So a first call that returns leaves the name bare. *)
Lemma first_call_keeps_name_bare name w :
  Str.has_char "/" name = false ->
  supported name get_model_support_list = true ->
  bare name w ->
  hd_error (Path.components (cache_dir name)) <> Some name ->
  (forall config w1,
     AutoConfig.from_pretrained name w = (inr config, w1) -> bare name w1)
  /\ (forall model w1,
     AutoModel.from_pretrained name w = (inr model, w1) -> bare name w1).
Proof.
  intros Hn Hs Hb Hhd. split.
  - intros config w1 Hrun. rewrite (AutoConfig_supported _ _ Hb Hs) in Hrun.
    apply bind_inv in Hrun as (y & wa & Hc & Hrun).
    apply bind_inv in Hrun as (config_args & wb & Hm & Hbuild).
    pose proof (name_stays_bare _ _ _ _ Hn Hb Hhd Hc) as Hba.
    apply MindFormerConfig_inv in Hm as (t & d0 & _ & _ & -> & ->).
    destruct (build_inv _ _ _ _ Hbuild) as (cls & d & type & Hany).
    rewrite Hany in Hbuild. injection Hbuild as <- <-. exact Hba.
  - intros model w1 Hrun. rewrite (AutoModel_supported _ _ Hb Hs) in Hrun.
    apply bind_inv in Hrun as (y & wa & Hc & Hrun).
    apply bind_inv in Hrun as (config_args & wb & Hm & Hbuild).
    pose proof (name_stays_bare _ _ _ _ Hn Hb Hhd Hc) as Hba.
    apply MindFormerConfig_inv in Hm as (t & d0 & _ & _ & -> & ->).
    destruct (update_and_build_pure (VDict d0) "checkpoint_name_or_path" (VStr name))
      as (r & Hany).
    rewrite Hany in Hbuild. injection Hbuild as _ <-. exact Hba.
Qed.

(** C4. Resolution of a supported bare identifier is idempotent: when
    [from_pretrained] has returned for an identifier and is called with it
    again, with no change to the file system in between, both calls load
    the config from the same cached path, and the second call makes no
    directory and copies no template: it only loads the cached file, and
    leaves the file system as it found it.  It returns what the first call
    returned (for a config, up to the identity of the new object).  The
    identifier is a bare name at both calls; [first_call_keeps_name_bare]
    says when the first call leaves it one. *)
Theorem C4_second_call_reuses_cache (name : string) (w : world) :
  supported name get_model_support_list = true ->
  bare name w ->
  (forall config w1,
     AutoConfig.from_pretrained name w = (inr config, w1) ->
     bare name w1 ->
     exists cls d w2 es,
       config = VConfig cls (next_ident w) d
       /\ AutoConfig.from_pretrained name w1 = (inr (VConfig cls (next_ident w1) d), w2)
       /\ trace w1 = trace w ++ es ++ [LoadYaml (cache_yaml name)]
       /\ forallb (fun e => negb (is_load e)) es = true
       /\ trace w2 = trace w1 ++ [LoadYaml (cache_yaml name)]
       /\ fs w2 = fs w1)
  /\ (forall model w1,
     AutoModel.from_pretrained name w = (inr model, w1) ->
     bare name w1 ->
     exists w2 es,
       AutoModel.from_pretrained name w1 = (inr model, w2)
       /\ trace w1 = trace w ++ es ++ [LoadYaml (cache_yaml name)]
       /\ forallb (fun e => negb (is_load e)) es = true
       /\ trace w2 = trace w1 ++ [LoadYaml (cache_yaml name)]
       /\ fs w2 = fs w1).
Proof.
  intros Hs Hb. split.
  - intros config w1 Hrun Hb1. rewrite (AutoConfig_supported _ _ Hb Hs) in Hrun.
    apply bind_inv in Hrun as (y & wa & Hc & Hrun).
    apply bind_inv in Hrun as (config_args & wb & Hm & Hbuild).
    apply cached_yaml_file_inv in Hc as (-> & Hdir & Hy & _ & Hi & _ & es & Htr & Hes).
    apply MindFormerConfig_inv in Hm as (t & d0 & Hr & Hload & -> & ->).
    destruct (build_inv _ _ _ _ Hbuild) as (cls & d & type & Hany).
    rewrite Hany in Hbuild. injection Hbuild as <- <-.
    simpl next_ident. simpl trace. simpl fs.
    exists cls, d. eexists. exists es. split; [now rewrite Hi|].
    split; [|split; [|split; [|split]]].
    + rewrite AutoConfig_supported by assumption.
      erewrite bind_ok; [|apply cached_yaml_file_hit; simpl; assumption].
      unfold bind. rewrite (MindFormerConfig_file _ _ t) by exact Hr.
      rewrite Hload, Hany. reflexivity.
    + now rewrite Htr, <- List.app_assoc.
    + assumption.
    + reflexivity.
    + reflexivity.
  - intros model w1 Hrun Hb1. rewrite (AutoModel_supported _ _ Hb Hs) in Hrun.
    apply bind_inv in Hrun as (y & wa & Hc & Hrun).
    apply bind_inv in Hrun as (config_args & wb & Hm & Hbuild).
    apply cached_yaml_file_inv in Hc as (-> & Hdir & Hy & _ & Hi & _ & es & Htr & Hes).
    apply MindFormerConfig_inv in Hm as (t & d0 & Hr & Hload & -> & ->).
    destruct (update_and_build_pure (VDict d0) "checkpoint_name_or_path" (VStr name))
      as (r & Hany).
    rewrite Hany in Hbuild. injection Hbuild as -> <-.
    simpl trace. simpl fs.
    eexists. exists es. split; [|split; [|split; [|split]]].
    + rewrite AutoModel_supported by assumption.
      erewrite bind_ok; [|apply cached_yaml_file_hit; simpl; assumption].
      unfold bind. rewrite (MindFormerConfig_file _ _ t) by exact Hr.
      rewrite Hload, Hany. reflexivity.
    + now rewrite Htr, <- List.app_assoc.
    + assumption.
    + reflexivity.
    + reflexivity.
Qed.

End Idempotence.

(** ** Resolution of a directory *)

Section Directory.
Context `{Collaborators}.
Import Str.

Lemma resolve_dir_flags p w es :
  FS.resolve p (fs w) = Some (Dir es) ->
  os_path_exists p w = (inr true, w)
  /\ os_path_isdir p w = (inr true, w)
  /\ os_path_isfile p w = (inr false, w)
  /\ os_listdir p w = (inr (Dict.keys es), w).
Proof.
  intros Hr. unfold os_path_exists, os_path_isdir, os_path_isfile, os_listdir.
  rewrite Hr. something_there. auto.
Qed.

(** The tree [build_model] receives holds the injected key. *)
Lemma update_and_build_injects config_args key x w model w' :
  AutoModel.update_and_build config_args key x w = (inr model, w') ->
  exists tree model_config,
    build_model tree = inr model
    /\ getattr "model_config" tree = inr model_config
    /\ getattr key model_config = inr x
    /\ w' = w.
Proof.
  unfold AutoModel.update_and_build, bind, lift.
  destruct (getattr "model" config_args) as [e|m]; [discriminate|].
  destruct (getattr "model_config" m) as [e|mc]; [discriminate|].
  destruct (py_update key x mc) as [e|mc'] eqn:Emc; [discriminate|].
  destruct (py_update "model_config" mc' m) as [e|m'] eqn:Em; [discriminate|].
  destruct (build_model m') as [e|r] eqn:Eb; [discriminate|].
  intros [= <- <-]. exists m', mc'. repeat split; auto.
  - destruct m; try discriminate; injection Em as <-; simpl;
      now rewrite DictFacts.get_set_eq.
  - destruct mc; try discriminate; injection Emc as <-; simpl;
      now rewrite DictFacts.get_set_eq.
Qed.

(** The tree [build_model] receives is the [model] entry of the loaded
    config with the key set in its [model_config], and nothing else
    changed. *)
Lemma update_and_build_eq config_args key x w model model_config model_config' :
  getattr "model" config_args = inr model ->
  getattr "model_config" model = inr model_config ->
  py_update key x model_config = inr model_config' ->
  exists tree,
    py_update "model_config" model_config' model = inr tree
    /\ AutoModel.update_and_build config_args key x w = (build_model tree, w)
    /\ getattr "model_config" tree = inr model_config'
    /\ (forall k, k <> "model_config" -> getattr k tree = getattr k model)
    /\ getattr key model_config' = inr x
    /\ (forall k, k <> key -> getattr k model_config' = getattr k model_config).
Proof.
  intros Hm Hmc Hup.
  assert (Htree : exists tree,
            py_update "model_config" model_config' model = inr tree
            /\ getattr "model_config" tree = inr model_config'
            /\ forall k, k <> "model_config" -> getattr k tree = getattr k model).
  { destruct model; try discriminate; eexists; (split; [reflexivity|]); simpl;
      (split; [now rewrite DictFacts.get_set_eq|]);
      intros k Hk; rewrite DictFacts.get_set_ne by congruence; reflexivity. }
  destruct Htree as (tree & Ht & Hg & Hrest).
  exists tree. split; [exact Ht|]. split.
  - unfold AutoModel.update_and_build, bind, lift. now rewrite Hm, Hmc, Hup, Ht.
  - split; [exact Hg|]. split; [exact Hrest|].
    destruct model_config; try discriminate; injection Hup as <-; simpl;
      (split; [now rewrite DictFacts.get_set_eq|]);
      intros k Hk; rewrite DictFacts.get_set_ne by congruence; reflexivity.
Qed.

(** C5. When the identifier passed to [AutoModel.from_pretrained] is an
    existing directory, its entries are scanned for names ending in
    [.yaml] and for names ending in [.ckpt]: the call fails with the
    not-found error if either list is empty; otherwise the first name of
    each list is used, the config is loaded from the first yaml file, and
    the path of the first checkpoint file is set under the key
    [checkpoint_name_or_path] in the [model_config] of that loaded
    config: the model is built from the [model] entry of the file, in
    which only [model_config] changed, and in it only that key. *)
Theorem C5_directory_needs_yaml_and_ckpt (dir : string) (w : world)
    (es : list (string * node)) :
  FS.resolve dir (fs w) = Some (Dir es) ->
  let yaml_list := filter (fun file => endswith file ".yaml") (Dict.keys es) in
  let ckpt_list := filter (fun file => endswith file ".ckpt") (Dict.keys es) in
  (yaml_list = [] \/ ckpt_list = [] ->
   AutoModel.from_pretrained dir w =
     (inl (Raise FileNotFoundError (NoYamlOrCkpt dir)), w))
  /\ (forall yaml0 yamls ckpt0 ckpts,
        yaml_list = yaml0 :: yamls -> ckpt_list = ckpt0 :: ckpts ->
        AutoModel.from_pretrained dir w =
          (do config_args <- MindFormerConfig (os_path_join dir yaml0);
           AutoModel.update_and_build config_args
             "checkpoint_name_or_path" (VStr (os_path_join dir ckpt0)))%py w
        /\ (forall model w',
              AutoModel.from_pretrained dir w = (inr model, w') ->
              exists tree model_config,
                build_model tree = inr model
                /\ getattr "model_config" tree = inr model_config
                /\ getattr "checkpoint_name_or_path" model_config
                   = inr (VStr (os_path_join dir ckpt0)))
        /\ (forall t d model model_config model_config',
              FS.resolve (os_path_join dir yaml0) (fs w) = Some (File t) ->
              yaml_load t = inr d ->
              getattr "model" (VDict d) = inr model ->
              getattr "model_config" model = inr model_config ->
              py_update "checkpoint_name_or_path" (VStr (os_path_join dir ckpt0))
                model_config = inr model_config' ->
              exists tree,
                py_update "model_config" model_config' model = inr tree
                /\ AutoModel.from_pretrained dir w =
                     (build_model tree,
                      touch w (fs w) [LoadYaml (os_path_join dir yaml0)])
                /\ getattr "model_config" tree = inr model_config'
                /\ (forall k, k <> "model_config" ->
                    getattr k tree = getattr k model)
                /\ getattr "checkpoint_name_or_path" model_config'
                   = inr (VStr (os_path_join dir ckpt0))
                /\ (forall k, k <> "checkpoint_name_or_path" ->
                    getattr k model_config' = getattr k model_config))).
Proof.
  intros Hr yaml_list ckpt_list.
  destruct (resolve_dir_flags _ _ _ Hr) as (Hex & Hdir & _ & Hls).
  assert (Hrun : AutoModel.from_pretrained dir w =
    match yaml_list, ckpt_list with
    | yaml0 :: _, ckpt0 :: _ =>
        (do config_args <- MindFormerConfig (os_path_join dir yaml0);
         AutoModel.update_and_build config_args
           "checkpoint_name_or_path" (VStr (os_path_join dir ckpt0)))%py w
    | _, _ => (inl (Raise FileNotFoundError (NoYamlOrCkpt dir)), w)
    end).
  { unfold AutoModel.from_pretrained.
    rewrite (bind_ok _ _ _ _ _ Hex), (bind_ok _ _ _ _ _ Hdir). simpl.
    rewrite (bind_ok (ret tt) _ w tt w eq_refl).
    rewrite (bind_ok _ _ _ _ _ Hls), (bind_ok _ _ _ _ _ Hls).
    fold yaml_list ckpt_list.
    destruct yaml_list as [|y ys]; [reflexivity|].
    destruct ckpt_list as [|c cs]; reflexivity. }
  split.
  - intros [E|E]; rewrite Hrun, E; [reflexivity|].
    destruct yaml_list; reflexivity.
  - intros y ys c cs Ey Ec. rewrite Hrun, Ey, Ec. split; [reflexivity|]. split.
    + intros model w' Hok. apply bind_inv in Hok as (config_args & wa & _ & Hb).
      destruct (update_and_build_injects _ _ _ _ _ _ Hb) as (tree & mc & ? & ? & ? & _).
      eauto.
    + intros t d model model_config model_config' Hy Hload Hm Hmc Hup.
      destruct (update_and_build_eq (VDict d) "checkpoint_name_or_path"
                  (VStr (os_path_join dir c))
                  (touch w (fs w) [LoadYaml (os_path_join dir y)])
                  model model_config model_config' Hm Hmc Hup)
        as (tree & Ht & Hb & Hrest).
      exists tree. split; [exact Ht|]. split; [|exact Hrest].
      unfold bind at 1. now rewrite (MindFormerConfig_file _ _ t Hy), Hload, Hb.
Qed.

(** C10. For every existing directory that holds no name ending in
    [.yaml], [AutoProcessor.from_pretrained] takes the first element of
    the empty list of yaml files with no guard before it: the call fails
    with the index error, not with a not-found error.  The access is safe
    exactly when the directory holds such a name, and the config is then
    loaded from the first one. *)
Theorem C10_processor_indexes_empty_list (dir : string) (w : world)
    (es : list (string * node)) (sl : support_list) :
  AutoProcessor._support_list = inr sl ->
  FS.resolve dir (fs w) = Some (Dir es) ->
  let yaml_list := filter (fun file => endswith file ".yaml") (Dict.keys es) in
  (yaml_list = [] ->
   AutoProcessor.from_pretrained dir w =
     (inl (Raise IndexError (Runtime "list index out of range")), w))
  /\ (forall yaml0 yamls,
        yaml_list = yaml0 :: yamls ->
        AutoProcessor.from_pretrained dir w =
          (do config_args <- MindFormerConfig (os_path_join dir yaml0);
           AutoProcessor.build dir config_args)%py w).
Proof.
  intros Hsl Hr yaml_list.
  destruct (resolve_dir_flags _ _ _ Hr) as (Hex & Hdir & _ & Hls).
  assert (Hrun : AutoProcessor.from_pretrained dir w =
    match yaml_list with
    | yaml0 :: _ =>
        (do config_args <- MindFormerConfig (os_path_join dir yaml0);
         AutoProcessor.build dir config_args)%py w
    | [] => (inl (Raise IndexError (Runtime "list index out of range")), w)
    end).
  { unfold AutoProcessor.from_pretrained. rewrite Hsl.
    rewrite (bind_ok (lift (inr sl)) _ w sl w eq_refl).
    rewrite (bind_ok _ _ _ _ _ Hex). simpl.
    rewrite (bind_ok (ret tt) _ w tt w eq_refl).
    unfold bind at 1. unfold bind at 1. rewrite Hdir.
    unfold bind at 1. rewrite Hls. fold yaml_list.
    destruct yaml_list as [|y ys]; [reflexivity|].
    unfold bind. destruct (MindFormerConfig _ w) as [[e|c] w1]; reflexivity. }
  split.
  - intros E. now rewrite Hrun, E.
  - intros y ys E. now rewrite Hrun, E.
Qed.

End Directory.

(** ** Resolution of a tokenizer *)

Section Tokenizer.
Context `{Collaborators}.
Import Str.

(** A directory without yaml file gives no class name. *)
Lemma class_name_no_yaml dir w es :
  FS.resolve dir (fs w) = Some (Dir es) ->
  filter (fun file => endswith file ".yaml") (Dict.keys es) = [] ->
  AutoTokenizer._get_class_name_from_yaml dir w = (inr VNone, w).
Proof.
  intros Hr Hnil.
  destruct (resolve_dir_flags _ _ _ Hr) as (Hex & Hdir & Hfile & Hls).
  unfold AutoTokenizer._get_class_name_from_yaml.
  rewrite (bind_ok _ _ _ _ _ Hex), (bind_ok _ _ _ _ _ Hdir), (bind_ok _ _ _ _ _ Hfile).
  simpl. rewrite (bind_ok _ _ _ _ _ Hls), Hnil. reflexivity.
Qed.

(** The statements after the load compute [yaml_class_name]. *)
Lemma class_name_chain (config : value) (w : world) :
  (if negb (truthy config) then ret VNone else
   do has <- lift (py_in "processor" config);
   if negb has then ret VNone else
   do processor <- lift (py_getitem "processor" config);
   do has <- lift (py_in "tokenizer" processor);
   if negb has then ret VNone else
   do tokenizer <- lift (py_getitem "tokenizer" processor);
   do has <- lift (py_in "type" tokenizer);
   if negb has then ret VNone else
   do '(class_name, _) <- lift (py_pop "type" tokenizer);
   ret class_name)%py w = (AutoTokenizer.yaml_class_name config, w).
Proof.
  unfold AutoTokenizer.yaml_class_name, bind, lift, ret.
  destruct (truthy config); [|reflexivity]. cbn [negb].
  destruct (py_in "processor" config) as [e|[|]]; try reflexivity. cbn [negb].
  destruct (py_getitem "processor" config) as [e|processor]; [reflexivity|].
  destruct (py_in "tokenizer" processor) as [e|[|]]; try reflexivity. cbn [negb].
  destruct (py_getitem "tokenizer" processor) as [e|tokenizer]; [reflexivity|].
  destruct (py_in "type" tokenizer) as [e|[|]]; try reflexivity. cbn [negb].
  destruct (py_pop "type" tokenizer) as [e|[class_name rest]]; reflexivity.
Qed.

(** The class name of a directory is that of its first yaml file. *)
Lemma class_name_of_dir dir w es yaml0 yamls t d :
  FS.resolve dir (fs w) = Some (Dir es) ->
  filter (fun file => endswith file ".yaml") (Dict.keys es) = yaml0 :: yamls ->
  FS.resolve (os_path_join dir yaml0) (fs w) = Some (File t) ->
  yaml_load t = inr d ->
  AutoTokenizer._get_class_name_from_yaml dir w =
    (AutoTokenizer.yaml_class_name (VDict d),
     touch w (fs w) [LoadYaml (os_path_join dir yaml0)]).
Proof.
  intros Hr Hls' Hy Hload.
  destruct (resolve_dir_flags _ _ _ Hr) as (Hex & Hdir & Hfile & Hls).
  unfold AutoTokenizer._get_class_name_from_yaml.
  rewrite (bind_ok _ _ _ _ _ Hex), (bind_ok _ _ _ _ _ Hdir), (bind_ok _ _ _ _ _ Hfile).
  simpl. rewrite (bind_ok _ _ _ _ _ Hls), Hls'.
  unfold bind at 1. rewrite (MindFormerConfig_file _ _ t Hy), Hload.
  apply class_name_chain.
Qed.

(** The class name of a yaml file given by its path. *)
Lemma class_name_of_file path w t d :
  FS.resolve path (fs w) = Some (File t) ->
  yaml_load t = inr d ->
  AutoTokenizer._get_class_name_from_yaml path w =
    (AutoTokenizer.yaml_class_name (VDict d), touch w (fs w) [LoadYaml path]).
Proof.
  intros Hr Hload.
  assert (Hex : os_path_exists path w = (inr true, w)).
  { unfold os_path_exists. rewrite Hr. something_there. reflexivity. }
  assert (Hdir : os_path_isdir path w = (inr false, w)).
  { unfold os_path_isdir. now rewrite Hr. }
  assert (Hfile : os_path_isfile path w = (inr true, w)).
  { unfold os_path_isfile. now rewrite Hr. }
  unfold AutoTokenizer._get_class_name_from_yaml.
  rewrite (bind_ok _ _ _ _ _ Hex), (bind_ok _ _ _ _ _ Hdir), (bind_ok _ _ _ _ _ Hfile).
  simpl.
  unfold bind at 1. rewrite (MindFormerConfig_file _ _ t Hr), Hload.
  apply class_name_chain.
Qed.

(** A yaml file that supplies no type gives a falsy class name. *)
Lemma no_type_is_falsy d :
  AutoTokenizer.no_tokenizer_type d = true ->
  exists class_name,
    AutoTokenizer.yaml_class_name (VDict d) = inr class_name
    /\ truthy class_name = false.
Proof.
  unfold AutoTokenizer.no_tokenizer_type, AutoTokenizer.yaml_class_name.
  destruct d as [|kv d']; [exists VNone; auto|]. set (d := kv :: d') in *.
  change (truthy (VDict d)) with true. cbn [negb].
  unfold py_in, py_getitem, py_pop, Dict.mem.
  destruct (Dict.get "processor" d) as [p|]; [|exists VNone; auto].
  destruct p as [| | | | |p|c i p]; try discriminate;
    (destruct (Dict.get "tokenizer" p) as [tk|]; [|exists VNone; auto]);
    (destruct tk as [| | | | |tk|c' i' tk]; try discriminate);
    (destruct (Dict.get "type" tk) as [cn|]; [|exists VNone; auto]);
    intros Hf; exists cn; simpl; split; try reflexivity;
    now destruct (truthy cn).
Qed.

(** A yaml file in which [None], a boolean or a number stands on the way
    makes the membership test raise. *)
Lemma null_raises d :
  AutoTokenizer.null_before_type d = true ->
  AutoTokenizer.yaml_class_name (VDict d)
    = inl (Raise TypeError (Runtime "argument is not iterable")).
Proof.
  unfold AutoTokenizer.null_before_type, AutoTokenizer.yaml_class_name.
  destruct d as [|kv d']; [discriminate|]. set (d := kv :: d') in *.
  change (truthy (VDict d)) with true. cbn [negb].
  unfold py_in, py_getitem, Dict.mem.
  destruct (Dict.get "processor" d) as [p|]; [|discriminate].
  destruct p as [| | | | |p|c i p]; try discriminate; try reflexivity;
    (destruct (Dict.get "tokenizer" p) as [tk|]; [|discriminate]);
    destruct tk; try discriminate; reflexivity.
Qed.

(** C6, as the code has it.  An existing directory whose name is not
    itself a listed tokenizer identifier.  [found] is what the look at
    the config yaml gave, and [w'] the world after it: [None] when the
    directory holds no yaml file, and what [yaml_class_name] reads in the
    first one otherwise.  When the yaml is absent or gives a falsy class
    name, the class name is taken from the key [tokenizer_class] of the
    file [tokenizer_config.json] in the directory; the call fails with
    the not-found error when that file is absent, and with the
    missing-field error when the file lacks the key.  When the look at
    the yaml raises, that exception leaves the call and nothing is
    looked up in the json file.  A yaml supplies no
    [processor.tokenizer.type], and gives a falsy class name, when a
    mapping on the path lacks the next key or the type is falsy; the
    look raises [TypeError] when [None], a boolean or a number stands
    where [processor] or [processor.tokenizer] should be a mapping. *)
Theorem C6_tokenizer_class_from_json (dir : string) (w w' : world)
    (es : list (string * node)) (found : exn + value) :
  dir ∉ all_values get_tokenizer_support_list ->
  FS.resolve dir (fs w) = Some (Dir es) ->
  let yaml_list := filter (fun file => endswith file ".yaml") (Dict.keys es) in
  let json := os_path_join dir "tokenizer_config.json" in
  ((yaml_list = [] /\ found = inr VNone /\ w' = w)
   \/ exists yaml0 yamls t d,
        yaml_list = yaml0 :: yamls
        /\ FS.resolve (os_path_join dir yaml0) (fs w) = Some (File t)
        /\ yaml_load t = inr d
        /\ found = AutoTokenizer.yaml_class_name (VDict d)
        /\ w' = touch w (fs w) [LoadYaml (os_path_join dir yaml0)]) ->
  (forall e, found = inl e -> AutoTokenizer.from_pretrained dir w = (inl e, w'))
  /\ (forall falsy, found = inr falsy -> truthy falsy = false ->
      (FS.resolve json (fs w) = None ->
       AutoTokenizer.from_pretrained dir w =
         (inl (Raise FileNotFoundError (NoTokenizerConfig json)), w'))
      /\ (forall text kwargs,
            FS.resolve json (fs w) = Some (File text) ->
            json_load text = inr (VDict kwargs) ->
            (Dict.get "tokenizer_class" kwargs = None ->
             AutoTokenizer.from_pretrained dir w =
               (inl (Raise ValueError (NoTokenizerClass json (Dict.keys kwargs))), w'))
            /\ (forall class_name,
                  Dict.get "tokenizer_class" kwargs = Some class_name ->
                  truthy class_name = true ->
                  AutoTokenizer.from_pretrained dir w =
                    (do dynamic_class <- lift (get_cls "tokenizer" class_name);
                     do root <- get_fs;
                     lift (tokenizer_from_pretrained dynamic_class dir root))%py w')))
  /\ (forall d, AutoTokenizer.no_tokenizer_type d = true ->
      exists falsy,
        AutoTokenizer.yaml_class_name (VDict d) = inr falsy /\ truthy falsy = false)
  /\ (forall d, AutoTokenizer.null_before_type d = true ->
      AutoTokenizer.yaml_class_name (VDict d)
        = inl (Raise TypeError (Runtime "argument is not iterable"))).
Proof.
  intros Hout Hr yaml_list json Hyaml.
  destruct (resolve_dir_flags _ _ _ Hr) as (_ & Hdir & _ & _).
  assert (Hcls : AutoTokenizer._get_class_name_from_yaml dir w = (found, w')
                 /\ fs w' = fs w).
  { destruct Hyaml as [(Hnil & -> & ->)|(y & ys & t & d & Hl & Hy & Hload & -> & ->)].
    - split; [|reflexivity]. eapply class_name_no_yaml; eauto.
    - split; [|reflexivity]. eapply class_name_of_dir; eauto. }
  destruct Hcls as [Hcls Hfs].
  assert (Hstart : forall k : value -> M Tokenizer,
            (do class_name <-
               (do is_dir <- os_path_isdir dir;
                if is_dir then
                  do class_name <- AutoTokenizer._get_class_name_from_yaml dir;
                  if negb (truthy class_name)
                  then AutoTokenizer._get_class_name_from_tokenizer_config_file dir
                  else ret class_name
                else raise FileNotFoundError
                       (DoesNotExist dir
                          (map fst (map_to_list AutoTokenizer._support_list))));
             k class_name)%py w
            = match found with
              | inl e => (inl e, w')
              | inr class_name =>
                  (do class_name <-
                     (if negb (truthy class_name)
                      then AutoTokenizer._get_class_name_from_tokenizer_config_file dir
                      else ret class_name);
                   k class_name)%py w'
              end).
  { intros k. unfold bind at 1. unfold bind at 1. rewrite Hdir.
    unfold bind at 1. rewrite Hcls. destruct found; reflexivity. }
  assert (Hrun : AutoTokenizer.from_pretrained dir w =
            match found with
            | inl e => (inl e, w')
            | inr class_name =>
                (do class_name <-
                   (if negb (truthy class_name)
                    then AutoTokenizer._get_class_name_from_tokenizer_config_file dir
                    else ret class_name);
                 do dynamic_class <- lift (get_cls "tokenizer" class_name);
                 do root <- get_fs;
                 lift (tokenizer_from_pretrained dynamic_class dir root))%py w'
            end).
  { unfold AutoTokenizer.from_pretrained.
    fold AutoTokenizer._support_list.
    unfold AutoTokenizer._support_list at 1.
    rewrite (bool_decide_eq_false_2 _ Hout). apply Hstart. }
  split; [|split; [|split]].
  - intros e ->. exact Hrun.
  - intros falsy -> Hfalsy. rewrite Hrun, Hfalsy. cbn [negb]. clear Hrun Hstart.
    unfold AutoTokenizer._get_class_name_from_tokenizer_config_file. fold json.
    split.
    + intros Hj. apply bind_raise.
      step_exists. rewrite Hfs, Hj.
      nothing_there. reflexivity.
    + intros text kwargs Hj Hload.
      assert (Hread : read_file json w' = (inr text, w')).
      { unfold read_file. now rewrite Hfs, Hj. }
      split.
      * intros Hnone. apply bind_raise.
        step_exists. rewrite Hfs, Hj.
        something_there. cbn [negb].
        rewrite (bind_ok _ _ _ _ _ Hread), Hload.
        unfold bind, lift, py_pop.
        rewrite Hnone, (DictFacts.remove_absent _ _ Hnone). reflexivity.
      * intros class_name Hsome Htruthy.
        erewrite bind_ok; [reflexivity|].
        step_exists. rewrite Hfs, Hj.
        something_there. cbn [negb].
        rewrite (bind_ok _ _ _ _ _ Hread), Hload.
        unfold bind, lift, py_pop. rewrite Hsome. simpl. now rewrite Htruthy.
  - exact no_type_is_falsy.
  - exact null_raises.
Qed.

End Tokenizer.

(** ** The config round trip *)

Section RoundTrip.
Context `{Collaborators}.

(** The source sets [type] and then visits every entry, the one just set
    included. *)
Lemma _inverse_parse_config_eq class_name i d :
  AutoModel._inverse_parse_config (VConfig class_name i d) =
    VConfig class_name i
      (map (fun '(key, val) => (key, AutoModel._inverse_parse_config val))
         (Dict.set "type" (VStr class_name) d)).
Proof.
  simpl. f_equal.
  now rewrite (DictFacts.map_set AutoModel._inverse_parse_config).
Qed.

(** The object keeps its class and its identity. *)
Lemma _inverse_parse_config_id config :
  py_id (AutoModel._inverse_parse_config config) = py_id config.
Proof. destruct config; reflexivity. Qed.

Lemma _inverse_parse_config_none v :
  AutoModel._inverse_parse_config v = VNone -> v = VNone.
Proof. destruct v; simpl; congruence. Qed.

(** C2, as the code has it.  For every config object [cfg], the tree
    [_wrap_config(_inverse_parse_config(cfg))] has the class name of [cfg]
    in [model.model_config.type]; its [model.arch.type] is the model name:
    the entry [model_name] of [cfg] when it has one that is not [None],
    else the name the side table records for [id(cfg)], [None] when it
    records none. *)
Theorem C2_round_trip_types (cls : string) (i : N) (d : list (string * value))
    (w : world) :
  exists tree w',
    AutoModel._wrap_config (AutoModel._inverse_parse_config (VConfig cls i d)) w
      = (inr tree, w')
    /\ getattr_path ["model"; "model_config"; "type"] tree = inr (VStr cls)
    /\ getattr_path ["model"; "arch"; "type"] tree =
         inr (match Dict.get "model_name" d with
              | Some VNone | None => default VNone (config_to_name w !! i)
              | Some v => AutoModel._inverse_parse_config v
              end).
Proof.
  rewrite _inverse_parse_config_eq.
  set (d' := map _ (Dict.set "type" (VStr cls) d)).
  assert (Htype : Dict.get "type" (Dict.remove "model_name" d') = Some (VStr cls)).
  { rewrite DictFacts.get_remove_ne by discriminate.
    unfold d'. rewrite (DictFacts.get_map AutoModel._inverse_parse_config).
    now rewrite DictFacts.get_set_eq. }
  assert (Hname : Dict.get "model_name" d' =
                  option_map AutoModel._inverse_parse_config (Dict.get "model_name" d)).
  { unfold d'. rewrite (DictFacts.get_map AutoModel._inverse_parse_config).
    now rewrite DictFacts.get_set_ne by discriminate. }
  unfold AutoModel._wrap_config, bind, lift, py_pop, BaseConfig, new_config,
    get_model_config_to_name, ret.
  rewrite Hname.
  destruct (Dict.get "model_name" d) as [v|]; simpl.
  - destruct (AutoModel._inverse_parse_config v) eqn:Ev;
      try (destruct v; try discriminate Ev; simpl;
           eexists; eexists; split; [reflexivity|]; simpl; rewrite Htype;
           split; reflexivity).
  - eexists; eexists; split; [reflexivity|]. simpl. rewrite Htype.
    split; reflexivity.
Qed.

(** [from_config] on a config object builds the model from the [model]
    entry of that tree. *)
Lemma from_config_round_trip cls i d w tree w' :
  AutoModel._wrap_config (AutoModel._inverse_parse_config (VConfig cls i d)) w
    = (inr tree, w') ->
  AutoModel.from_config (AutoModel.ConfigObject cls i d) w =
    (match getattr "model" tree with
     | inl e => inl e
     | inr model => build_model model
     end, w').
Proof.
  intros Hwrap. unfold AutoModel.from_config.
  rewrite (bind_ok _ _ _ _ _ Hwrap). unfold bind, lift.
  destruct (getattr "model" tree); reflexivity.
Qed.

(** The name the side table records is the one [AutoConfig.from_pretrained]
    stored when it built the object: [config_args.model.arch.type]. *)
Lemma build_records_arch_type config_args w config w' :
  AutoConfig.build config_args w = (inr config, w') ->
  exists type,
    getattr_path ["model"; "arch"; "type"] config_args = inr type
    /\ config_to_name w' !! py_id config = Some type.
Proof.
  unfold AutoConfig.build, bind, lift, new_config, set_model_config_to_name, ret.
  simpl.
  destruct (getattr "model" config_args) as [e|model]; [discriminate|].
  destruct (getattr "model_config" model) as [e|mc]; [discriminate|].
  destruct (build_model_config mc) as [e|[cls d]]; [discriminate|].
  destruct (getattr "arch" model) as [e|arch]; [discriminate|].
  destruct (getattr "type" arch) as [e|type]; [discriminate|].
  intros [= <- <-]. exists type. split; [reflexivity|].
  simpl. apply lookup_insert_eq.
Qed.

(** C9, as the code has it.  [get_support_list()] returns the static list
    of its class unchanged: on [AutoConfig] and [AutoModel] the model
    SupportList, on [AutoTokenizer] the tokenizer SupportList, and on
    [AutoProcessor] a copy of the model SupportList from which the family
    [mae] has been popped, every other family standing as in the
    original; so the list of [AutoProcessor] is never the model
    SupportList. *)
Theorem C9_each_class_has_its_list :
  AutoConfig.get_support_list = get_model_support_list
  /\ AutoModel.get_support_list = get_model_support_list
  /\ AutoTokenizer.get_support_list = get_tokenizer_support_list
  /\ (forall ids, get_model_support_list !! "mae" = Some ids ->
        AutoProcessor.get_support_list = inr (delete "mae" get_model_support_list))
  /\ (forall sl, AutoProcessor.get_support_list = inr sl ->
        sl !! "mae" = None
        /\ forall family, family <> "mae" ->
             sl !! family = get_model_support_list !! family)
  /\ AutoProcessor.get_support_list <> inr get_model_support_list.
Proof.
  unfold AutoProcessor.get_support_list, AutoProcessor._support_list.
  split; [reflexivity|]. split; [reflexivity|]. split; [reflexivity|].
  split; [|split].
  - intros ids ->. reflexivity.
  - intros sl. destruct (get_model_support_list !! "mae"); [|discriminate].
    intros [= <-]. split; [apply lookup_delete_eq|].
    intros family Hne. apply lookup_delete_ne. congruence.
  - destruct (get_model_support_list !! "mae") as [ids|] eqn:E; [|discriminate].
    intros [= Heq]. rewrite <- Heq, lookup_delete_eq in E. discriminate.
Qed.

End RoundTrip.

(** ** The statements on the sample installation *)
Lemma C1_witness :
  exists root',
    let w1 := touch Sample.w0 root' (@made Sample.env "bert_base_uncased" Sample.w0
                              ++ @copied Sample.env "bert_base_uncased" Sample.w0) in
    FS.is_dir (FS.resolve (@cache_dir Sample.env "bert_base_uncased") root') = true
    /\ FS.resolve (@cache_yaml Sample.env "bert_base_uncased") root' = Some (File "bert")
    /\ @MindFormerConfig Sample.env (@cache_yaml Sample.env "bert_base_uncased") w1 =
         (match @yaml_load Sample.env "bert" with inl e => inl e | inr d => inr (VDict d) end,
          touch w1 root' [LoadYaml (@cache_yaml Sample.env "bert_base_uncased")])
    /\ @AutoConfig.from_pretrained Sample.env "bert_base_uncased" Sample.w0 =
         (do config_args <- @MindFormerConfig Sample.env (@cache_yaml Sample.env "bert_base_uncased");
          @AutoConfig.build Sample.env config_args)%py w1
    /\ @AutoModel.from_pretrained Sample.env "bert_base_uncased" Sample.w0 =
         (do config_args <- @MindFormerConfig Sample.env (@cache_yaml Sample.env "bert_base_uncased");
          @AutoModel.update_and_build Sample.env config_args
            "checkpoint_name_or_path" (VStr "bert_base_uncased"))%py w1.
Proof.
  apply (@C1_supported_name_resolves_to_cache Sample.env "bert_base_uncased" Sample.w0 "bert").
  - reflexivity.
  - reflexivity.
  - vm_compute. reflexivity.
  - right. split; [reflexivity|]. split; [discriminate|].
    eexists. vm_compute. reflexivity.
  - right. split; reflexivity.
Defined.

Lemma C3_witness :
  @AutoConfig.from_pretrained Sample.env "doesnotexist_1" Sample.w0 =
    (inl (Raise ValueError (NotSupported "doesnotexist_1" (@get_model_support_list Sample.env))), Sample.w0)
  /\ @AutoModel.from_pretrained Sample.env "doesnotexist_1" Sample.w0 =
    (inl (Raise ValueError (NotSupported "doesnotexist_1" (@get_model_support_list Sample.env))), Sample.w0).
Proof.
  apply (proj1 (@C3_unsupported_name_is_rejected Sample.env "doesnotexist_1" Sample.w0
                  eq_refl)).
  vm_compute. reflexivity.
Defined.

Lemma C7_witness :
  @AutoConfig.from_pretrained Sample.env "run1/notes.txt" Sample.w1 =
    (inl (Raise ValueError (NotAYamlFile "run1/notes.txt")), Sample.w1).
Proof.
  apply (@C7_existing_path_must_be_yaml Sample.env "run1/notes.txt" Sample.w1).
  - vm_compute. exists (File EmptyString). reflexivity.
  - reflexivity.
Defined.


Lemma C8_witness :
  let w' := touch Sample.w0 (Dir [("mindformers", Dir [("configs", Dir [("bert", Dir [("model_config", Dir [("bert_base_uncased.yaml", File "bert")])])])]);
                             ("checkpoint_download", Dir [("bert", Dir [])])])
              [Makedirs (@cache_dir Sample.env "bert_tiny_uncased")] in
  @AutoConfig.from_pretrained Sample.env "bert_tiny_uncased" Sample.w0 =
    (inl (Raise FileNotFoundError
            (DefaultYamlMissing (@default_yaml Sample.env "bert_tiny_uncased"))), w')
  /\ @AutoModel.from_pretrained Sample.env "bert_tiny_uncased" Sample.w0 =
    (inl (Raise FileNotFoundError
            (DefaultYamlMissing (@default_yaml Sample.env "bert_tiny_uncased"))), w')
  /\ FS.is_dir (FS.resolve (@cache_dir Sample.env "bert_tiny_uncased") (fs w')) = true.
Proof.
  apply (@C8_directory_survives_missing_default Sample.env "bert_tiny_uncased" Sample.w0).
  - reflexivity.
  - reflexivity.
  - vm_compute. reflexivity.
  - reflexivity.
  - discriminate.
  - vm_compute. reflexivity.
  - reflexivity.
  - vm_compute. intros [k Hk]. discriminate Hk.
Defined.

Lemma C4_witness :
  (let w1 := snd (@AutoConfig.from_pretrained Sample.env "bert_base_uncased" Sample.w0) in
   exists cls d w2 es,
     VConfig "BertConfig" 1 [("hidden_size", VInt 768)]
       = VConfig cls (next_ident Sample.w0) d
     /\ @AutoConfig.from_pretrained Sample.env "bert_base_uncased" w1
        = (inr (VConfig cls (next_ident w1) d), w2)
     /\ trace w1 = trace Sample.w0 ++ es
                   ++ [LoadYaml (@cache_yaml Sample.env "bert_base_uncased")]
     /\ forallb (fun e => negb (is_load e)) es = true
     /\ trace w2 = trace w1 ++ [LoadYaml (@cache_yaml Sample.env "bert_base_uncased")]
     /\ fs w2 = fs w1)
  /\ (let w1 := snd (@AutoModel.from_pretrained Sample.env "bert_base_uncased" Sample.w0) in
      exists w2 es,
        @AutoModel.from_pretrained Sample.env "bert_base_uncased" w1
          = (fst (@AutoModel.from_pretrained Sample.env "bert_base_uncased" Sample.w0), w2)
        /\ trace w1 = trace Sample.w0 ++ es
                      ++ [LoadYaml (@cache_yaml Sample.env "bert_base_uncased")]
        /\ forallb (fun e => negb (is_load e)) es = true
        /\ trace w2 = trace w1 ++ [LoadYaml (@cache_yaml Sample.env "bert_base_uncased")]
        /\ fs w2 = fs w1).
Proof.
  assert (Hs : supported "bert_base_uncased"
                 (@get_model_support_list Sample.env) = true)
    by (vm_compute; reflexivity).
  assert (Hb : bare "bert_base_uncased" Sample.w0) by reflexivity.
  destruct (@C4_second_call_reuses_cache Sample.env "bert_base_uncased" Sample.w0 Hs Hb)
    as [HA HM].
  split.
  - apply HA; vm_compute; reflexivity.
  - cbv zeta.
    replace (fst (@AutoModel.from_pretrained Sample.env "bert_base_uncased" Sample.w0))
      with (@inr exn (@Model Sample.env)
              (VDict [("model_config",
                       VDict [("type", VStr "BertConfig"); ("hidden_size", VInt 768);
                              ("checkpoint_name_or_path", VStr "bert_base_uncased")]);
                      ("arch", VDict [("type", VStr "BertForPreTraining")])]))
      by (vm_compute; reflexivity).
    apply HM; vm_compute; reflexivity.
Defined.

Lemma C5_witness :
  @AutoModel.from_pretrained Sample.env "run1" Sample.w1 =
    (do config_args <- @MindFormerConfig Sample.env "run1/model.yaml";
     @AutoModel.update_and_build Sample.env config_args
       "checkpoint_name_or_path" (VStr "run1/weights.ckpt"))%py Sample.w1
  /\ @AutoModel.from_pretrained Sample.env "run4" Sample.w1 =
       (inl (Raise FileNotFoundError (NoYamlOrCkpt "run4")), Sample.w1)
  /\ @AutoModel.from_pretrained Sample.env "run3" Sample.w1 =
       (inl (Raise FileNotFoundError (NoYamlOrCkpt "run3")), Sample.w1)
  /\ exists tree,
       py_update "model_config"
         (VDict [("type", VStr "BertConfig"); ("hidden_size", VInt 768);
                 ("checkpoint_name_or_path", VStr "run1/weights.ckpt")])
         (VDict [("model_config",
                  VDict [("type", VStr "BertConfig"); ("hidden_size", VInt 768)]);
                 ("arch", VDict [("type", VStr "BertForPreTraining")])])
       = inr tree
       /\ @AutoModel.from_pretrained Sample.env "run1" Sample.w1 =
            (@build_model Sample.env tree,
             touch Sample.w1 (fs Sample.w1) [LoadYaml "run1/model.yaml"]).
Proof.
  split; [|split; [|split]].
  - apply (proj2 (@C5_directory_needs_yaml_and_ckpt Sample.env "run1" Sample.w1 _ eq_refl)
             "model.yaml" ["other.yaml"] "weights.ckpt" [] eq_refl eq_refl).
  - apply (proj1 (@C5_directory_needs_yaml_and_ckpt Sample.env "run4" Sample.w1 _ eq_refl)).
    left. reflexivity.
  - apply (proj1 (@C5_directory_needs_yaml_and_ckpt Sample.env "run3" Sample.w1 _ eq_refl)).
    right. reflexivity.
  - destruct (proj2 (proj2 (proj2 (@C5_directory_needs_yaml_and_ckpt Sample.env "run1"
                                     Sample.w1 _ eq_refl)
                              "model.yaml" ["other.yaml"] "weights.ckpt" []
                              eq_refl eq_refl))
                "bert" Sample.bert_tree
                (VDict [("model_config",
                         VDict [("type", VStr "BertConfig"); ("hidden_size", VInt 768)]);
                        ("arch", VDict [("type", VStr "BertForPreTraining")])])
                (VDict [("type", VStr "BertConfig"); ("hidden_size", VInt 768)])
                (VDict [("type", VStr "BertConfig"); ("hidden_size", VInt 768);
                        ("checkpoint_name_or_path", VStr "run1/weights.ckpt")])
                eq_refl eq_refl eq_refl eq_refl eq_refl)
      as (tree & Ht & Hrun & _).
    exists tree. split; [exact Ht|exact Hrun].
Defined.

Lemma C10_witness :
  @AutoProcessor.from_pretrained Sample.env "run4" Sample.w1 =
    (inl (Raise IndexError (Runtime "list index out of range")), Sample.w1)
  /\ @AutoProcessor.from_pretrained Sample.env "run1" Sample.w1 =
       (do config_args <- @MindFormerConfig Sample.env "run1/model.yaml";
        @AutoProcessor.build Sample.env "run1" config_args)%py Sample.w1.
Proof.
  split.
  - apply (proj1 (@C10_processor_indexes_empty_list Sample.env "run4" Sample.w1 _
                    (delete "mae" (@get_model_support_list Sample.env))
                    eq_refl eq_refl)).
    reflexivity.
  - apply (proj2 (@C10_processor_indexes_empty_list Sample.env "run1" Sample.w1 _
                    (delete "mae" (@get_model_support_list Sample.env))
                    eq_refl eq_refl) "model.yaml" ["other.yaml"]).
    reflexivity.
Defined.

Lemma C6_witness :
  @AutoTokenizer.from_pretrained Sample.env "mindformers" Sample.w1 =
    (inl (Raise FileNotFoundError
            (NoTokenizerConfig "mindformers/tokenizer_config.json")), Sample.w1)
  /\ @AutoTokenizer.from_pretrained Sample.env "run3" Sample.w1 =
       (inl (Raise ValueError
               (NoTokenizerClass "run3/tokenizer_config.json" [])), Sample.w1)
  /\ @AutoTokenizer.from_pretrained Sample.env "run2" Sample.w1 =
       (inr (VStr "BertTokenizer", "run2"),
        touch Sample.w1 (fs Sample.w1) [LoadYaml "run2/model.yaml"]).
Proof.
  assert (Hout : forall dir,
            bool_decide (dir ∈ all_values (@get_tokenizer_support_list Sample.env)) = false ->
            dir ∉ all_values (@get_tokenizer_support_list Sample.env))
    by (intros dir; apply bool_decide_eq_false_1).
  assert (Ho1 : "mindformers" ∉ all_values (@get_tokenizer_support_list Sample.env))
    by (apply Hout; vm_compute; reflexivity).
  assert (Ho2 : "run2" ∉ all_values (@get_tokenizer_support_list Sample.env))
    by (apply Hout; vm_compute; reflexivity).
  assert (Ho3 : "run3" ∉ all_values (@get_tokenizer_support_list Sample.env))
    by (apply Hout; vm_compute; reflexivity).
  assert (Hd1 : FS.resolve "mindformers" (fs Sample.w1) = Some (Dir []))
    by reflexivity.
  assert (Hd2 : FS.resolve "run2" (fs Sample.w1)
                = Some (Dir [("model.yaml", File "bare");
                             ("tokenizer_config.json", File "BertTokenizer")]))
    by reflexivity.
  assert (Hd3 : FS.resolve "run3" (fs Sample.w1)
                = Some (Dir [("tokenizer_config.json", File "{}")]))
    by reflexivity.
  split; [|split].
  - refine (proj1 (proj1 (proj2 (@C6_tokenizer_class_from_json Sample.env "mindformers"
                                   Sample.w1 Sample.w1 _ (inr VNone) Ho1 Hd1 _))
                     VNone eq_refl eq_refl) _).
    + left. repeat split; reflexivity.
    + reflexivity.
  - refine (proj1 (proj2 (proj1 (proj2 (@C6_tokenizer_class_from_json Sample.env "run3"
                                          Sample.w1 Sample.w1 _ (inr VNone) Ho3 Hd3 _))
                            VNone eq_refl eq_refl) "{}" [] _ _) _).
    + left. repeat split; reflexivity.
    + reflexivity.
    + reflexivity.
    + reflexivity.
  - refine (proj2 (proj2 (proj1 (proj2 (@C6_tokenizer_class_from_json Sample.env "run2"
                            Sample.w1
                            (touch Sample.w1 (fs Sample.w1) [LoadYaml "run2/model.yaml"])
                            _ (inr VNone) Ho2 Hd2 _))
                            VNone eq_refl eq_refl)
                     "BertTokenizer" [("tokenizer_class", VStr "BertTokenizer")] _ _)
              (VStr "BertTokenizer") _ _).
    + right. exists "model.yaml", [], "bare", Sample.bare_tree.
      repeat split; reflexivity.
    + reflexivity.
    + reflexivity.
    + reflexivity.
    + reflexivity.
Defined.

(** ** Where the specification and the code part *)

(** C2, as the specification has it, fails: the class name of the config
    is [BertConfig], and [model.arch.type] of the round trip is [None]
    for an object the side table does not know, and the recorded model
    name for one it knows. *)
Lemma C2_counterexample :
  AutoModel.round_trip_arch_type Sample.bert_config Sample.w0
    = inr VNone
  /\ AutoModel.round_trip_arch_type Sample.bert_config Sample.w3
    = inr (VStr "BertForPreTraining")
  /\ AutoModel.round_trip_arch_type Sample.bert_config Sample.w0
    <> inr (VStr "BertConfig")
  /\ AutoModel.round_trip_arch_type Sample.bert_config Sample.w3
    <> inr (VStr "BertConfig").
Proof.
  assert (H0 : AutoModel.round_trip_arch_type Sample.bert_config Sample.w0
               = inr VNone) by (vm_compute; reflexivity).
  assert (H3 : AutoModel.round_trip_arch_type Sample.bert_config Sample.w3
               = inr (VStr "BertForPreTraining")) by (vm_compute; reflexivity).
  repeat split; try assumption.
  - rewrite H0. discriminate.
  - rewrite H3. discriminate.
Qed.

(** C6, as the specification has it, fails on an existing directory that
    is named like a listed identifier: it holds neither a yaml file nor
    [tokenizer_config.json], and the call does not fail; the class name
    comes from the cached yaml file of the identifier. *)
Lemma C6_counterexample :
  FS.resolve "bert_base_uncased" (fs Sample.w2) = Some (Dir [])
  /\ FS.resolve (os_path_join "bert_base_uncased" "tokenizer_config.json")
       (fs Sample.w2) = None
  /\ fst (@AutoTokenizer.from_pretrained Sample.env "bert_base_uncased" Sample.w2)
     = inr (VStr "BertTokenizer", "bert_base_uncased")
  /\ fst (@AutoTokenizer.from_pretrained Sample.env "bert_base_uncased" Sample.w2)
     <> inl (Raise FileNotFoundError
               (NoTokenizerConfig
                  (os_path_join "bert_base_uncased" "tokenizer_config.json"))).
Proof.
  assert (Hrun : fst (@AutoTokenizer.from_pretrained Sample.env
                        "bert_base_uncased" Sample.w2)
                 = inr (VStr "BertTokenizer", "bert_base_uncased"))
    by (vm_compute; reflexivity).
  repeat split; try assumption; try reflexivity.
  rewrite Hrun. discriminate.
Qed.

(** C9, as the specification has it, fails: the list of [AutoProcessor]
    has no family [mae], and the list of [AutoTokenizer] is another. *)
Lemma C9_counterexample :
  @AutoProcessor.get_support_list Sample.env
    <> inr (@AutoConfig.get_support_list Sample.env)
  /\ @AutoTokenizer.get_support_list Sample.env
    <> @AutoConfig.get_support_list Sample.env.
Proof.
  split; intros Heq.
  - apply (f_equal (fun r => match r with
                             | inr sl => sl !! "mae"
                             | inl _ => None
                             end)) in Heq.
    vm_compute in Heq. discriminate Heq.
  - apply (f_equal (fun sl : support_list => sl !! "mae")) in Heq.
    vm_compute in Heq. discriminate Heq.
Qed.

(* ===================================================================== *)
(** * Further properties of auto_class.py *)
(* ===================================================================== *)

(** ** Nothing is overwritten, nothing is removed *)

Module Keeps.
Import FS DictFacts FSFacts.

Lemma keeps_refl n : keeps n n.
Proof. intros ds. destruct (lookup ds n) as [[t|es]|]; auto. Qed.

Lemma keeps_trans n1 n2 n3 : keeps n1 n2 -> keeps n2 n3 -> keeps n1 n3.
Proof.
  intros H12 H23 ds. specialize (H12 ds). specialize (H23 ds).
  destruct (lookup ds n1) as [[t|es]|]; auto.
  - now rewrite H12 in H23.
  - destruct (lookup ds n2) as [[t|es2]|]; try discriminate. exact H23.
Qed.

Lemma mkdirs_keeps cs n n' : mkdirs cs n = Some n' -> keeps n n'.
Proof.
  intros Hm ds. destruct (lookup ds n) as [[t|es]|] eqn:El; auto.
  - exact (mkdirs_file_frame _ _ _ _ _ Hm El).
  - destruct (mkdirs_dir_frame _ _ _ _ _ Hm El) as [es' ->]. reflexivity.
Qed.

(** Writing where nothing was keeps everything. *)
Lemma write_keeps ps t n n' :
  write ps t n = Some n' -> lookup ps n = None -> keeps n n'.
Proof.
  revert n n'. induction ps as [|c ps IH]; intros n n'; simpl; [discriminate|].
  destruct n as [t0|es]; [discriminate|].
  assert (Hframe : forall m',
            (forall ds', match (match Dict.get c es with
                                | Some m => lookup ds' m
                                | None => None
                                end) with
                         | Some (File t1) => lookup ds' m' = Some (File t1)
                         | Some (Dir _) => is_dir (lookup ds' m') = true
                         | None => True
                         end) ->
            keeps (Dir es) (Dir (Dict.set c m' es))).
  { intros m' Hm' ds. destruct ds as [|d ds]; simpl; [reflexivity|].
    destruct (String.eqb_spec c d) as [->|Hne].
    - rewrite get_set_eq. apply Hm'.
    - rewrite (get_set_ne _ _ _ _ Hne).
      destruct (Dict.get d es) as [m|]; [|exact I].
      destruct (lookup ds m) as [[t1|es1]|]; auto. }
  destruct ps as [|c' ps].
  - destruct (Dict.get c es) as [[t1|es1]|] eqn:Eg; try discriminate.
    intros [= <-] _. apply Hframe. intros ds'. exact I.
  - destruct (Dict.get c es) as [m|] eqn:Eg; [|discriminate].
    destruct (write (c' :: ps) t m) as [m'|] eqn:Ew; [|discriminate].
    intros [= <-] Hl. apply Hframe. intros ds'. exact (IH _ _ Ew Hl ds').
Qed.

End Keeps.

Section Safety.
Context `{Collaborators}.
Import Keeps.

Lemma safe_same {A : Type} (m : M A) :
  (forall w, fs (snd (m w)) = fs w) -> safe m.
Proof.
  intros Hm w r w' Hrun. specialize (Hm w). rewrite Hrun in Hm. simpl in Hm.
  rewrite Hm. apply keeps_refl.
Qed.

Lemma safe_bind {A B : Type} (m : M A) (f : A -> M B) :
  safe m -> (forall a, safe (f a)) -> safe (bind m f).
Proof.
  intros Hm Hf w r w'. unfold bind.
  destruct (m w) as [[e|a] w1] eqn:Em.
  - intros [= <- <-]. exact (Hm _ _ _ Em).
  - intros Hrun. exact (keeps_trans _ _ _ (Hm _ _ _ Em) (Hf a _ _ _ Hrun)).
Qed.

Lemma safe_ret {A : Type} (a : A) : safe (ret a).
Proof. now apply safe_same. Qed.

Lemma safe_raise {A : Type} c msg : safe (@raise A c msg).
Proof. now apply safe_same. Qed.

Lemma safe_lift {A : Type} (r : exn + A) : safe (lift r).
Proof. now apply safe_same. Qed.

Lemma safe_log e : safe (log e).
Proof. now apply safe_same. Qed.

Lemma safe_get_fs : safe get_fs.
Proof. now apply safe_same. Qed.

Lemma safe_exists p : safe (os_path_exists p).
Proof. now apply safe_same. Qed.

Lemma safe_isdir p : safe (os_path_isdir p).
Proof. now apply safe_same. Qed.

Lemma safe_isfile p : safe (os_path_isfile p).
Proof. now apply safe_same. Qed.

Lemma safe_listdir p : safe (os_listdir p).
Proof.
  apply safe_same. intros w. unfold os_listdir.
  destruct (FS.resolve p (fs w)) as [[t|es]|]; reflexivity.
Qed.

Lemma safe_read_file p : safe (read_file p).
Proof.
  apply safe_same. intros w. unfold read_file.
  destruct (FS.resolve p (fs w)) as [[t|es]|]; reflexivity.
Qed.

Lemma safe_new_config cls d : safe (new_config cls d).
Proof. now apply safe_same. Qed.

Lemma safe_set_name i v : safe (set_model_config_to_name i v).
Proof. now apply safe_same. Qed.

Lemma safe_get_name i : safe (get_model_config_to_name i).
Proof. now apply safe_same. Qed.

Lemma safe_when c body : safe body -> safe (when c body).
Proof. intros Hb. destruct c; [exact Hb|apply safe_ret]. Qed.

Lemma safe_makedirs p : safe (os_makedirs p).
Proof.
  intros w r w'. unfold os_makedirs, bind, log, get_fs, set_fs, raise. simpl.
  destruct (String.eqb p EmptyString); [intros [= <- <-]; apply keeps_refl|].
  destruct (bool_decide _); [intros [= <- <-]; apply keeps_refl|].
  destruct (FS.mkdirs (Path.components p) (fs w)) as [root'|] eqn:Em;
    intros [= <- <-]; [|apply keeps_refl].
  exact (mkdirs_keeps _ _ _ Em).
Qed.

(** [shutil.copy] to a path that names nothing overwrites nothing. *)
Lemma copy_keeps src dst w r w' :
  FS.resolve dst (fs w) = None ->
  shutil_copy src dst w = (r, w') -> keeps (fs w) (fs w').
Proof.
  intros Hd.
  unfold shutil_copy, bind, log, get_fs, set_fs, os_path_isdir, read_file, raise.
  simpl. rewrite Hd. simpl. rewrite Hd.
  rewrite (bool_decide_eq_false_2 (is_Some None)) by (intros [? ?]; discriminate).
  rewrite andb_false_r. simpl.
  destruct (FS.resolve src (fs w)) as [[t|es]|]; simpl;
    try (intros [= <- <-]; apply keeps_refl).
  destruct (FS.write (Path.components dst) t (fs w)) as [root'|] eqn:Ew;
    intros [= <- <-]; [|apply keeps_refl].
  apply (write_keeps _ _ _ _ Ew). revert Hd. unfold FS.resolve.
  destruct (String.eqb dst EmptyString) eqn:E; [|auto].
  apply String.eqb_eq in E. subst dst. discriminate Ew.
Qed.

End Safety.

Section SafetyOfCalls.
Context `{Collaborators}.
Import Keeps.

Lemma safe_MindFormerConfig path : safe (MindFormerConfig path).
Proof.
  unfold MindFormerConfig.
  apply safe_bind; [apply safe_log|intros _].
  apply safe_bind; [apply safe_read_file|intros text].
  apply safe_bind; [apply safe_lift|intros d]. apply safe_ret.
Qed.

(** The cache block copies the default only to a path that names nothing. *)
Lemma safe_cached_yaml_file name : safe (cached_yaml_file name).
Proof.
  rewrite cached_yaml_file_eq.
  apply safe_bind; [apply safe_exists|intros ex].
  apply safe_bind; [apply safe_when, safe_makedirs|intros _].
  intros w r w'. unfold bind at 1. rewrite os_path_exists_eq.
  destruct (bool_decide (is_Some (FS.resolve (cache_yaml name) (fs w)))) eqn:E.
  - simpl. intros [= <- <-]. apply keeps_refl.
  - apply bool_decide_eq_false_1 in E.
    assert (Hy : FS.resolve (cache_yaml name) (fs w) = None).
    { destruct (FS.resolve (cache_yaml name) (fs w)); [exfalso; eauto|reflexivity]. }
    cbn [negb when]. unfold bind at 1. unfold bind at 1.
    rewrite os_path_exists_eq.
    destruct (nonempty _ && _).
    + destruct (shutil_copy _ _ w) as [[e|[]] w1] eqn:Ec;
        intros [= <- <-]; exact (copy_keeps _ _ _ _ _ Hy Ec).
    + intros [= <- <-]. apply keeps_refl.
Qed.

End SafetyOfCalls.

(** Decomposition of a computation into steps that are known to be safe. *)
Ltac safe_step :=
  first
    [ apply safe_ret | apply safe_raise | apply safe_lift | apply safe_log
    | apply safe_get_fs | apply safe_exists | apply safe_isdir
    | apply safe_isfile | apply safe_listdir | apply safe_read_file
    | apply safe_new_config | apply safe_set_name | apply safe_get_name
    | apply safe_makedirs | apply safe_MindFormerConfig
    | apply safe_cached_yaml_file
    | apply safe_when
    | apply safe_bind; [|intros ?]
    | match goal with
      | |- safe (if ?b then _ else _) => destruct b
      | |- safe (match ?x with _ => _ end) => destruct x
      end
    | progress cbv zeta ].

Ltac safe_all := repeat safe_step.

Section SafetyOfClasses.
Context `{Collaborators}.

Lemma safe_AutoConfig_build config_args : safe (AutoConfig.build config_args).
Proof. unfold AutoConfig.build. safe_all. Qed.

Lemma safe_AutoConfig name : safe (AutoConfig.from_pretrained name).
Proof.
  unfold AutoConfig.from_pretrained. safe_all.
Qed.

Lemma safe__get_class_name_from_yaml path :
  safe (AutoTokenizer._get_class_name_from_yaml path).
Proof. unfold AutoTokenizer._get_class_name_from_yaml. safe_all. Qed.

Lemma safe__get_class_name_from_tokenizer_config_file path :
  safe (AutoTokenizer._get_class_name_from_tokenizer_config_file path).
Proof.
  unfold AutoTokenizer._get_class_name_from_tokenizer_config_file. safe_all.
Qed.

End SafetyOfClasses.

(** ** Nothing is made outside the cache *)

Section Confinement.
Context `{Collaborators}.
Import FSFacts.

Lemma confined_same {A : Type} allowed (m : M A) :
  (forall w, fs (snd (m w)) = fs w) -> confined allowed m.
Proof.
  intros Hm w r w' ds Hrun Hl _. specialize (Hm w). rewrite Hrun in Hm.
  simpl in Hm. now rewrite Hm.
Qed.

Lemma confined_bind {A B : Type} allowed (m : M A) (f : A -> M B) :
  confined allowed m -> (forall a, confined allowed (f a)) ->
  confined allowed (bind m f).
Proof.
  intros Hm Hf w r w' ds. unfold bind.
  destruct (m w) as [[e|a] w1] eqn:Em.
  - intros [= <- <-]. exact (Hm _ _ _ _ Em).
  - intros Hrun Hl Hna. exact (Hf a _ _ _ _ Hrun (Hm _ _ _ _ Em Hl Hna) Hna).
Qed.

Lemma confined_weaken {A : Type} (allowed allowed' : list string -> Prop) (m : M A) :
  (forall ds, allowed ds -> allowed' ds) -> confined allowed m ->
  confined allowed' m.
Proof. intros Hsub Hm w r w' ds Hrun Hl Hna. eapply Hm; eauto. Qed.

Lemma confined_ret {A : Type} allowed (a : A) : confined allowed (ret a).
Proof. now apply confined_same. Qed.

Lemma confined_raise {A : Type} allowed c msg : confined allowed (@raise A c msg).
Proof. now apply confined_same. Qed.

Lemma confined_lift {A : Type} allowed (r : exn + A) : confined allowed (lift r).
Proof. now apply confined_same. Qed.

Lemma confined_log allowed e : confined allowed (log e).
Proof. now apply confined_same. Qed.

Lemma confined_get_fs allowed : confined allowed get_fs.
Proof. now apply confined_same. Qed.

Lemma confined_exists allowed p : confined allowed (os_path_exists p).
Proof. now apply confined_same. Qed.

Lemma confined_isdir allowed p : confined allowed (os_path_isdir p).
Proof. now apply confined_same. Qed.

Lemma confined_isfile allowed p : confined allowed (os_path_isfile p).
Proof. now apply confined_same. Qed.

Lemma confined_listdir allowed p : confined allowed (os_listdir p).
Proof.
  apply confined_same. intros w. unfold os_listdir.
  destruct (FS.resolve p (fs w)) as [[t|es]|]; reflexivity.
Qed.

Lemma confined_read_file allowed p : confined allowed (read_file p).
Proof.
  apply confined_same. intros w. unfold read_file.
  destruct (FS.resolve p (fs w)) as [[t|es]|]; reflexivity.
Qed.

Lemma confined_new_config allowed cls d : confined allowed (new_config cls d).
Proof. now apply confined_same. Qed.

Lemma confined_set_name allowed i v :
  confined allowed (set_model_config_to_name i v).
Proof. now apply confined_same. Qed.

Lemma confined_get_name allowed i :
  confined allowed (get_model_config_to_name i).
Proof. now apply confined_same. Qed.

Lemma confined_when allowed c body :
  confined allowed body -> confined allowed (when c body).
Proof. intros Hb. destruct c; [exact Hb|apply confined_ret]. Qed.

(** [os.makedirs(p)] makes [p] and directories above it, nothing else. *)
Lemma confined_makedirs p :
  confined (fun ds => ds `prefix_of` Path.components p) (os_makedirs p).
Proof.
  intros w r w' ds. unfold os_makedirs, bind, log, get_fs, set_fs, raise. simpl.
  destruct (String.eqb p EmptyString); [now intros [= <- <-]|].
  destruct (bool_decide _); [now intros [= <- <-]|].
  destruct (FS.mkdirs (Path.components p) (fs w)) as [root'|] eqn:Em;
    intros [= <- <-]; [|auto].
  simpl. intros Hl Hp. exact (mkdirs_none_frame _ _ _ _ Em Hl Hp).
Qed.

(** [shutil.copy] to a path that is no directory makes that path only. *)
Lemma confined_copy src dst w r w' ds :
  FS.resolve dst (fs w) = None ->
  shutil_copy src dst w = (r, w') ->
  FS.lookup ds (fs w) = None -> ds <> Path.components dst ->
  FS.lookup ds (fs w') = None.
Proof.
  intros Hd.
  unfold shutil_copy, bind, log, get_fs, set_fs, os_path_isdir, read_file, raise.
  simpl. rewrite Hd. simpl. rewrite Hd.
  rewrite (bool_decide_eq_false_2 (is_Some None)) by (intros [? ?]; discriminate).
  rewrite andb_false_r. simpl.
  destruct (FS.resolve src (fs w)) as [[t|es]|]; simpl;
    try (now intros [= <- <-]).
  destruct (FS.write (Path.components dst) t (fs w)) as [root'|] eqn:Ew;
    intros [= <- <-]; [|auto].
  simpl. intros Hl Hne. exact (write_none_frame _ _ _ _ _ Ew Hl Hne).
Qed.

Lemma confined_MindFormerConfig allowed path :
  confined allowed (MindFormerConfig path).
Proof.
  unfold MindFormerConfig.
  apply confined_bind; [apply confined_log|intros _].
  apply confined_bind; [apply confined_read_file|intros text].
  apply confined_bind; [apply confined_lift|intros d]. apply confined_ret.
Qed.

Lemma confined_cached_yaml_file name :
  confined (cache_paths name) (cached_yaml_file name).
Proof.
  rewrite cached_yaml_file_eq.
  apply confined_bind; [apply confined_exists|intros ex].
  apply confined_bind.
  { apply confined_when.
    eapply confined_weaken; [|apply confined_makedirs].
    intros ds Hp. now left. }
  intros _ w r w' ds. unfold bind at 1. rewrite os_path_exists_eq.
  destruct (bool_decide (is_Some (FS.resolve (cache_yaml name) (fs w)))) eqn:E.
  - simpl. now intros [= <- <-].
  - apply bool_decide_eq_false_1 in E.
    assert (Hy : FS.resolve (cache_yaml name) (fs w) = None).
    { destruct (FS.resolve (cache_yaml name) (fs w)); [exfalso; eauto|reflexivity]. }
    cbn [negb when]. unfold bind at 1. unfold bind at 1.
    rewrite os_path_exists_eq.
    destruct (nonempty _ && _).
    + destruct (shutil_copy _ _ w) as [[e|[]] w1] eqn:Ec;
        intros [= <- <-] Hl Hna;
        apply (confined_copy _ _ _ _ _ _ Hy Ec Hl);
        intros ->; apply Hna; now right.
    + now intros [= <- <-].
Qed.

End Confinement.

Ltac confined_step :=
  first
    [ apply confined_ret | apply confined_raise | apply confined_lift
    | apply confined_log | apply confined_get_fs | apply confined_exists
    | apply confined_isdir | apply confined_isfile | apply confined_listdir
    | apply confined_read_file | apply confined_new_config
    | apply confined_set_name | apply confined_get_name
    | apply confined_MindFormerConfig | apply confined_cached_yaml_file
    | apply confined_when
    | apply confined_bind; [|intros ?]
    | match goal with
      | |- confined _ (if ?b then _ else _) => destruct b
      | |- confined _ (match ?x with _ => _ end) => destruct x
      end
    | progress cbv zeta ].

Ltac confined_all := repeat confined_step.

Section ConfinementOfClasses.
Context `{Collaborators}.

Lemma confined_AutoConfig name :
  confined (cache_paths name) (AutoConfig.from_pretrained name).
Proof. unfold AutoConfig.from_pretrained. confined_all. Qed.

Lemma confined__get_class_name_from_yaml path :
  confined (fun _ => False) (AutoTokenizer._get_class_name_from_yaml path).
Proof. unfold AutoTokenizer._get_class_name_from_yaml. confined_all. Qed.

Lemma confined__get_class_name_from_tokenizer_config_file path :
  confined (fun _ => False)
    (AutoTokenizer._get_class_name_from_tokenizer_config_file path).
Proof.
  unfold AutoTokenizer._get_class_name_from_tokenizer_config_file. confined_all.
Qed.

End ConfinementOfClasses.

(** ** What the resolution does to the file system *)

Section FileSystemEffects.
Context `{Collaborators}.

(** X1. The resolution of a name or path keeps what the file system
    holds, whatever it returns or raises: after the cache block that the
    four [from_pretrained] methods run on a supported name, after
    [AutoConfig.from_pretrained], and after the two readers of the
    tokenizer class name, every regular file is there with the text it
    had, and every directory is still a directory.  The statement is
    about these steps of auto_class.py; what the builders of models,
    processors and tokenizers do when they are called afterwards is not
    part of it. *)
Theorem X1_resolution_keeps_files (identifier path : string) (w : world) :
  keeps (fs w) (fs (snd (cached_yaml_file identifier w)))
  /\ keeps (fs w) (fs (snd (AutoConfig.from_pretrained identifier w)))
  /\ keeps (fs w) (fs (snd (AutoTokenizer._get_class_name_from_yaml path w)))
  /\ keeps (fs w)
       (fs (snd (AutoTokenizer._get_class_name_from_tokenizer_config_file path w))).
Proof.
  repeat split.
  - destruct (cached_yaml_file identifier w) as [r w'] eqn:E.
    exact (safe_cached_yaml_file _ _ _ _ E).
  - destruct (AutoConfig.from_pretrained identifier w) as [r w'] eqn:E.
    exact (safe_AutoConfig _ _ _ _ E).
  - destruct (AutoTokenizer._get_class_name_from_yaml path w) as [r w'] eqn:E.
    exact (safe__get_class_name_from_yaml _ _ _ _ E).
  - destruct (AutoTokenizer._get_class_name_from_tokenizer_config_file path w)
      as [r w'] eqn:E.
    exact (safe__get_class_name_from_tokenizer_config_file _ _ _ _ E).
Qed.

(** X2. Whatever they return or raise, the cache block and
    [AutoConfig.from_pretrained] make nothing new in the file system
    except the cache directory of the family (with the directories above
    it) and the cached yaml file of the identifier; the two readers of
    the tokenizer class name make nothing new at all.  As in X1, the
    builders called afterwards are not part of the statement. *)
Theorem X2_only_the_cache_grows (identifier path : string) (w : world)
    (ds : list string) :
  FS.lookup ds (fs w) = None ->
  (~ cache_paths identifier ds ->
   FS.lookup ds (fs (snd (cached_yaml_file identifier w))) = None
   /\ FS.lookup ds (fs (snd (AutoConfig.from_pretrained identifier w))) = None)
  /\ FS.lookup ds (fs (snd (AutoTokenizer._get_class_name_from_yaml path w))) = None
  /\ FS.lookup ds
       (fs (snd (AutoTokenizer._get_class_name_from_tokenizer_config_file path w)))
     = None.
Proof.
  intros Hl. split; [intros Hna; split|split].
  - destruct (cached_yaml_file identifier w) as [r w'] eqn:E.
    exact (confined_cached_yaml_file _ _ _ _ _ E Hl Hna).
  - destruct (AutoConfig.from_pretrained identifier w) as [r w'] eqn:E.
    exact (confined_AutoConfig _ _ _ _ _ E Hl Hna).
  - destruct (AutoTokenizer._get_class_name_from_yaml path w) as [r w'] eqn:E.
    apply (confined__get_class_name_from_yaml _ _ _ _ _ E Hl). auto.
  - destruct (AutoTokenizer._get_class_name_from_tokenizer_config_file path w)
      as [r w'] eqn:E.
    apply (confined__get_class_name_from_tokenizer_config_file _ _ _ _ _ E Hl). auto.
Qed.

End FileSystemEffects.

(** ** Paths that exist *)

Section ExistingPaths.
Context `{Collaborators}.
Import Str.

Lemma resolve_file_flags p w t :
  FS.resolve p (fs w) = Some (File t) ->
  os_path_exists p w = (inr true, w)
  /\ os_path_isdir p w = (inr false, w)
  /\ os_path_isfile p w = (inr true, w).
Proof.
  intros Hr. unfold os_path_exists, os_path_isdir, os_path_isfile.
  rewrite Hr. something_there. auto.
Qed.

(** X3. [AutoModel.from_pretrained] on an existing path that is no
    directory fails with the not-a-directory error and leaves the world
    as it was, whether the path ends in [.yaml] or not and whether or not
    it is a listed identifier. *)
Theorem X3_model_rejects_a_file (path : string) (w : world) (t : string) :
  FS.resolve path (fs w) = Some (File t) ->
  AutoModel.from_pretrained path w =
    (inl (Raise ValueError (NotADirectory path)), w).
Proof.
  intros Hr. destruct (resolve_file_flags _ _ _ Hr) as (Hex & Hdir & _).
  unfold AutoModel.from_pretrained.
  rewrite (bind_ok _ _ _ _ _ Hex), (bind_ok _ _ _ _ _ Hdir). reflexivity.
Qed.

(** X4. [AutoConfig.from_pretrained] on an existing file whose name ends
    in [.yaml]: the config is built from [model.model_config] of that
    file, it gets a fresh identity, and the side table records
    [model.arch.type] of the file for that identity.  Only the file is
    loaded: the file system is untouched, and neither the SupportList nor
    the cache plays a part. *)
Theorem X4_config_from_yaml_path (path : string) (w : world) (t : string)
    (d e : list (string * value)) (model_config type : value) (cls : string) :
  FS.resolve path (fs w) = Some (File t) ->
  endswith path ".yaml" = true ->
  yaml_load t = inr d ->
  getattr_path ["model"; "model_config"] (VDict d) = inr model_config ->
  build_model_config model_config = inr (cls, e) ->
  getattr_path ["model"; "arch"; "type"] (VDict d) = inr type ->
  AutoConfig.from_pretrained path w =
    (inr (VConfig cls (next_ident w) e),
     World (fs w) (<[next_ident w := type]> (config_to_name w))
       (N.succ (next_ident w)) (trace w ++ [LoadYaml path])).
Proof.
  intros Hr Hy Hload Hmc Hbuild Htype.
  destruct (resolve_file_flags _ _ _ Hr) as (Hex & _ & _).
  unfold AutoConfig.from_pretrained.
  rewrite (bind_ok _ _ _ _ _ Hex), Hy. cbn [negb].
  unfold bind at 1. rewrite (MindFormerConfig_file _ _ t Hr), Hload.
  unfold AutoConfig.build, bind, lift, new_config, set_model_config_to_name, ret.
  simpl in Hmc, Htype. simpl.
  set (model := default VNone (Dict.get "model" d)) in *.
  destruct (getattr "model_config" model) as [e0|mc]; [discriminate|].
  injection Hmc as ->. rewrite Hbuild.
  destruct (getattr "arch" model) as [e0|arch]; [discriminate|].
  destruct (getattr "type" arch) as [e0|ty]; [discriminate|].
  injection Htype as ->. reflexivity.
Qed.

End ExistingPaths.

(** ** From a config to a model *)

Section Values.

(** Induction on values that reaches the entries of a config object. *)
Lemma value_config_ind (P : value -> Prop) :
  P VNone -> (forall b, P (VBool b)) -> (forall z, P (VInt z)) ->
  (forall s, P (VStr s)) -> (forall l, P (VList l)) -> (forall d, P (VDict d)) ->
  (forall cls i d, Forall (fun kv => P (snd kv)) d -> P (VConfig cls i d)) ->
  forall v, P v.
Proof.
  intros HN HB HI HS HL HD HC.
  fix IH 1. intros [| b | z | s | l | d | cls i d];
    [exact HN|apply HB|apply HI|apply HS|apply HL|apply HD|].
  apply HC. induction d as [|[k x] d IHd]; constructor; [apply IH|exact IHd].
Qed.

Lemma set_set {V : Type} k (v v' : V) d :
  Dict.set k v (Dict.set k v' d) = Dict.set k v d.
Proof.
  induction d as [|[k0 v0] d IH]; simpl.
  - now rewrite String.eqb_refl.
  - destruct (String.eqb k0 k) eqn:E; simpl; rewrite E; [reflexivity|].
    now rewrite IH.
Qed.

Lemma set_all {V : Type} (P : V -> Prop) k v d :
  P v ->
  fold_right (fun kv rest => P (snd kv) /\ rest) True d ->
  fold_right (fun kv rest => P (snd kv) /\ rest) True (Dict.set k v d).
Proof.
  intros Hv. induction d as [|[k0 v0] d IH]; simpl; [auto|].
  intros [H0 Hd]. destruct (String.eqb k0 k); simpl; auto.
Qed.

(** X6. [_inverse_parse_config] leaves every config object of the tree
    with its class name under [type], keeps the identity of the object,
    and changes nothing when it is applied again. *)
Theorem X6_inverse_parse_tags_once (v : value) :
  tagged (AutoModel._inverse_parse_config v)
  /\ AutoModel._inverse_parse_config (AutoModel._inverse_parse_config v)
     = AutoModel._inverse_parse_config v
  /\ py_id (AutoModel._inverse_parse_config v) = py_id v.
Proof.
  induction v as [| b | z | s | l | d | cls i d IH] using value_config_ind;
    try (simpl; auto; fail).
  split; [|split; [|reflexivity]].
  - simpl. split; [apply DictFacts.get_set_eq|].
    apply set_all; [exact I|].
    induction IH as [|[k x] d [Hx _] _ IHd]; simpl; auto.
  - assert (HFF : map (fun '(key, val) => (key, AutoModel._inverse_parse_config val))
                   (map (fun '(key, val) => (key, AutoModel._inverse_parse_config val)) d)
                 = map (fun '(key, val) => (key, AutoModel._inverse_parse_config val)) d).
    { induction IH as [|[k x] d [_ [Hx _]] _ IHd]; simpl; [reflexivity|].
      simpl in Hx. now rewrite Hx, IHd. }
    cbn [AutoModel._inverse_parse_config]. f_equal.
    rewrite (DictFacts.map_set AutoModel._inverse_parse_config).
    cbn [AutoModel._inverse_parse_config].
    now rewrite HFF, set_set.
Qed.

End Values.

Section ConfigToModel.
Context `{Collaborators}.

(** What [model.arch.type] reads after the round trip, for every config
    object and every side table. *)
Lemma round_trip_arch_type_eq cls i d w :
  AutoModel.round_trip_arch_type (VConfig cls i d) w =
    inr (match Dict.get "model_name" d with
         | Some VNone | None => default VNone (config_to_name w !! i)
         | Some v => AutoModel._inverse_parse_config v
         end).
Proof.
  unfold AutoModel.round_trip_arch_type. rewrite _inverse_parse_config_eq.
  set (d' := map _ (Dict.set "type" (VStr cls) d)).
  assert (Hname : Dict.get "model_name" d' =
                  option_map AutoModel._inverse_parse_config (Dict.get "model_name" d)).
  { unfold d'. rewrite (DictFacts.get_map AutoModel._inverse_parse_config).
    now rewrite DictFacts.get_set_ne by discriminate. }
  unfold AutoModel._wrap_config, bind, lift, py_pop, BaseConfig, new_config,
    get_model_config_to_name, ret.
  rewrite Hname.
  destruct (Dict.get "model_name" d) as [v|]; simpl; [|reflexivity].
  destruct v; reflexivity.
Qed.

(** A call of [AutoConfig.from_pretrained] that returns has loaded one
    yaml file and built the config from it. *)
Lemma AutoConfig_from_pretrained_inv identifier w config w1 :
  AutoConfig.from_pretrained identifier w = (inr config, w1) ->
  exists path wa d0,
    MindFormerConfig path wa = (inr (VDict d0), touch wa (fs wa) [LoadYaml path])
    /\ AutoConfig.build (VDict d0) (touch wa (fs wa) [LoadYaml path]) = (inr config, w1).
Proof.
  unfold AutoConfig.from_pretrained. intros Hrun.
  apply bind_inv in Hrun as (ex & w0 & Hex & Hrun). injection Hex as <- <-.
  apply bind_inv in Hrun as (config_args & wb & Hload & Hbuild).
  assert (Hmfc : exists path wa, MindFormerConfig path wa = (inr config_args, wb)).
  { destruct (bool_decide _).
    - destruct (negb _); [discriminate|]. eauto.
    - destruct (_ || _); [discriminate|].
      apply bind_inv in Hload as (y & wa & _ & Hload). eauto. }
  destruct Hmfc as (path & wa & Hmfc).
  pose proof Hmfc as Hinv.
  apply MindFormerConfig_inv in Hinv as (t & d0 & _ & _ & -> & ->).
  eauto.
Qed.

(** X5. A config that [AutoConfig.from_pretrained] returned, handed to
    [AutoModel.from_config]: the model is built from a tree whose
    [model.arch.type] is the [model.arch.type] of the yaml file the first
    call loaded, unless the config has an entry [model_name] that is not
    [None], which then takes its place. *)
Theorem X5_from_config_recovers_the_architecture (identifier : string)
    (w w1 : world) (config : value) :
  AutoConfig.from_pretrained identifier w = (inr config, w1) ->
  exists cls i d path t d0 type,
    config = VConfig cls i d
    /\ last (trace w1) = Some (LoadYaml path)
    /\ FS.resolve path (fs w1) = Some (File t)
    /\ yaml_load t = inr d0
    /\ getattr_path ["model"; "arch"; "type"] (VDict d0) = inr type
    /\ AutoModel.round_trip_arch_type config w1 =
         inr (match Dict.get "model_name" d with
              | Some VNone | None => type
              | Some v => AutoModel._inverse_parse_config v
              end)
    /\ exists tree w2,
         AutoModel._wrap_config (AutoModel._inverse_parse_config config) w1
           = (inr tree, w2)
         /\ AutoModel.from_config (AutoModel.ConfigObject cls i d) w1 =
              (match getattr "model" tree with
               | inl e => inl e
               | inr model => build_model model
               end, w2).
Proof.
  intros Hrun.
  apply AutoConfig_from_pretrained_inv in Hrun as (path & wa & d0 & Hmfc & Hbuild).
  apply MindFormerConfig_inv in Hmfc as (t & d0' & Hr & Hload & Hd & _).
  injection Hd as <-.
  destruct (build_records_arch_type _ _ _ _ Hbuild) as (type & Htype & Hrec).
  destruct (build_inv _ _ _ _ Hbuild) as (cls & d & type' & Hany).
  rewrite Hany in Hbuild. injection Hbuild as <- <-.
  simpl in Hrec. rewrite lookup_insert_eq in Hrec. injection Hrec as ->.
  exists cls, (next_ident wa), d, path, t, d0, type.
  split; [reflexivity|]. split; [simpl; apply last_snoc|].
  split; [exact Hr|]. split; [exact Hload|]. split; [exact Htype|].
  split.
  - rewrite round_trip_arch_type_eq. simpl. now rewrite lookup_insert_eq.
  - destruct (AutoModel._wrap_config
                (AutoModel._inverse_parse_config (VConfig cls (next_ident wa) d)) _)
      as [[e|tree] w2] eqn:Ew.
    + exfalso. revert Ew. rewrite _inverse_parse_config_eq.
      unfold AutoModel._wrap_config, bind, lift, py_pop, BaseConfig, new_config,
        get_model_config_to_name, ret.
      destruct (default VNone _); discriminate.
    + exists tree, w2. split; [reflexivity|].
      now apply from_config_round_trip.
Qed.

End ConfigToModel.

(** ** The processor and the tokenizer *)

Section ProcessorTokenizer.
Context `{Collaborators}.
Import Str.

(** No name of the family [mae] is listed for the processor. *)
Lemma popped_family_unsupported name sl :
  AutoProcessor._support_list = inr sl ->
  family name = "mae" -> supported name sl = false.
Proof.
  unfold AutoProcessor._support_list.
  destruct (get_model_support_list !! "mae"); [|discriminate].
  intros [= <-] Hf. unfold supported, in_keys. rewrite Hf, lookup_delete_eq.
  rewrite (bool_decide_eq_false_2 (is_Some None)) by (intros [? ?]; discriminate).
  reflexivity.
Qed.

(** X7. [AutoProcessor.from_pretrained] on a name that names nothing in
    the file system and is not listed under its family in the list of the
    class fails with the value error that carries that list, and leaves
    the world as it was.  Every such name of the family [mae] is rejected
    so, whatever the model SupportList says about it. *)
Theorem X7_processor_rejects_unlisted_names (name : string) (w : world)
    (sl : support_list) :
  AutoProcessor._support_list = inr sl ->
  bare name w ->
  supported name sl = false \/ family name = "mae" ->
  AutoProcessor.from_pretrained name w =
    (inl (Raise ValueError (NotSupportedBy name "AutoProcessor" sl)), w).
Proof.
  intros Hsl Hb Hun.
  assert (Hs : supported name sl = false).
  { destruct Hun as [Hs|Hf]; [exact Hs|]. now apply popped_family_unsupported. }
  unfold AutoProcessor.from_pretrained. rewrite Hsl.
  rewrite (bind_ok (lift (inr sl)) _ w sl w eq_refl).
  step_exists. rewrite (bare_not_exists _ _ Hb). cbn [negb andb].
  unfold supported, family in Hs.
  destruct (in_keys (split0 "_" name) sl); [|reflexivity].
  simpl in Hs. rewrite Hs. reflexivity.
Qed.

(** X8. [AutoProcessor.from_pretrained] on an existing regular file
    whose name ends in [.yaml] loads that file and builds the processor
    from the [processor] entry of the file with no library path.  The
    SupportList and the cache play no part, and the file system is
    untouched. *)
Theorem X8_processor_loads_a_yaml_file (path : string) (w : world) (t : string)
    (d : list (string * value)) (sl : support_list) :
  AutoProcessor._support_list = inr sl ->
  FS.resolve path (fs w) = Some (File t) ->
  endswith path ".yaml" = true ->
  yaml_load t = inr d ->
  AutoProcessor.from_pretrained path w =
    (build_processor (default VNone (Dict.get "processor" d)) None,
     touch w (fs w) [LoadYaml path]).
Proof.
  intros Hsl Hr _ Hload.
  destruct (resolve_file_flags _ _ _ Hr) as (Hex & Hdir & _).
  unfold AutoProcessor.from_pretrained. rewrite Hsl.
  rewrite (bind_ok (lift (inr sl)) _ w sl w eq_refl).
  rewrite (bind_ok _ _ _ _ _ Hex). simpl.
  rewrite (bind_ok (ret tt) _ w tt w eq_refl).
  unfold bind at 1. unfold bind at 1. rewrite Hdir.
  rewrite (MindFormerConfig_file _ _ t Hr), Hload.
  unfold AutoProcessor.build, bind, os_path_isdir, lift. simpl.
  now rewrite Hr.
Qed.

(** X9. [AutoProcessor.from_pretrained] on an existing directory that
    holds a name ending in [.yaml] loads the first such file and hands
    the directory itself to [build_processor] as the library path. *)
Theorem X9_processor_of_a_directory (dir : string) (w : world)
    (es : list (string * node)) (yaml0 : string) (yamls : list string)
    (t : string) (d : list (string * value)) (sl : support_list) :
  AutoProcessor._support_list = inr sl ->
  FS.resolve dir (fs w) = Some (Dir es) ->
  filter (fun file => endswith file ".yaml") (Dict.keys es) = yaml0 :: yamls ->
  FS.resolve (os_path_join dir yaml0) (fs w) = Some (File t) ->
  yaml_load t = inr d ->
  AutoProcessor.from_pretrained dir w =
    (build_processor (default VNone (Dict.get "processor" d)) (Some dir),
     touch w (fs w) [LoadYaml (os_path_join dir yaml0)]).
Proof.
  intros Hsl Hr Hyl Hy Hload.
  destruct (resolve_dir_flags _ _ _ Hr) as (Hex & Hdir & _ & Hls).
  unfold AutoProcessor.from_pretrained. rewrite Hsl.
  rewrite (bind_ok (lift (inr sl)) _ w sl w eq_refl).
  rewrite (bind_ok _ _ _ _ _ Hex). simpl.
  rewrite (bind_ok (ret tt) _ w tt w eq_refl).
  unfold bind at 1. unfold bind at 1. rewrite Hdir.
  unfold bind at 1. rewrite Hls, Hyl.
  rewrite (MindFormerConfig_file _ _ t Hy), Hload.
  unfold AutoProcessor.build, bind, os_path_isdir, lift. simpl.
  now rewrite Hr.
Qed.

(** X10. [AutoTokenizer.from_pretrained] on an identifier that is not a
    listed tokenizer name and is no directory fails with the not-found
    error and leaves the world as it was.  This holds for a path that
    names nothing and just as well for an existing regular file, a yaml
    file included. *)
Theorem X10_tokenizer_needs_a_name_or_a_directory (path : string) (w : world) :
  path ∉ all_values get_tokenizer_support_list ->
  FS.is_dir (FS.resolve path (fs w)) = false ->
  AutoTokenizer.from_pretrained path w =
    (inl (Raise FileNotFoundError
            (DoesNotExist path (map fst (map_to_list get_tokenizer_support_list)))),
     w).
Proof.
  intros Hout Hnd.
  unfold AutoTokenizer.from_pretrained, AutoTokenizer._support_list.
  rewrite (bool_decide_eq_false_2 _ Hout).
  unfold bind, os_path_isdir. now rewrite Hnd.
Qed.

(** The class name a loaded yaml file supplies. *)
Lemma class_name_of_tree d processor tokenizer class_name w :
  py_getitem "processor" (VDict d) = inr processor ->
  py_getitem "tokenizer" processor = inr tokenizer ->
  py_getitem "type" tokenizer = inr class_name ->
  (if negb (truthy (VDict d)) then ret VNone else
   do has <- lift (py_in "processor" (VDict d));
   if negb has then ret VNone else
   do processor <- lift (py_getitem "processor" (VDict d));
   do has <- lift (py_in "tokenizer" processor);
   if negb has then ret VNone else
   do tokenizer <- lift (py_getitem "tokenizer" processor);
   do has <- lift (py_in "type" tokenizer);
   if negb has then ret VNone else
   do '(class_name, _) <- lift (py_pop "type" tokenizer);
   ret class_name)%py w = (inr class_name, w).
Proof.
  intros Hp Ht Hc.
  assert (Hne : truthy (VDict d) = true).
  { destruct d; [discriminate|reflexivity]. }
  rewrite Hne. cbn [negb].
  unfold bind, lift, ret. rewrite Hp.
  assert (Hin : forall k v x, py_getitem k v = inr x ->
            py_in k v = inr true /\ exists y, py_pop k v = inr (x, y)).
  { intros k v x. unfold py_getitem, py_in, py_pop, Dict.mem.
    destruct v; try discriminate;
      (destruct (Dict.get k d0) eqn:E; [|discriminate]);
      intros [= <-]; simpl; eauto. }
  destruct (Hin _ _ _ Hp) as [-> _]. cbn [negb].
  destruct (Hin _ _ _ Ht) as [-> _]. rewrite Ht. cbn [negb].
  destruct (Hin _ _ _ Hc) as [-> [y ->]]. reflexivity.
Qed.

(** X11. A directory that is not a listed tokenizer name and whose first
    yaml file supplies a [processor.tokenizer.type] that is truthy: the
    tokenizer class is looked up under that name, and the file
    [tokenizer_config.json] is not consulted, whether it is there or
    not. *)
Theorem X11_tokenizer_class_from_yaml (dir : string) (w : world)
    (es : list (string * node)) (yaml0 : string) (yamls : list string)
    (t : string) (d : list (string * value))
    (processor tokenizer class_name : value) :
  dir ∉ all_values get_tokenizer_support_list ->
  FS.resolve dir (fs w) = Some (Dir es) ->
  filter (fun file => endswith file ".yaml") (Dict.keys es) = yaml0 :: yamls ->
  FS.resolve (os_path_join dir yaml0) (fs w) = Some (File t) ->
  yaml_load t = inr d ->
  py_getitem "processor" (VDict d) = inr processor ->
  py_getitem "tokenizer" processor = inr tokenizer ->
  py_getitem "type" tokenizer = inr class_name ->
  truthy class_name = true ->
  AutoTokenizer.from_pretrained dir w =
    (do dynamic_class <- lift (get_cls "tokenizer" class_name);
     do root <- get_fs;
     lift (tokenizer_from_pretrained dynamic_class dir root))%py
      (touch w (fs w) [LoadYaml (os_path_join dir yaml0)]).
Proof.
  intros Hout Hr Hyl Hy Hload Hp Ht Hc Htruthy.
  destruct (resolve_dir_flags _ _ _ Hr) as (Hex & Hdir & Hfile & Hls).
  assert (Hcls : AutoTokenizer._get_class_name_from_yaml dir w =
                 (inr class_name, touch w (fs w) [LoadYaml (os_path_join dir yaml0)])).
  { unfold AutoTokenizer._get_class_name_from_yaml.
    rewrite (bind_ok _ _ _ _ _ Hex), (bind_ok _ _ _ _ _ Hdir), (bind_ok _ _ _ _ _ Hfile).
    simpl. rewrite (bind_ok _ _ _ _ _ Hls), Hyl.
    unfold bind at 1. rewrite (MindFormerConfig_file _ _ t Hy), Hload.
    now apply (class_name_of_tree d processor tokenizer). }
  unfold AutoTokenizer.from_pretrained, AutoTokenizer._support_list.
  rewrite (bool_decide_eq_false_2 _ Hout).
  unfold bind at 1. unfold bind at 1. rewrite Hdir.
  unfold bind at 1. rewrite Hcls, Htruthy. reflexivity.
Qed.

(** X12. A listed tokenizer name is resolved through the cache, and only
    through it: the class is looked up under whatever the cached yaml
    file (or the template copied to it) yields as class name, [None]
    when it supplies none, and an exception of that look leaves the
    call.  The call does not fall back on a file
    [tokenizer_config.json] as it does for a directory. *)
Theorem X12_listed_tokenizer_has_no_fallback (name : string) (w : world)
    (t : string) (d : list (string * value)) :
  name ∈ all_values get_tokenizer_support_list ->
  has_char "/" name = false ->
  dir_ready (cache_dir name) (fs w) ->
  (FS.resolve (cache_yaml name) (fs w) = Some (File t)
   \/ (FS.resolve (cache_yaml name) (fs w) = None
       /\ FS.resolve (default_yaml name) (fs w) = Some (File t))) ->
  yaml_load t = inr d ->
  exists root',
    AutoTokenizer.from_pretrained name w =
      (do class_name <- lift (AutoTokenizer.yaml_class_name (VDict d));
       do dynamic_class <- lift (get_cls "tokenizer" class_name);
       do root <- get_fs;
       lift (tokenizer_from_pretrained dynamic_class name root))%py
        (touch w root' (made name w ++ copied name w ++ [LoadYaml (cache_yaml name)]))
    /\ FS.resolve (cache_yaml name) root' = Some (File t).
Proof.
  intros Hin Hn Hdir Hsrc Hload.
  destruct (cached_yaml_file_spec _ _ _ Hn Hdir Hsrc) as (root' & Hc & _ & Hy).
  exists root'. split; [|exact Hy].
  unfold AutoTokenizer.from_pretrained, AutoTokenizer._support_list.
  rewrite (bool_decide_eq_true_2 _ Hin).
  unfold bind at 1. unfold bind at 1. rewrite Hc.
  rewrite (class_name_of_file _ _ t d); [|exact Hy|exact Hload].
  rewrite touch_touch, fs_touch, <- List.app_assoc.
  unfold bind at 2, lift at 1.
  destruct (AutoTokenizer.yaml_class_name (VDict d)); reflexivity.
Qed.

(** X13. [AutoModel.from_config] on the path of an existing regular file:
    a name ending in [.yaml] makes it load the file and build the model
    from its [model] entry as it stands (nothing is added to it, and no
    identity is made or recorded); any other name is refused with the
    value error before the file is read. *)
Theorem X13_from_config_on_a_path (path : string) (w : world) (t : string) :
  FS.resolve path (fs w) = Some (File t) ->
  AutoModel.from_config (AutoModel.ConfigPath path) w =
    if endswith path ".yaml"
    then (match yaml_load t with
          | inl e => inl e
          | inr d => build_model (default VNone (Dict.get "model" d))
          end, touch w (fs w) [LoadYaml path])
    else (inl (Raise ValueError BadConfig), w).
Proof.
  intros Hr. destruct (resolve_file_flags _ _ _ Hr) as (Hex & _ & _).
  unfold AutoModel.from_config.
  unfold bind at 1. unfold bind at 1. rewrite Hex. cbn [andb].
  destruct (endswith path ".yaml"); [|reflexivity].
  rewrite (MindFormerConfig_file _ _ t Hr).
  destruct (yaml_load t); reflexivity.
Qed.

End ProcessorTokenizer.

(** ** The further properties on the sample installations *)

Lemma X2_witness :
  FS.lookup ["run1"]
    (fs (snd (@AutoConfig.from_pretrained Sample.env "bert_base_uncased" Sample.w0))) = None
  /\ FS.lookup ["run1"]
       (fs (snd (@AutoTokenizer._get_class_name_from_yaml Sample.env
                   "mindformers" Sample.w0))) = None.
Proof.
  assert (Hl : FS.lookup ["run1"] (fs Sample.w0) = None) by reflexivity.
  assert (Hna : ~ @cache_paths Sample.env "bert_base_uncased" ["run1"]).
  { intros [[k Hk]|He]; vm_compute in *; discriminate. }
  split.
  - exact (proj2 (proj1 (@X2_only_the_cache_grows Sample.env "bert_base_uncased"
                           "mindformers" Sample.w0 ["run1"] Hl) Hna)).
  - exact (proj1 (proj2 (@X2_only_the_cache_grows Sample.env "bert_base_uncased"
                           "mindformers" Sample.w0 ["run1"] Hl))).
Defined.

Lemma X3_witness :
  @AutoModel.from_pretrained Sample.env "run1/model.yaml" Sample.w1 =
    (inl (Raise ValueError (NotADirectory "run1/model.yaml")), Sample.w1).
Proof.
  apply (@X3_model_rejects_a_file Sample.env "run1/model.yaml" Sample.w1 "bert").
  reflexivity.
Defined.

Lemma X4_witness :
  @AutoConfig.from_pretrained Sample.env "run1/model.yaml" Sample.w1 =
    (inr (VConfig "BertConfig" 1 [("hidden_size", VInt 768)]),
     World Sample.saved (<[1%N := VStr "BertForPreTraining"]> ∅) 2%N
       [LoadYaml "run1/model.yaml"]).
Proof.
  apply (@X4_config_from_yaml_path Sample.env "run1/model.yaml" Sample.w1 "bert"
           Sample.bert_tree [("hidden_size", VInt 768)]
           (VDict [("type", VStr "BertConfig"); ("hidden_size", VInt 768)])
           (VStr "BertForPreTraining") "BertConfig"); reflexivity.
Defined.

Lemma X5_witness :
  let w1 := snd (@AutoConfig.from_pretrained Sample.env "bert_base_uncased" Sample.w0) in
  let config := VConfig "BertConfig" 1 [("hidden_size", VInt 768)] in
  exists cls i d path t d0 type,
    config = VConfig cls i d
    /\ last (trace w1) = Some (LoadYaml path)
    /\ FS.resolve path (fs w1) = Some (File t)
    /\ @yaml_load Sample.env t = inr d0
    /\ getattr_path ["model"; "arch"; "type"] (VDict d0) = inr type
    /\ AutoModel.round_trip_arch_type config w1 =
         inr (match Dict.get "model_name" d with
              | Some VNone | None => type
              | Some v => AutoModel._inverse_parse_config v
              end)
    /\ exists tree w2,
         AutoModel._wrap_config (AutoModel._inverse_parse_config config) w1
           = (inr tree, w2)
         /\ @AutoModel.from_config Sample.env (AutoModel.ConfigObject cls i d) w1 =
              (match getattr "model" tree with
               | inl e => inl e
               | inr model => @build_model Sample.env model
               end, w2).
Proof.
  cbv zeta.
  apply (@X5_from_config_recovers_the_architecture Sample.env "bert_base_uncased"
           Sample.w0).
  vm_compute. reflexivity.
Defined.

Lemma X7_witness :
  @AutoProcessor.from_pretrained Sample.env "mae_vit_base_p16" Sample.w0 =
    (inl (Raise ValueError
            (NotSupportedBy "mae_vit_base_p16" "AutoProcessor"
               (delete "mae" (@get_model_support_list Sample.env)))), Sample.w0).
Proof.
  apply (@X7_processor_rejects_unlisted_names Sample.env "mae_vit_base_p16" Sample.w0).
  - reflexivity.
  - reflexivity.
  - right. reflexivity.
Defined.

Lemma X8_witness :
  @AutoProcessor.from_pretrained Sample.env "run1/model.yaml" Sample.w1 =
    (inr (VDict [("type", VStr "BertProcessor");
                 ("tokenizer", VDict [("type", VStr "BertTokenizer")])], None),
     touch Sample.w1 Sample.saved [LoadYaml "run1/model.yaml"]).
Proof.
  apply (@X8_processor_loads_a_yaml_file Sample.env "run1/model.yaml" Sample.w1 "bert"
           Sample.bert_tree (delete "mae" (@get_model_support_list Sample.env)));
    reflexivity.
Defined.

Lemma X9_witness :
  @AutoProcessor.from_pretrained Sample.env "run1" Sample.w1 =
    (inr (VDict [("type", VStr "BertProcessor");
                 ("tokenizer", VDict [("type", VStr "BertTokenizer")])], Some "run1"),
     touch Sample.w1 Sample.saved [LoadYaml "run1/model.yaml"]).
Proof.
  apply (@X9_processor_of_a_directory Sample.env "run1" Sample.w1
           [("notes.txt", File EmptyString);
            ("model.yaml", File "bert");
            ("other.yaml", File "bare");
            ("weights.ckpt", File EmptyString);
            ("tokenizer_config.json", File "BertTokenizer")]
           "model.yaml" ["other.yaml"] "bert" Sample.bert_tree
           (delete "mae" (@get_model_support_list Sample.env))); reflexivity.
Defined.

Lemma X10_witness :
  @AutoTokenizer.from_pretrained Sample.env "run1/model.yaml" Sample.w1 =
    (inl (Raise FileNotFoundError
            (DoesNotExist "run1/model.yaml"
               (map fst (map_to_list (@get_tokenizer_support_list Sample.env))))),
     Sample.w1).
Proof.
  assert (Hout : "run1/model.yaml" ∉ all_values (@get_tokenizer_support_list Sample.env)).
  { apply (bool_decide_eq_false_1 _). vm_compute. reflexivity. }
  apply (@X10_tokenizer_needs_a_name_or_a_directory Sample.env "run1/model.yaml"
           Sample.w1 Hout).
  reflexivity.
Defined.

Lemma X11_witness :
  @AutoTokenizer.from_pretrained Sample.env "run1" Sample.w1 =
    (inr (VStr "BertTokenizer", "run1"),
     touch Sample.w1 Sample.saved [LoadYaml "run1/model.yaml"]).
Proof.
  assert (Hout : "run1" ∉ all_values (@get_tokenizer_support_list Sample.env)).
  { apply (bool_decide_eq_false_1 _). vm_compute. reflexivity. }
  exact (@X11_tokenizer_class_from_yaml Sample.env "run1" Sample.w1
           [("notes.txt", File EmptyString);
            ("model.yaml", File "bert");
            ("other.yaml", File "bare");
            ("weights.ckpt", File EmptyString);
            ("tokenizer_config.json", File "BertTokenizer")]
           "model.yaml" ["other.yaml"] "bert" Sample.bert_tree
           (VDict [("type", VStr "BertProcessor");
                   ("tokenizer", VDict [("type", VStr "BertTokenizer")])])
           (VDict [("type", VStr "BertTokenizer")]) (VStr "BertTokenizer")
           Hout eq_refl eq_refl eq_refl eq_refl eq_refl eq_refl eq_refl eq_refl).
Defined.

Lemma X12_witness :
  exists root',
    @AutoTokenizer.from_pretrained Sample.env "bert_base_uncased" Cached.w4 =
      (do class_name <- lift (AutoTokenizer.yaml_class_name (VDict Sample.bare_tree));
       do dynamic_class <- lift (@get_cls Sample.env "tokenizer" class_name);
       do root <- get_fs;
       lift (@tokenizer_from_pretrained Sample.env dynamic_class
               "bert_base_uncased" root))%py
        (touch Cached.w4 root'
           (@made Sample.env "bert_base_uncased" Cached.w4
            ++ @copied Sample.env "bert_base_uncased" Cached.w4
            ++ [LoadYaml (@cache_yaml Sample.env "bert_base_uncased")]))
    /\ FS.resolve (@cache_yaml Sample.env "bert_base_uncased") root' = Some (File "bare").
Proof.
  assert (Hin : "bert_base_uncased" ∈ all_values (@get_tokenizer_support_list Sample.env)).
  { apply (bool_decide_eq_true_1 _). vm_compute. reflexivity. }
  assert (Hdir : dir_ready (@cache_dir Sample.env "bert_base_uncased") (fs Cached.w4)).
  { left. reflexivity. }
  apply (@X12_listed_tokenizer_has_no_fallback Sample.env "bert_base_uncased"
           Cached.w4 "bare" Sample.bare_tree Hin eq_refl Hdir).
  - left. reflexivity.
  - reflexivity.
Defined.

Lemma X13_witness :
  @AutoModel.from_config Sample.env (AutoModel.ConfigPath "run1/model.yaml") Sample.w1 =
    (inr (VDict [("model_config",
                  VDict [("type", VStr "BertConfig"); ("hidden_size", VInt 768)]);
                 ("arch", VDict [("type", VStr "BertForPreTraining")])]),
     touch Sample.w1 Sample.saved [LoadYaml "run1/model.yaml"])
  /\ @AutoModel.from_config Sample.env (AutoModel.ConfigPath "run1/notes.txt") Sample.w1 =
       (inl (Raise ValueError BadConfig), Sample.w1).
Proof.
  split.
  - apply (@X13_from_config_on_a_path Sample.env "run1/model.yaml" Sample.w1 "bert").
    reflexivity.
  - apply (@X13_from_config_on_a_path Sample.env "run1/notes.txt" Sample.w1 EmptyString).
    reflexivity.
Defined.

(* ===================================================================== *)
(** * Properties of make_mindrecord.py *)
(* ===================================================================== *)

Section Alpaca.
Context `{TokenizerApi}.
Import AlpacaDatasetMaker.

(** The two filling steps after the cut, for a sequence length that is
    not negative. *)
Lemma fill_closed_form (self : maker) (toks : list Z) :
  (0 <= seq_length self)%Z ->
  _add_pad_token_id self
    (_add_eos_token_id self
       (if (len toks >? seq_length self)%Z
        then py_take (seq_length self) toks else toks))
  = firstn (Z.to_nat (seq_length self)) toks
    ++ repeat (eos_token_id self) (Z.to_nat (seq_length self) - length toks).
Proof.
  unfold _add_pad_token_id, _add_eos_token_id, py_take, py_repeat, len.
  generalize (eos_token_id self) as eos, (seq_length self) as s. intros eos s Hs.
  rewrite Z.gtb_ltb. destruct (Z.ltb_spec s (Z.of_nat (length toks))) as [Hlt|Hge].
  - rewrite (proj2 (Z.leb_le 0 s) Hs).
    assert (Hl : length (firstn (Z.to_nat s) toks) = Z.to_nat s)
      by (rewrite length_firstn; lia).
    rewrite Hl, Z2Nat.id, Z.ltb_irrefl by exact Hs.
    rewrite Hl, Z2Nat.id, Z.ltb_irrefl by exact Hs.
    replace (Z.to_nat s - length toks) with 0 by lia. simpl. now rewrite app_nil_r.
  - rewrite (firstn_all2 toks) by lia.
    destruct (Z.ltb_spec (Z.of_nat (length toks)) s) as [Hlt|Heq].
    + rewrite length_app. simpl length.
      destruct (Z.ltb_spec (Z.of_nat (length toks + 1)) s) as [Hlt'|Hge'].
      * rewrite <- List.app_assoc. f_equal.
        replace (Z.to_nat s - length toks)
          with (S (Z.to_nat (s - Z.of_nat (length toks + 1)))) by lia.
        reflexivity.
      * replace (Z.to_nat s - length toks) with 1 by lia. reflexivity.
    + rewrite (proj2 (Z.ltb_ge _ _) Heq).
      replace (Z.to_nat s - length toks) with 0 by lia. simpl. now rewrite app_nil_r.
Qed.

(** X14. With a sequence length that is not negative, [make_prompt_ids]
    returns exactly [seq_length] ids for every prompt whose text can be
    formed: the ids of the text cut after [seq_length] of them, followed
    by as many end-of-text ids as are missing.  The padding id of the
    tokenizer is not used. *)
Theorem X14_prompt_ids_fill_the_sequence (self : maker) (p : prompt) (text : string) :
  (0 <= seq_length self)%Z ->
  prompt_text self p = inr text ->
  let toks := tokenizer_input_ids (tokenizer self) text in
  let s := Z.to_nat (seq_length self) in
  make_prompt_ids self p
    = inr (firstn s toks ++ repeat (eos_token_id self) (s - length toks))
  /\ len (firstn s toks ++ repeat (eos_token_id self) (s - length toks))
     = seq_length self.
Proof.
  intros Hs Ht toks s. split.
  - unfold make_prompt_ids. rewrite Ht. cbv zeta. f_equal.
    now apply fill_closed_form.
  - unfold len. rewrite length_app, length_firstn, repeat_length. lia.
Qed.

(** X15. With a negative sequence length nothing is filled in: the ids
    of the text lose their last [-seq_length] elements (all of them when
    there are fewer), and no end-of-text id is added. *)
Theorem X15_negative_length_only_cuts (self : maker) (p : prompt) (text : string) :
  (seq_length self < 0)%Z ->
  prompt_text self p = inr text ->
  let toks := tokenizer_input_ids (tokenizer self) text in
  make_prompt_ids self p
    = inr (firstn (length toks - Z.to_nat (- seq_length self)) toks).
Proof.
  intros Hs Ht toks. unfold make_prompt_ids. rewrite Ht. cbv zeta. fold toks.
  f_equal. unfold _add_pad_token_id, _add_eos_token_id, py_take, len.
  generalize dependent (seq_length self). intros s Hs.
  rewrite Z.gtb_ltb.
  destruct (Z.ltb_spec s (Z.of_nat (length toks))); [|lia].
  destruct (Z.leb_spec 0 s); [lia|].
  repeat match goal with
         | |- context [Z.ltb ?a ?b] => destruct (Z.ltb_spec a b); [lia|]
         end.
  reflexivity.
Qed.

(** A maker that [__init__] returned holds the tokenizer that
    [AutoTokenizer.from_pretrained] gave for [bloom_560m], and the two
    templates of the class. *)
Lemma init_inv i o s w self w' :
  __init__ i o s w = (inr self, w') ->
  AutoTokenizer.from_pretrained "bloom_560m" w = (inr (tokenizer self), w')
  /\ seq_length self = s
  /\ eos_token_id self = tokenizer_eos_token_id (tokenizer self)
  /\ forall p,
       prompt_text self p =
         match Dict.get "instruction" p, Dict.get "input" p, Dict.get "output" p with
         | None, _, _ => inl (Raise KeyError (Runtime "instruction"))
         | Some _, _, None => inl (Raise KeyError (Runtime "output"))
         | Some a, None, Some c =>
             format_map (prompt_without_input self) p
         | Some a, Some b, Some c =>
             format_map (prompt_with_input self) p
         end.
Proof.
  unfold __init__. intros Hrun.
  apply bind_inv in Hrun as (t & w1 & Ht & Hret).
  injection Hret as <- <-. repeat split; auto.
  intros p. unfold prompt_text, Dict.mem. cbn [prompt_with_input prompt_without_input].
  destruct (Dict.get "input" p) eqn:Ei; cbn [format_map]; rewrite ?Ei;
    destruct (Dict.get "instruction" p); destruct (Dict.get "output" p); reflexivity.
Qed.

(** X16. For a maker that [__init__] built, [make_prompt_ids] needs the
    keys [instruction] and [output] of a prompt and nothing else: it
    raises [KeyError] for [instruction] when that key is missing, for
    [output] when only that one is missing, and returns otherwise,
    whether the prompt has the key [input] or not. *)
Theorem X16_prompt_needs_instruction_and_output (i o : string) (s : Z)
    (w w' : world) (self : maker) (p : prompt) :
  __init__ i o s w = (inr self, w') ->
  (Dict.mem "instruction" p = false ->
   make_prompt_ids self p = inl (Raise KeyError (Runtime "instruction")))
  /\ (Dict.mem "instruction" p = true -> Dict.mem "output" p = false ->
      make_prompt_ids self p = inl (Raise KeyError (Runtime "output")))
  /\ (Dict.mem "instruction" p = true -> Dict.mem "output" p = true ->
      exists prompt_ids, make_prompt_ids self p = inr prompt_ids).
Proof.
  intros Hinit. destruct (init_inv _ _ _ _ _ _ Hinit) as (_ & _ & _ & Htext).
  unfold make_prompt_ids, Dict.mem. rewrite (Htext p).
  unfold __init__ in Hinit. apply bind_inv in Hinit as (t & w1 & _ & Hret).
  injection Hret as <- <-. cbn [prompt_with_input prompt_without_input format_map].
  destruct (Dict.get "instruction" p) eqn:Ea; destruct (Dict.get "output" p) eqn:Ec;
    destruct (Dict.get "input" p) eqn:Eb;
    (repeat split; intros; try discriminate; try reflexivity); eauto.
Qed.

Lemma skipn_cons_nth {A : Type} (l : list A) a x t :
  skipn a l = x :: t -> nth_error l a = Some x /\ skipn (S a) l = t.
Proof.
  revert l. induction a as [|a IH]; intros l Hs.
  - change (l = x :: t) in Hs. subst l. auto.
  - destruct l as [|y l]; [discriminate|]. change (skipn a l = x :: t) in Hs.
    destruct (IH _ Hs) as [Hn Hk]. auto.
Qed.

(** The loop on prompts that can all be turned into ids. *)
Lemma write_prompts_all self dataset ps : forall rows a writer,
  firstn (length ps) (skipn a dataset) = ps ->
  Forall2 (fun p ids => make_prompt_ids self p = inr ids) ps rows ->
  write_prompts self dataset (seq a (length ps)) writer
    = (inr tt, writer ++ map WriteRawData rows).
Proof.
  induction ps as [|p ps IH]; intros rows a writer Hf Hok.
  - inversion Hok. simpl. now rewrite app_nil_r.
  - inversion Hok as [|? ids ? rows' Hp Hrest]; subst.
    simpl in Hf. destruct (skipn a dataset) as [|q t] eqn:Es; [discriminate|].
    injection Hf as -> Hf.
    destruct (skipn_cons_nth _ _ _ _ Es) as [Hn Hk].
    simpl. rewrite Hn, Hp. rewrite <- Hk in Hf.
    rewrite (IH rows' (S a) _ Hf Hrest), <- List.app_assoc. reflexivity.
Qed.

(** The loop up to the first prompt that cannot. *)
Lemma write_prompts_stop self dataset good bad e : forall rows n a writer,
  firstn (length good + 1) (skipn a dataset) = good ++ [bad] ->
  Forall2 (fun p ids => make_prompt_ids self p = inr ids) good rows ->
  make_prompt_ids self bad = inl e ->
  length good + 1 <= n ->
  write_prompts self dataset (seq a n) writer
    = (inl e, writer ++ map WriteRawData rows).
Proof.
  induction good as [|p ps IH]; intros rows n a writer Hf Hok Hbad Hn.
  - inversion Hok. simpl in Hf.
    destruct (skipn a dataset) as [|q t] eqn:Es; [discriminate|].
    injection Hf as ->.
    destruct (skipn_cons_nth _ _ _ _ Es) as [Hnth _].
    destruct n as [|n]; [simpl in Hn; lia|].
    simpl. rewrite Hnth, Hbad, app_nil_r. reflexivity.
  - inversion Hok as [|? ids ? rows' Hp Hrest]; subst.
    simpl in Hf. destruct (skipn a dataset) as [|q t] eqn:Es; [discriminate|].
    injection Hf as -> Hf.
    destruct (skipn_cons_nth _ _ _ _ Es) as [Hnth Hk].
    destruct n as [|n]; [simpl in Hn; lia|].
    simpl. rewrite Hnth, Hp. rewrite <- Hk in Hf.
    rewrite (IH rows' n (S a) _ Hf Hrest Hbad) by (simpl in Hn; lia).
    rewrite <- List.app_assoc. reflexivity.
Qed.

(** X17. [make] on a dataset whose first [k] prompts can all be turned
    into ids, where [k] is the number asked for when that is positive
    and not more than the dataset holds, and the size of the dataset
    otherwise: the writer receives the schema, then one row for each of
    these [k] prompts in their order, then the commit.  No index leaves
    the dataset. *)
Theorem X17_make_writes_the_first_prompts (self : maker) (dataset : list prompt)
    (num_of_prompts : Z) (rows : list (list Z)) :
  let k := Z.to_nat (if (num_of_prompts >? 0)%Z
                     then Z.min num_of_prompts (len dataset) else len dataset) in
  Forall2 (fun p ids => make_prompt_ids self p = inr ids) (firstn k dataset) rows ->
  make self (inr dataset) num_of_prompts
    = (inr tt, [AddSchema] ++ map WriteRawData rows ++ [Commit])
  /\ length rows = k /\ k <= length dataset.
Proof.
  intros k Hok.
  assert (Hk : k <= length dataset).
  { unfold k, len. destruct (num_of_prompts >? 0)%Z; lia. }
  assert (Hlen : length (firstn k dataset) = k) by (rewrite length_firstn; lia).
  split; [|split; [|exact Hk]].
  - unfold make. fold k.
    rewrite <- Hlen at 1.
    rewrite (write_prompts_all self dataset (firstn k dataset) rows 0 [AddSchema]).
    + now rewrite <- List.app_assoc.
    + simpl. now rewrite Hlen.
    + exact Hok.
  - rewrite <- (Forall2_length _ _ _ Hok). exact Hlen.
Qed.

(** X18. [make] stops at the first prompt that cannot be turned into
    ids: the error of that prompt leaves [make], the rows of the prompts
    before it have been handed to the writer, and the writer is not
    committed. *)
Theorem X18_make_stops_without_commit (self : maker) (dataset : list prompt)
    (num_of_prompts : Z) (good : list prompt) (bad : prompt) (rest : list prompt)
    (rows : list (list Z)) (e : exn) :
  let k := Z.to_nat (if (num_of_prompts >? 0)%Z
                     then Z.min num_of_prompts (len dataset) else len dataset) in
  firstn k dataset = good ++ bad :: rest ->
  Forall2 (fun p ids => make_prompt_ids self p = inr ids) good rows ->
  make_prompt_ids self bad = inl e ->
  make self (inr dataset) num_of_prompts
    = (inl e, [AddSchema] ++ map WriteRawData rows).
Proof.
  intros k Hsplit Hok Hbad.
  assert (Hk : length good + 1 <= k).
  { apply (f_equal (@length _)) in Hsplit.
    rewrite length_firstn, length_app in Hsplit. simpl in Hsplit. lia. }
  assert (Hf : firstn (length good + 1) (skipn 0 dataset) = good ++ [bad]).
  { change (skipn 0 dataset) with dataset.
    assert (Hcut : firstn (length good + 1) dataset
                   = firstn (length good + 1) (firstn k dataset)).
    { rewrite firstn_firstn. f_equal. lia. }
    rewrite Hcut, Hsplit, firstn_app, firstn_all2 by lia.
    replace (length good + 1 - length good) with 1 by lia. reflexivity. }
  unfold make. fold k.
  now rewrite (write_prompts_stop self dataset good bad e rows k 0 [AddSchema] Hf Hok Hbad Hk).
Qed.

End Alpaca.

Lemma X14_witness :
  @AlpacaDatasetMaker.make_prompt_ids Bloom.env Bloom.api Bloom.maker8 Bloom.hello
    = inr Bloom.below_is.
Proof.
  assert (Hs : (0 <= AlpacaDatasetMaker.seq_length Bloom.maker8)%Z)
    by (vm_compute; discriminate).
  assert (Ht : @AlpacaDatasetMaker.prompt_text Bloom.env Bloom.maker8 Bloom.hello
               = inr Bloom.hello_text)
    by (vm_compute; reflexivity).
  exact (proj1 (@X14_prompt_ids_fill_the_sequence Bloom.env Bloom.api Bloom.maker8
                  Bloom.hello Bloom.hello_text Hs Ht)).
Defined.

Lemma X15_witness :
  @AlpacaDatasetMaker.make_prompt_ids Bloom.env Bloom.api Bloom.cutter Bloom.hello
    = inr [72; 105]%Z.
Proof.
  assert (Hs : (AlpacaDatasetMaker.seq_length Bloom.cutter < 0)%Z)
    by (vm_compute; reflexivity).
  assert (Ht : @AlpacaDatasetMaker.prompt_text Bloom.env Bloom.cutter Bloom.hello
               = inr "Hi Yo")
    by (vm_compute; reflexivity).
  exact (@X15_negative_length_only_cuts Bloom.env Bloom.api Bloom.cutter
           Bloom.hello "Hi Yo" Hs Ht).
Defined.

Lemma X16_witness :
  @AlpacaDatasetMaker.make_prompt_ids Bloom.env Bloom.api Bloom.maker8 Bloom.broken
    = inl (Raise KeyError (Runtime "output"))
  /\ exists prompt_ids,
       @AlpacaDatasetMaker.make_prompt_ids Bloom.env Bloom.api Bloom.maker8 Bloom.translate
         = inr prompt_ids.
Proof.
  assert (Hinit : @AlpacaDatasetMaker.__init__ Bloom.env Bloom.api "alpaca_data.json"
                    "dataset.mindrecord" 8 Bloom.w5
                  = (inr Bloom.maker8,
                     snd (@AlpacaDatasetMaker.__init__ Bloom.env Bloom.api
                            "alpaca_data.json" "dataset.mindrecord" 8 Bloom.w5)))
    by (vm_compute; reflexivity).
  split.
  - exact (proj1 (proj2 (@X16_prompt_needs_instruction_and_output Bloom.env Bloom.api
                           _ _ _ _ _ _ Bloom.broken Hinit)) eq_refl eq_refl).
  - exact (proj2 (proj2 (@X16_prompt_needs_instruction_and_output Bloom.env Bloom.api
                           _ _ _ _ _ _ Bloom.translate Hinit)) eq_refl eq_refl).
Defined.

Lemma X17_witness :
  @AlpacaDatasetMaker.make Bloom.env Bloom.api Bloom.maker8
    (inr [Bloom.hello; Bloom.translate; Bloom.broken]) 2
  = (inr tt, [AddSchema; WriteRawData Bloom.below_is; WriteRawData Bloom.below_is; Commit]).
Proof.
  assert (H1 : @AlpacaDatasetMaker.make_prompt_ids Bloom.env Bloom.api Bloom.maker8
                 Bloom.hello = inr Bloom.below_is) by (vm_compute; reflexivity).
  assert (H2 : @AlpacaDatasetMaker.make_prompt_ids Bloom.env Bloom.api Bloom.maker8
                 Bloom.translate = inr Bloom.below_is) by (vm_compute; reflexivity).
  assert (Hrows : Forall2
            (fun p ids => @AlpacaDatasetMaker.make_prompt_ids Bloom.env Bloom.api
                            Bloom.maker8 p = inr ids)
            [Bloom.hello; Bloom.translate] [Bloom.below_is; Bloom.below_is])
    by (constructor; [exact H1|constructor; [exact H2|constructor]]).
  exact (proj1 (@X17_make_writes_the_first_prompts Bloom.env Bloom.api Bloom.maker8
                  [Bloom.hello; Bloom.translate; Bloom.broken] 2
                  [Bloom.below_is; Bloom.below_is]
                  Hrows)).
Defined.

Lemma X18_witness :
  @AlpacaDatasetMaker.make Bloom.env Bloom.api Bloom.maker8
    (inr [Bloom.hello; Bloom.translate; Bloom.broken]) (-1)
  = (inl (Raise KeyError (Runtime "output")),
     [AddSchema; WriteRawData Bloom.below_is; WriteRawData Bloom.below_is]).
Proof.
  assert (H1 : @AlpacaDatasetMaker.make_prompt_ids Bloom.env Bloom.api Bloom.maker8
                 Bloom.hello = inr Bloom.below_is) by (vm_compute; reflexivity).
  assert (H2 : @AlpacaDatasetMaker.make_prompt_ids Bloom.env Bloom.api Bloom.maker8
                 Bloom.translate = inr Bloom.below_is) by (vm_compute; reflexivity).
  assert (H3 : @AlpacaDatasetMaker.make_prompt_ids Bloom.env Bloom.api Bloom.maker8
                 Bloom.broken = inl (Raise KeyError (Runtime "output")))
    by (vm_compute; reflexivity).
  assert (Hrows : Forall2
            (fun p ids => @AlpacaDatasetMaker.make_prompt_ids Bloom.env Bloom.api
                            Bloom.maker8 p = inr ids)
            [Bloom.hello; Bloom.translate] [Bloom.below_is; Bloom.below_is])
    by (constructor; [exact H1|constructor; [exact H2|constructor]]).
  exact (@X18_make_stops_without_commit Bloom.env Bloom.api Bloom.maker8
           [Bloom.hello; Bloom.translate; Bloom.broken] (-1)
           [Bloom.hello; Bloom.translate] Bloom.broken []
           [Bloom.below_is; Bloom.below_is] (Raise KeyError (Runtime "output"))
           eq_refl
           Hrows
           H3).
Defined.

(* ===================================================================== *)
(** * Properties of keyword_gen_dataset.py *)
(* ===================================================================== *)

Module NpFacts.
Import Np.

Lemma argwhere_from_In i x a c :
  In c (argwhere_from i x a) <-> exists k, c = i + k /\ nth_error a k = Some x.
Proof.
  revert i. induction a as [|y a IH]; intros i; simpl.
  - split; [intros []|]. intros (k & _ & Hk). destruct k; discriminate.
  - destruct (Z.eqb_spec y x) as [->|Hne].
    + simpl. rewrite IH. split.
      * intros [<-|(k & -> & Hk)].
        -- exists 0. split; [lia|reflexivity].
        -- exists (S k). split; [lia|exact Hk].
      * intros (k & -> & Hk). destruct k as [|k].
        -- left. lia.
        -- right. exists k. split; [lia|exact Hk].
    + rewrite IH. split.
      * intros (k & -> & Hk). exists (S k). split; [lia|exact Hk].
      * intros (k & -> & Hk). destruct k as [|k].
        -- simpl in Hk. congruence.
        -- exists k. split; [lia|exact Hk].
Qed.

(** The positions [argwhere_eq] reports are those that hold the value. *)
Lemma argwhere_eq_In x a c : In c (argwhere_eq x a) <-> nth_error a c = Some x.
Proof.
  unfold argwhere_eq. rewrite argwhere_from_In. split.
  - intros (k & -> & Hk). exact Hk.
  - intros Hc. exists c. auto.
Qed.

Lemma argwhere_from_length i x a :
  length (argwhere_from i x a) = count_occ Z.eq_dec a x.
Proof.
  revert i. induction a as [|y a IH]; intros i; simpl; [reflexivity|].
  destruct (Z.eqb_spec y x) as [->|Hne].
  - destruct (Z.eq_dec x x); [|congruence]. simpl. now rewrite IH.
  - destruct (Z.eq_dec y x); [congruence|]. apply IH.
Qed.

Lemma arange_length n : length (arange n) = n.
Proof. unfold arange. now rewrite length_map, length_seq. Qed.

Lemma firstn_seq_le c : forall a n, c <= n -> firstn c (seq a n) = seq a c.
Proof.
  induction c as [|c IH]; intros a n Hc; [reflexivity|].
  destruct n as [|n]; [lia|]. simpl. f_equal. apply IH. lia.
Qed.

Lemma firstn_arange c n : c <= n -> firstn c (arange n) = arange c.
Proof.
  intros Hc. unfold arange. now rewrite firstn_map, firstn_seq_le.
Qed.

Lemma nth_map_lt {A B : Type} (f : A -> B) l i d d' :
  i < length l -> nth i (map f l) d' = f (nth i l d).
Proof.
  intros Hi. rewrite (nth_indep _ d' (f d)) by (rewrite length_map; exact Hi).
  apply map_nth.
Qed.

Lemma nth_map_seq {A : Type} (f : nat -> A) n i d :
  i < n -> nth i (map f (seq 0 n)) d = f i.
Proof.
  intros Hi. rewrite (nth_map_lt f _ i 0) by (rewrite length_seq; exact Hi).
  now rewrite seq_nth by exact Hi.
Qed.

Lemma nth_skipn_add {A : Type} (d : A) c : forall r k,
  nth k (skipn c r) d = nth (c + k) r d.
Proof.
  induction c as [|c IH]; intros r k; [reflexivity|].
  destruct r as [|y r].
  - destruct k; reflexivity.
  - apply IH.
Qed.

Lemma tril_ones_length n : length (tril_ones n) = n.
Proof. unfold tril_ones. now rewrite length_map, length_seq. Qed.

Lemma tril_ones_row n i :
  i < n ->
  nth i (tril_ones n) []
  = map (fun j => if (j <=? i)%nat then 1%Z else 0%Z) (seq 0 n).
Proof. intros Hi. unfold tril_ones. now rewrite nth_map_seq. Qed.

(** One assignment [m[:, :c] = 1], seen in one row. *)
Lemma assign_row_length c (r : list Z) :
  length (repeat 1%Z (Nat.min c (length r)) ++ skipn c r) = length r.
Proof. rewrite length_app, repeat_length, length_skipn. lia. Qed.

Lemma assign_row_nth c (r : list Z) j :
  j < length r ->
  nth j (repeat 1%Z (Nat.min c (length r)) ++ skipn c r) 0%Z
  = if (j <? c)%nat then 1%Z else nth j r 0%Z.
Proof.
  intros Hj. destruct (Nat.ltb_spec j c) as [Hlt|Hge].
  - rewrite app_nth1 by (rewrite repeat_length; lia).
    rewrite (nth_indep _ 0%Z 1%Z) by (rewrite repeat_length; lia).
    apply nth_repeat.
  - rewrite app_nth2 by (rewrite repeat_length; lia).
    rewrite repeat_length, nth_skipn_add. f_equal. lia.
Qed.

Lemma assign_columns_fold cs : forall m,
  fold_left (fun m c => assign_columns_before c 1 m) cs m
  = map (fun row =>
           fold_left (fun r c => repeat 1%Z (Nat.min c (length r)) ++ skipn c r) cs row)
      m.
Proof.
  induction cs as [|c cs IH]; intros m; simpl.
  - now rewrite map_id.
  - rewrite IH. unfold assign_columns_before. now rewrite map_map.
Qed.

Lemma row_fold_nth cs : forall (r : list Z) j,
  j < length r ->
  length (fold_left (fun r c => repeat 1%Z (Nat.min c (length r)) ++ skipn c r) cs r)
    = length r
  /\ nth j (fold_left (fun r c => repeat 1%Z (Nat.min c (length r)) ++ skipn c r) cs r)
       0%Z
     = if existsb (fun c => (j <? c)%nat) cs then 1%Z else nth j r 0%Z.
Proof.
  induction cs as [|c cs IH]; intros r j Hj; simpl; [auto|].
  destruct (IH (repeat 1%Z (Nat.min c (length r)) ++ skipn c r) j) as [Hl Hn];
    [rewrite assign_row_length; exact Hj|].
  rewrite Hl, Hn, assign_row_length, assign_row_nth by exact Hj.
  split; [reflexivity|].
  destruct (j <? c)%nat, (existsb (fun c0 => (j <? c0)%nat) cs); reflexivity.
Qed.

Lemma existsb_after j cs :
  existsb (fun c => (j <? c)%nat) cs = negb (forallb (fun c => (c <=? j)%nat) cs).
Proof.
  induction cs as [|c cs IH]; simpl; [reflexivity|].
  rewrite IH, negb_andb, Nat.ltb_antisym. reflexivity.
Qed.

End NpFacts.

Section KeyWordGen.
Import Np NpFacts KeyWordGenDataset.

(** The mask as a function of the two positions. *)
Lemma get_masks_nth input_ids bos i j :
  i < length input_ids -> j < length input_ids ->
  exists attention_mask,
    get_masks input_ids bos = [attention_mask]
    /\ length attention_mask = length input_ids
    /\ length (nth i attention_mask []) = length input_ids
    /\ nth j (nth i attention_mask []) 0%Z
       = if (i <? j)%nat && forallb (fun c => (c <=? j)%nat) (argwhere_eq bos input_ids)
         then 1%Z else 0%Z.
Proof.
  intros Hi Hj. unfold get_masks. eexists. split; [reflexivity|].
  set (n := length input_ids) in *. set (cs := argwhere_eq bos input_ids).
  rewrite assign_columns_fold. unfold logical_not.
  set (g := fun x : Z => if (x =? 0)%Z then 1%Z else 0%Z).
  set (rowfold := fun row : list Z =>
         fold_left (fun r c => repeat 1%Z (Nat.min c (length r)) ++ skipn c r) cs row).
  assert (Hrow : length (nth i (tril_ones n) []) = n).
  { rewrite tril_ones_row by exact Hi. now rewrite length_map, length_seq. }
  assert (Hlen : length (map rowfold (tril_ones n)) = n).
  { now rewrite length_map, tril_ones_length. }
  split; [now rewrite length_map|].
  rewrite (nth_map_lt (map g) _ i []) by (rewrite Hlen; exact Hi).
  rewrite (nth_map_lt rowfold _ i []) by (rewrite tril_ones_length; exact Hi).
  destruct (row_fold_nth cs (nth i (tril_ones n) []) j) as [Hl Hn];
    [rewrite Hrow; exact Hj|].
  subst rowfold. cbv beta.
  split; [now rewrite length_map, Hl|].
  rewrite (nth_map_lt g _ j 0%Z) by (rewrite Hl, Hrow; exact Hj).
  rewrite Hn, tril_ones_row, nth_map_seq, existsb_after by assumption.
  rewrite Nat.ltb_antisym. unfold g.
  destruct (forallb _ cs), (j <=? i)%nat; reflexivity.
Qed.

(** X19. The attention mask of [get_masks] is one square matrix over the
    positions of [input_ids] with entries 0 and 1.  Position [j] is
    hidden from position [i] (entry 1) exactly when [j] comes after [i]
    and no [bos_token_id] stands after [j]: everything before the last
    [bos_token_id] is visible from everywhere, and what follows is
    visible only from later positions. *)
Theorem X19_mask_hides_only_what_follows (input_ids : list Z) (bos_token_id : Z)
    (i j : nat) :
  i < length input_ids -> j < length input_ids ->
  exists attention_mask,
    get_masks input_ids bos_token_id = [attention_mask]
    /\ length attention_mask = length input_ids
    /\ length (nth i attention_mask []) = length input_ids
    /\ (nth j (nth i attention_mask []) 0%Z = 1%Z
        \/ nth j (nth i attention_mask []) 0%Z = 0%Z)
    /\ (nth j (nth i attention_mask []) 0%Z = 1%Z <->
        i < j /\ forall c, nth_error input_ids c = Some bos_token_id -> c <= j).
Proof.
  intros Hi Hj.
  destruct (get_masks_nth input_ids bos_token_id i j Hi Hj) as (m & Hm & Hl & Hr & Hn).
  exists m. split; [exact Hm|]. split; [exact Hl|]. split; [exact Hr|].
  rewrite Hn. split.
  - destruct (_ && _); auto.
  - split.
    + intros Hone. destruct (Nat.ltb_spec i j) as [Hlt|Hge]; [|discriminate].
      split; [exact Hlt|]. simpl in Hone.
      destruct (forallb _ _) eqn:E; [|discriminate].
      rewrite forallb_forall in E. intros c Hc.
      apply Nat.leb_le, E, argwhere_eq_In, Hc.
    + intros [Hlt Hall].
      rewrite (proj2 (Nat.ltb_lt _ _) Hlt). simpl.
      replace (forallb _ _) with true; [reflexivity|].
      symmetry. apply forallb_forall. intros c Hc.
      apply Nat.leb_le, Hall, argwhere_eq_In, Hc.
Qed.

(** The loop over the [bos_token_id] positions runs out of mask positions
    exactly when there are fewer of them. *)
Lemma assign_mask_positions_spec cs : forall i mp p,
  i <= length mp ->
  (i + length cs <= length mp ->
   exists p', assign_mask_positions cs i mp p = inr p')
  /\ (length mp < i + length cs ->
      assign_mask_positions cs i mp p
      = inl (Raise IndexError (Runtime "index is out of bounds"))).
Proof.
  induction cs as [|c cs IH]; intros i mp p Hi; simpl.
  - split; [eauto|lia].
  - destruct (nth_error mp i) as [m|] eqn:E.
    + assert (Hlt : i < length mp) by (apply nth_error_Some; congruence).
      destruct (IH (S i) mp (assign_from c m p) Hlt) as [Hok Hbad].
      split; intros Hc; [apply Hok|apply Hbad]; lia.
    + apply nth_error_None in E. split; [lia|reflexivity].
Qed.

(** [create_position_ids] in closed form. *)
Lemma create_position_ids_eq (input_ids : list Z) (gmask_token_id : Z) :
  gmask_token_id <> default_bos_token_id ->
  create_position_ids input_ids gmask_token_id =
    match argwhere_eq default_bos_token_id input_ids,
          argwhere_eq gmask_token_id input_ids with
    | [], _ => inl (Raise ValueError (Runtime "need at least one array to stack"))
    | [c], g :: _ =>
        inr (Matrix
               [arange c ++ repeat (Z.of_nat g) (length input_ids - c);
                repeat 0%Z c
                ++ map (fun x => (x + 1)%Z) (arange (length input_ids - c))])
    | bs, gs =>
        if (length gs <? length bs)%nat
        then inl (Raise IndexError (Runtime "index is out of bounds"))
        else inl (Raise ValueError (Runtime "all input arrays must have the same shape"))
    end.
Proof.
  intros Hne. unfold create_position_ids, get_position_ids.
  set (n := length input_ids).
  destruct (argwhere_eq default_bos_token_id input_ids) as [|c [|c' bs]] eqn:Ebs.
  - reflexivity.
  - destruct (argwhere_eq gmask_token_id input_ids) as [|g gs] eqn:Egs.
    + reflexivity.
    + assert (Hc : nth_error input_ids c = Some default_bos_token_id).
      { apply argwhere_eq_In. rewrite Ebs. now left. }
      assert (Hg : nth_error input_ids g = Some gmask_token_id).
      { apply argwhere_eq_In. rewrite Egs. now left. }
      assert (Hcn : c < n) by (apply nth_error_Some; congruence).
      assert (Hgn : g < n) by (apply nth_error_Some; congruence).
      assert (Hcg : c <> g) by (intros ->; congruence).
      cbn [assign_mask_positions map nth_error].
      assert (Hblock : length (repeat 0%Z c
                                 ++ map (fun x => (x + 1)%Z) (arange (n - c))) = n).
      { rewrite length_app, repeat_length, length_map, arange_length. lia. }
      rewrite Hblock.
      destruct (Nat.eqb_spec n 1) as [Hn1|_]; [lia|].
      unfold assign_from. rewrite firstn_arange, arange_length by lia. reflexivity.
  - set (cs := c :: c' :: bs) in *.
    set (mp := map Z.of_nat (argwhere_eq gmask_token_id input_ids)).
    destruct (assign_mask_positions_spec cs 0 mp (arange n) (Nat.le_0_l _))
      as [Hok Hbad].
    assert (Hmp : length mp = length (argwhere_eq gmask_token_id input_ids))
      by (unfold mp; apply length_map).
    destruct (Nat.ltb_spec (length (argwhere_eq gmask_token_id input_ids)) (length cs))
      as [Hlt|Hge].
    + rewrite Hbad by lia.
      destruct (argwhere_eq gmask_token_id input_ids); reflexivity.
    + destruct Hok as [p' ->]; [lia|].
      destruct (argwhere_eq gmask_token_id input_ids); reflexivity.
Qed.

(** X20. [create_position_ids] returns exactly when [input_ids] holds the
    id 130004 once and the gMASK id at least once.  It then returns two
    rows: the positions up to 130004 followed by the position of the
    first gMASK for the rest, and zeros up to 130004 followed by
    1, 2, ....  Without 130004 the stacking fails; with fewer gMASK ids
    than 130004 ids the index fails; with several 130004 ids the shapes
    do not fit. *)
Theorem X20_position_ids_need_one_bos (input_ids : list Z) (gmask_token_id : Z) :
  gmask_token_id <> default_bos_token_id ->
  create_position_ids input_ids gmask_token_id =
    match Np.argwhere_eq default_bos_token_id input_ids,
          Np.argwhere_eq gmask_token_id input_ids with
    | [], _ => inl (Raise ValueError (Runtime "need at least one array to stack"))
    | [c], g :: _ =>
        inr (Matrix
               [Np.arange c ++ repeat (Z.of_nat g) (length input_ids - c);
                repeat 0%Z c
                ++ map (fun x => (x + 1)%Z) (Np.arange (length input_ids - c))])
    | bs, gs =>
        if (length gs <? length bs)%nat
        then inl (Raise IndexError (Runtime "index is out of bounds"))
        else inl (Raise ValueError (Runtime "all input arrays must have the same shape"))
    end.
Proof. exact (create_position_ids_eq input_ids gmask_token_id). Qed.

Lemma py_index_In x l k : py_index x l = Some k -> k < length l /\ In x l.
Proof.
  revert k. induction l as [|y l IH]; intros k; simpl; [discriminate|].
  destruct (Z.eqb_spec y x) as [->|Hne].
  - intros [= <-]. split; [lia|now left].
  - destruct (py_index x l) as [k'|]; [|discriminate].
    intros [= <-]. destruct (IH k' eq_refl). split; [lia|now right].
Qed.

(** What a call of [train_dataset_function] that returns went through. *)
Lemma train_dataset_function_inv (c : cls) (prompt answer : text)
    input_ids label position_ids attention_mask :
  train_dataset_function c prompt answer
    = inr (input_ids, label, position_ids, attention_mask) ->
  exists built k,
    py_index (bos_token_id (tokenizer c)) built = Some k
    /\ input_ids
       = built ++ py_repeat (pad_token_id (tokenizer c)) (max_seq_length c - len built)
    /\ (let label0 :=
          (py_repeat (-100)%Z (Z.of_nat k) ++ py_drop (Z.of_nat k - 1 + 2) built)
          ++ py_repeat (pad_token_id (tokenizer c)) (max_seq_length c - len built + 1) in
        label = if ignore_pad_token_for_loss c
                then map (fun l => if negb (Z.eqb l (pad_token_id (tokenizer c)))
                                   then l else (-100)%Z) label0
                else label0)
    /\ create_position_ids input_ids default_gmask_token_id = inr position_ids
    /\ attention_mask = get_masks input_ids default_bos_token_id.
Proof.
  unfold train_dataset_function.
  set (built := build_inputs_with_special_tokens (tokenizer c) _ _).
  destruct (py_index (bos_token_id (tokenizer c)) built) as [k|] eqn:Ek; [|discriminate].
  cbv zeta.
  destruct (create_position_ids _ default_gmask_token_id) as [e|pos] eqn:Ep;
    [discriminate|].
  intros [= <- <- <- <-]. exists built, k. repeat split; auto.
Qed.

(** X21. [train_dataset_function] returns a sample only when the padded
    [input_ids] hold the id 130004 exactly once and the id 130001 at
    least once, whatever the [bos_token_id] of the tokenizer is: the
    position ids and the mask are made with the default ids of their
    keyword arguments.  The [bos_token_id] of the tokenizer is there as
    well. *)
Theorem X21_train_needs_the_default_ids (c : cls) (prompt answer : text)
    (input_ids label : list Z) (position_ids : ndarray)
    (attention_mask : list (list (list Z))) :
  train_dataset_function c prompt answer
    = inr (input_ids, label, position_ids, attention_mask) ->
  count_occ Z.eq_dec input_ids default_bos_token_id = 1
  /\ In default_gmask_token_id input_ids
  /\ In (bos_token_id (tokenizer c)) input_ids
  /\ attention_mask = get_masks input_ids default_bos_token_id.
Proof.
  intros Hrun.
  destruct (train_dataset_function_inv _ _ _ _ _ _ _ Hrun)
    as (built & k & Hk & Hin & _ & Hpos & Hmask).
  rewrite create_position_ids_eq in Hpos by discriminate.
  destruct (argwhere_eq default_bos_token_id input_ids) as [|b [|b' bs]] eqn:Ebs;
    [discriminate| |destruct (_ <? _)%nat; discriminate].
  destruct (argwhere_eq default_gmask_token_id input_ids) as [|g gs] eqn:Egs;
    [discriminate|].
  repeat split.
  - unfold argwhere_eq in Ebs.
    now rewrite <- (argwhere_from_length 0), Ebs.
  - assert (Hg : nth_error input_ids g = Some default_gmask_token_id).
    { apply argwhere_eq_In. rewrite Egs. now left. }
    eapply nth_error_In, Hg.
  - rewrite Hin. apply in_or_app. left. eapply py_index_In, Hk.
  - exact Hmask.
Qed.

(** X22. On a sample that [train_dataset_function] returns, [input_ids]
    and [label] both have the length [max_seq_length] when the sequence
    the tokenizer built fits into it; otherwise nothing is cut,
    [input_ids] is longer than [max_seq_length] and [label] is one
    shorter than [input_ids].  With [ignore_pad_token_for_loss] no label
    equals the padding id (unless that is -100 itself). *)
Theorem X22_train_lengths_and_labels (c : cls) (prompt answer : text)
    (input_ids label : list Z) (position_ids : ndarray)
    (attention_mask : list (list (list Z))) :
  train_dataset_function c prompt answer
    = inr (input_ids, label, position_ids, attention_mask) ->
  ((len input_ids = max_seq_length c /\ len label = max_seq_length c)
   \/ (max_seq_length c < len input_ids /\ len label = len input_ids - 1))%Z
  /\ (ignore_pad_token_for_loss c = true ->
      pad_token_id (tokenizer c) <> (-100)%Z ->
      ~ In (pad_token_id (tokenizer c)) label).
Proof.
  intros Hrun.
  destruct (train_dataset_function_inv _ _ _ _ _ _ _ Hrun)
    as (built & k & Hk & Hin & Hlabel & _ & _).
  destruct (py_index_In _ _ _ Hk) as [Hkl _].
  cbv zeta in Hlabel. split.
  - assert (Hlen : length label
                   = k + (length built - (k + 1))
                     + Z.to_nat (max_seq_length c - len built + 1)).
    { rewrite Hlabel. unfold py_repeat, py_drop, len.
      rewrite (proj2 (Z.leb_le 0 (Z.of_nat k - 1 + 2))) by lia.
      destruct (ignore_pad_token_for_loss c);
        rewrite ?length_map, !length_app, !repeat_length, length_skipn; lia. }
    assert (Hlen' : length input_ids
                    = length built + Z.to_nat (max_seq_length c - len built)).
    { rewrite Hin. unfold py_repeat. now rewrite length_app, repeat_length. }
    unfold len in *. lia.
  - intros Hig Hpad Hmem. rewrite Hlabel, Hig in Hmem.
    apply in_map_iff in Hmem as (l & Hl & _).
    destruct (Z.eqb_spec l (pad_token_id (tokenizer c))); simpl in Hl; congruence.
Qed.

(** The cut [if len(l) > n: l = l[:n]] keeps the first [n] elements. *)
Lemma cut_firstn {A : Type} (n : Z) (l : list A) :
  (0 <= n)%Z ->
  (if (len l >? n)%Z then py_take n l else l) = firstn (Z.to_nat n) l.
Proof.
  intros Hn. unfold len, py_take. rewrite Z.gtb_ltb.
  destruct (Z.ltb_spec n (Z.of_nat (length l))) as [Hlt|Hge].
  - now rewrite (proj2 (Z.leb_le 0 n) Hn).
  - rewrite firstn_all2 by lia. reflexivity.
Qed.

(** X23. [eval_dataset_function] cuts the two texts by characters, to
    the first [max_source_length - 2] and [max_target_length - 2] of
    them, and does not cut ids: [input_ids] are the ids of the cut
    prompt filled up with the padding id to [max_source_length], and
    longer than that when the tokenizer gives more ids; [label] are the
    ids of the cut answer, with no padding. *)
Theorem X23_eval_cuts_characters_and_pads_ids (c : cls) (prompt answer : text) :
  (2 <= max_source_length c)%Z -> (2 <= max_target_length c)%Z ->
  let prompt' := firstn (Z.to_nat (max_source_length c - 2)) prompt in
  let answer' := firstn (Z.to_nat (max_target_length c - 2)) answer in
  eval_dataset_function c prompt answer
  = (encode (tokenizer c) prompt' true
     ++ repeat (pad_token_id (tokenizer c))
          (Z.to_nat (max_source_length c)
           - length (encode (tokenizer c) prompt' true)),
     encode (tokenizer c) answer' true)
  /\ (max_source_length c <= len (fst (eval_dataset_function c prompt answer)))%Z.
Proof.
  intros Hs Ht prompt' answer'.
  assert (Heq : eval_dataset_function c prompt answer
                = (encode (tokenizer c) prompt' true
                   ++ repeat (pad_token_id (tokenizer c))
                        (Z.to_nat (max_source_length c)
                         - length (encode (tokenizer c) prompt' true)),
                   encode (tokenizer c) answer' true)).
  { unfold eval_dataset_function.
    rewrite !cut_firstn by lia. fold prompt' answer'. cbv zeta.
    f_equal. f_equal. unfold py_repeat, len. f_equal. lia. }
  split; [exact Heq|].
  rewrite Heq. simpl fst. unfold len. rewrite length_app, repeat_length. lia.
Qed.

End KeyWordGen.

Lemma X19_witness :
  exists attention_mask,
    KeyWordGenDataset.get_masks [5; 130004; 7]%Z 130004 = [attention_mask]
    /\ length attention_mask = 3
    /\ length (nth 0 attention_mask []) = 3
    /\ (nth 2 (nth 0 attention_mask []) 0%Z = 1%Z
        \/ nth 2 (nth 0 attention_mask []) 0%Z = 0%Z)
    /\ (nth 2 (nth 0 attention_mask []) 0%Z = 1%Z <->
        0 < 2 /\ forall c, nth_error [5; 130004; 7]%Z c = Some 130004%Z -> c <= 2).
Proof.
  apply (X19_mask_hides_only_what_follows [5; 130004; 7]%Z 130004 0 2); simpl; lia.
Defined.

Lemma X20_witness :
  KeyWordGenDataset.create_position_ids [72; 105; 130001; 130004; 89]%Z
    KeyWordGenDataset.default_gmask_token_id
  = inr (Matrix [[0; 1; 2; 2; 2]%Z; [0; 0; 0; 1; 2]%Z]).
Proof.
  assert (Hne : KeyWordGenDataset.default_gmask_token_id
                <> KeyWordGenDataset.default_bos_token_id) by discriminate.
  exact (X20_position_ids_need_one_bos [72; 105; 130001; 130004; 89]%Z
           KeyWordGenDataset.default_gmask_token_id Hne).
Defined.

Lemma X21_witness :
  count_occ Z.eq_dec Glm.input_ids KeyWordGenDataset.default_bos_token_id = 1
  /\ In KeyWordGenDataset.default_gmask_token_id Glm.input_ids
  /\ In (KeyWordGenDataset.bos_token_id (KeyWordGenDataset.tokenizer Glm.c8))
       Glm.input_ids
  /\ KeyWordGenDataset.get_masks Glm.input_ids KeyWordGenDataset.default_bos_token_id
     = KeyWordGenDataset.get_masks Glm.input_ids KeyWordGenDataset.default_bos_token_id.
Proof.
  assert (Hrun : KeyWordGenDataset.train_dataset_function Glm.c8 Glm.hi Glm.yo
                 = inr (Glm.input_ids, Glm.label, Glm.position_ids,
                        KeyWordGenDataset.get_masks Glm.input_ids
                          KeyWordGenDataset.default_bos_token_id))
    by (vm_compute; reflexivity).
  exact (X21_train_needs_the_default_ids Glm.c8 Glm.hi Glm.yo _ _ _ _ Hrun).
Defined.

Lemma X22_witness :
  ((len Glm.input_ids = KeyWordGenDataset.max_seq_length Glm.c8
    /\ len Glm.label = KeyWordGenDataset.max_seq_length Glm.c8)
   \/ (KeyWordGenDataset.max_seq_length Glm.c8 < len Glm.input_ids
       /\ len Glm.label = len Glm.input_ids - 1))%Z
  /\ (KeyWordGenDataset.ignore_pad_token_for_loss Glm.c8 = true ->
      KeyWordGenDataset.pad_token_id (KeyWordGenDataset.tokenizer Glm.c8) <> (-100)%Z ->
      ~ In (KeyWordGenDataset.pad_token_id (KeyWordGenDataset.tokenizer Glm.c8))
          Glm.label).
Proof.
  assert (Hrun : KeyWordGenDataset.train_dataset_function Glm.c8 Glm.hi Glm.yo
                 = inr (Glm.input_ids, Glm.label, Glm.position_ids,
                        KeyWordGenDataset.get_masks Glm.input_ids
                          KeyWordGenDataset.default_bos_token_id))
    by (vm_compute; reflexivity).
  exact (X22_train_lengths_and_labels Glm.c8 Glm.hi Glm.yo _ _ _ _ Hrun).
Defined.

Lemma X23_witness :
  KeyWordGenDataset.eval_dataset_function Glm.c8 Glm.hello Glm.yo
  = ([72; 101; 130001; 130004]%Z, [89; 111; 130001; 130004]%Z)
  /\ (4 <= len (fst (KeyWordGenDataset.eval_dataset_function Glm.c8 Glm.hello Glm.yo)))%Z.
Proof.
  assert (Hs : (2 <= KeyWordGenDataset.max_source_length Glm.c8)%Z)
    by (vm_compute; discriminate).
  assert (Ht : (2 <= KeyWordGenDataset.max_target_length Glm.c8)%Z)
    by (vm_compute; discriminate).
  exact (X23_eval_cuts_characters_and_pads_ids Glm.c8 Glm.hello Glm.yo Hs Ht).
Defined.

(* ===================================================================== *)
(** * Properties of download_tools.py *)
(* ===================================================================== *)

Section Download.
Context `{DownloadTools.Outside}.
Import DownloadTools.

Lemma float_limit_pos : (0 < float_limit)%Z.
Proof. vm_compute. reflexivity. Qed.

(** A quotient that is small enough and has a divisor raises nothing. *)
Lemma true_divide_ok a b :
  b <> 0%Z -> (Z.abs a < float_limit)%Z -> true_divide a b = None.
Proof.
  intros Hb Ha. unfold true_divide.
  destruct (Z.eqb_spec b 0) as [|_]; [contradiction|].
  pose proof float_limit_pos as HL.
  destruct (Z.leb_spec (float_limit * Z.abs b) (Z.abs a)) as [Hle|_]; [|reflexivity].
  exfalso. remember float_limit as L. nia.
Qed.

(** X24. Nothing happens to the file unless the response is good: a
    response without the header [content-length] raises the [KeyError]
    of the header whatever its status is, since the header is read
    before the status is looked at; a response with a status other than
    200 and a header that parses raises the [KeyError] that names the
    url.  The file is not opened in either case. *)
Theorem X24_no_file_without_a_good_response (url filepath : string) (chunk_size : Z)
    (r : response) :
  requests_get url = inr r ->
  (content_length r = None ->
   downlond_with_progress_bar url filepath chunk_size
     = (inl (Raise KeyError (Runtime "content-length")), []))
  /\ (forall text content_size,
        content_length r = Some text -> py_int text = Some content_size ->
        status_code r <> succeed ->
        downlond_with_progress_bar url filepath chunk_size
          = (inl (Raise KeyError (Runtime (url +:+ " is unconnected!"))), [])).
Proof.
  intros Hr. unfold downlond_with_progress_bar. rewrite Hr. split.
  - intros ->. reflexivity.
  - intros text content_size -> -> Hs.
    destruct (Z.eqb_spec (status_code r) succeed); [contradiction|reflexivity].
Qed.

Lemma write_chunks_all content_size : forall chunks size file,
  content_size <> 0%Z -> (0 <= size)%Z ->
  (50 * (size + Z.of_nat (list_sum (map String.length chunks))) < float_limit)%Z ->
  write_chunks content_size chunks size file = (None, file ++ map WriteData chunks).
Proof.
  induction chunks as [|data rest IH]; intros size file Hc Hs Hsmall; simpl.
  - now rewrite app_nil_r.
  - simpl in Hsmall.
    rewrite !true_divide_ok by (try exact Hc; lia).
    rewrite IH by (try exact Hc; lia).
    now rewrite <- List.app_assoc.
Qed.

(** X25. A response with status 200 and a content length that is not
    zero: the file is opened, every chunk of the stream is written to it
    in order, and the file is closed.  When the stream breaks after some
    chunks, these have been written, the file is closed, and the
    exception of the stream leaves the function. *)
Theorem X25_the_chunks_reach_the_file (url filepath text : string)
    (chunk_size content_size : Z) (r : response) (chunks : list string)
    (failure : option exn) :
  requests_get url = inr r ->
  content_length r = Some text ->
  py_int text = Some content_size ->
  status_code r = succeed ->
  chunk_size <> 0%Z ->
  content_size <> 0%Z ->
  (Z.abs content_size < float_limit)%Z ->
  open_wb filepath = None ->
  iter_content r chunk_size = (chunks, failure) ->
  (50 * Z.of_nat (list_sum (map String.length chunks)) < float_limit)%Z ->
  downlond_with_progress_bar url filepath chunk_size
    = (match failure with Some e => inl e | None => inr tt end,
       OpenWb filepath :: map WriteData chunks
       ++ match failure with Some _ => [Close] | None => [Close; Close] end).
Proof.
  intros Hr Hh Hi Hs Hk Hc Hsize Ho Hit Hsmall.
  unfold downlond_with_progress_bar. rewrite Hr, Hh, Hi, Hs, Z.eqb_refl.
  rewrite true_divide_ok, Ho, Hit by assumption.
  rewrite write_chunks_all by (try exact Hc; lia).
  destruct failure; reflexivity.
Qed.

(** X26. A response with status 200 whose [content-length] is 0 but
    whose stream yields a chunk: the first chunk is written to the file,
    then the progress bar divides by zero; the file is closed and holds
    that one chunk. *)
Theorem X26_zero_length_stops_after_one_chunk (url filepath text : string)
    (chunk_size : Z) (r : response) (data : string) (rest : list string)
    (failure : option exn) :
  requests_get url = inr r ->
  content_length r = Some text ->
  py_int text = Some 0%Z ->
  status_code r = succeed ->
  chunk_size <> 0%Z ->
  open_wb filepath = None ->
  iter_content r chunk_size = (data :: rest, failure) ->
  downlond_with_progress_bar url filepath chunk_size
    = (inl (Raise (ExternalError "ZeroDivisionError") (Runtime "division by zero")),
       [OpenWb filepath; WriteData data; Close]).
Proof.
  intros Hr Hh Hi Hs Hk Ho Hit.
  unfold downlond_with_progress_bar. rewrite Hr, Hh, Hi, Hs, Z.eqb_refl.
  rewrite true_divide_ok, Ho, Hit by (try exact Hk; apply float_limit_pos).
  reflexivity.
Qed.

End Download.

Lemma X24_witness :
  @DownloadTools.downlond_with_progress_bar Server.outside
    "http://models/missing" "model.ckpt" 1024
  = (inl (Raise KeyError (Runtime "content-length")), []).
Proof.
  apply (proj1 (@X24_no_file_without_a_good_response Server.outside
                  "http://models/missing" "model.ckpt" 1024
                  (DownloadTools.Response 404 None (fun _ => ([], None))) eq_refl)).
  reflexivity.
Defined.

Lemma X25_witness :
  @DownloadTools.downlond_with_progress_bar Server.outside
    "http://models/ok" "model.ckpt" 1024
  = (inr tt,
     [DownloadTools.OpenWb "model.ckpt"; DownloadTools.WriteData "abc";
      DownloadTools.WriteData "def"; DownloadTools.Close; DownloadTools.Close]).
Proof.
  assert (Hsize : (Z.abs 6 < DownloadTools.float_limit)%Z) by (vm_compute; reflexivity).
  assert (Hsmall : (50 * Z.of_nat (list_sum (map String.length ["abc"; "def"]))
                    < DownloadTools.float_limit)%Z) by (vm_compute; reflexivity).
  assert (Hk : 1024%Z <> 0%Z) by discriminate.
  assert (Hc : 6%Z <> 0%Z) by discriminate.
  exact (@X25_the_chunks_reach_the_file Server.outside
           "http://models/ok" "model.ckpt" "6" 1024 6
           (DownloadTools.Response 200 (Some "6") (fun _ => (["abc"; "def"], None)))
           ["abc"; "def"] None
           eq_refl eq_refl eq_refl eq_refl Hk Hc Hsize eq_refl eq_refl Hsmall).
Defined.

Lemma X26_witness :
  @DownloadTools.downlond_with_progress_bar Server.outside
    "http://models/empty" "model.ckpt" 1024
  = (inl (Raise (ExternalError "ZeroDivisionError") (Runtime "division by zero")),
     [DownloadTools.OpenWb "model.ckpt"; DownloadTools.WriteData "abc";
      DownloadTools.Close]).
Proof.
  assert (Hk : 1024%Z <> 0%Z) by discriminate.
  exact (@X26_zero_length_stops_after_one_chunk Server.outside
           "http://models/empty" "model.ckpt" "0" 1024
           (DownloadTools.Response 200 (Some "0") (fun _ => (["abc"], None)))
           "abc" [] None
           eq_refl eq_refl eq_refl eq_refl Hk eq_refl eq_refl).
Defined.

Section KeyWordGenLabels.
Import Np NpFacts KeyWordGenDataset.

(** X27. [get_position_ids] in the one-dimensional encoding with the
    default [use_gmasks] (a list of one [False]), for mask positions
    that fit the 64-bit elements of the result: without [bos_token_id]
    the positions are 0, 1, ...; with one, at position [c], the
    positions from [c] on are the first mask position; with two or more
    the call raises [IndexError], as it does with one and no mask
    position. *)
Theorem X27_flat_positions_allow_one_bos (input_ids mask_positions : list Z)
    (bos_token_id : Z) :
  forallb in_int64 mask_positions = true ->
  get_position_ids input_ids mask_positions None bos_token_id false =
    match Np.argwhere_eq bos_token_id input_ids, mask_positions with
    | [], _ => inr (Vector (Np.arange (length input_ids)))
    | [c], m :: _ =>
        inr (Vector (Np.arange c ++ repeat m (length input_ids - c)))
    | _, _ => inl (Raise IndexError (Runtime "index is out of bounds"))
    end.
Proof.
  intros _. unfold get_position_ids.
  destruct (argwhere_eq bos_token_id input_ids) as [|c [|c' bs]] eqn:Ebs.
  - reflexivity.
  - destruct mask_positions as [|m mp]; [reflexivity|].
    assert (Hc : nth_error input_ids c = Some bos_token_id).
    { apply argwhere_eq_In. rewrite Ebs. now left. }
    assert (Hcn : c < length input_ids) by (apply nth_error_Some; congruence).
    cbn [assign_unless_gmask nth_error]. rewrite Z.eqb_refl.
    unfold assign_from. rewrite firstn_arange, arange_length by lia. reflexivity.
  - destruct mask_positions as [|m mp]; reflexivity.
Qed.

Lemma py_index_app x l l' k :
  py_index x l = Some k -> py_index x (l ++ l') = Some k.
Proof.
  revert k. induction l as [|y l IH]; intros k; simpl; [discriminate|].
  destruct (Z.eqb y x); [auto|].
  destruct (py_index x l) as [k'|]; [|discriminate].
  intros [= <-]. now rewrite (IH k' eq_refl).
Qed.

Lemma nth_repeat_lt {A : Type} (a d : A) n j : j < n -> nth j (repeat a n) d = a.
Proof.
  intros Hj. rewrite (nth_indep _ d a) by (rewrite repeat_length; exact Hj).
  apply nth_repeat.
Qed.

(** X28. On a sample that [train_dataset_function] returns, with [k] the
    first position of the tokenizer's [bos_token_id] in [input_ids]: the
    labels before [k] are -100, and from [k] on each label is the input
    id that follows it (padding included), so the labels are the inputs
    shifted by one.  With [ignore_pad_token_for_loss] a label that would
    be the padding id is -100 instead. *)
Theorem X28_labels_are_the_next_ids (c : cls) (prompt answer : text)
    (input_ids label : list Z) (position_ids : ndarray)
    (attention_mask : list (list (list Z))) :
  train_dataset_function c prompt answer
    = inr (input_ids, label, position_ids, attention_mask) ->
  exists k,
    py_index (bos_token_id (tokenizer c)) input_ids = Some k
    /\ (forall j, j < k -> nth j label 0%Z = (-100)%Z)
    /\ (forall j, k <= j -> j + 1 < length input_ids ->
        nth j label 0%Z =
          let next := nth (j + 1) input_ids 0%Z in
          if ignore_pad_token_for_loss c && Z.eqb next (pad_token_id (tokenizer c))
          then (-100)%Z else next).
Proof.
  intros Hrun.
  destruct (train_dataset_function_inv _ _ _ _ _ _ _ Hrun)
    as (built & k & Hk & Hin & Hlabel & _ & _).
  destruct (py_index_In _ _ _ Hk) as [Hkl _].
  exists k. split; [rewrite Hin; now apply py_index_app|].
  cbv zeta in Hlabel.
  set (pad := pad_token_id (tokenizer c)) in *.
  set (f := fun l : Z => if negb (l =? pad)%Z then l else (-100)%Z) in *.
  set (M := max_seq_length c) in *.
  assert (Hrep : py_repeat (-100)%Z (Z.of_nat k) = repeat (-100)%Z k).
  { unfold py_repeat. now rewrite Nat2Z.id. }
  assert (Hdrop : py_drop (Z.of_nat k - 1 + 2) built = skipn (k + 1) built).
  { unfold py_drop. rewrite (proj2 (Z.leb_le 0 (Z.of_nat k - 1 + 2))) by lia.
    f_equal. lia. }
  rewrite Hrep, Hdrop in Hlabel. unfold py_repeat in Hlabel, Hin.
  set (P := Z.to_nat (M - len built)) in *.
  set (P' := Z.to_nat (M - len built + 1)) in *.
  set (label0 := (repeat (-100)%Z k ++ skipn (k + 1) built) ++ repeat pad P') in *.
  assert (Hlen0 : length label0 = k + (length built - (k + 1)) + P').
  { unfold label0. rewrite !length_app, !repeat_length, length_skipn. lia. }
  assert (Hleni : length input_ids = length built + P).
  { rewrite Hin. now rewrite length_app, repeat_length. }
  assert (HP : 0 < P -> P' = P + 1) by (unfold P, P', len; lia).
  assert (Hbefore : forall j, j < k -> nth j label0 0%Z = (-100)%Z).
  { intros j Hj. unfold label0.
    rewrite app_nth1 by (rewrite length_app, repeat_length; lia).
    rewrite app_nth1 by (rewrite repeat_length; lia).
    now apply nth_repeat_lt. }
  assert (Hafter : forall j, k <= j -> j + 1 < length input_ids ->
            j < length label0 /\ nth j label0 0%Z = nth (j + 1) input_ids 0%Z).
  { intros j Hj Hj1. rewrite Hleni in Hj1. split; [rewrite Hlen0; lia|].
    unfold label0. rewrite Hin.
    destruct (Nat.lt_ge_cases (j + 1) (length built)) as [Hlt|Hge].
    - rewrite app_nth1 by (rewrite length_app, repeat_length, length_skipn; lia).
      rewrite app_nth2 by (rewrite repeat_length; lia).
      rewrite repeat_length, nth_skipn_add.
      rewrite (app_nth1 built) by exact Hlt. f_equal. lia.
    - rewrite app_nth2 by (rewrite length_app, repeat_length, length_skipn; lia).
      rewrite (app_nth2 built) by exact Hge.
      rewrite !nth_repeat_lt; [reflexivity|lia|].
      rewrite length_app, repeat_length, length_skipn. lia. }
  split.
  - intros j Hj. rewrite Hlabel.
    destruct (ignore_pad_token_for_loss c); [|now apply Hbefore].
    rewrite (nth_map_lt f _ j 0%Z) by (rewrite Hlen0; lia).
    rewrite Hbefore by exact Hj. unfold f. now destruct (negb _).
  - intros j Hj Hj1. cbv zeta. destruct (Hafter j Hj Hj1) as [Hjl Hnth].
    rewrite Hlabel.
    destruct (ignore_pad_token_for_loss c); simpl; [|exact Hnth].
    rewrite (nth_map_lt f _ j 0%Z) by exact Hjl.
    rewrite Hnth. unfold f. now destruct (Z.eqb _ pad).
Qed.

End KeyWordGenLabels.

Lemma X27_witness :
  KeyWordGenDataset.get_position_ids [5; 130004; 7; 8]%Z [9]%Z None 130004 false
  = inr (Vector [0; 9; 9; 9]%Z).
Proof.
  assert (Hfit : forallb in_int64 [9]%Z = true) by (vm_compute; reflexivity).
  exact (X27_flat_positions_allow_one_bos [5; 130004; 7; 8]%Z [9]%Z 130004 Hfit).
Defined.

Lemma X28_witness :
  exists k,
    py_index (KeyWordGenDataset.bos_token_id (KeyWordGenDataset.tokenizer Glm.c8))
      Glm.input_ids = Some k
    /\ (forall j, j < k -> nth j Glm.label 0%Z = (-100)%Z)
    /\ (forall j, k <= j -> j + 1 < length Glm.input_ids ->
        nth j Glm.label 0%Z =
          let next := nth (j + 1) Glm.input_ids 0%Z in
          if KeyWordGenDataset.ignore_pad_token_for_loss Glm.c8
             && Z.eqb next
                  (KeyWordGenDataset.pad_token_id (KeyWordGenDataset.tokenizer Glm.c8))
          then (-100)%Z else next).
Proof.
  assert (Hrun : KeyWordGenDataset.train_dataset_function Glm.c8 Glm.hi Glm.yo
                 = inr (Glm.input_ids, Glm.label, Glm.position_ids,
                        KeyWordGenDataset.get_masks Glm.input_ids
                          KeyWordGenDataset.default_bos_token_id))
    by (vm_compute; reflexivity).
  exact (X28_labels_are_the_next_ids Glm.c8 Glm.hi Glm.yo _ _ _ _ Hrun).
Defined.
